(** * Perception-action loop of the browser agent: a shallow embedding

    The development follows the repository's files:
    - [Views]: the conversation history
      (src/server/agent/message-manager/views.js);
    - [Service]: the conversation manager, the module the server requires as
      agent/message-manager/service (src/unnamed/part_005);
    - [DomBuilder]: the document model builder (src/extension/domBuilder.js);
    - [Parsing]: the values of JSON and the two decision parsers,
      [AgentGraph.parseAction] (src/server/agent/graph.js) and
      [AgentService.parseActionFromLLM] (the agent service in
      src/server/agent/message-manager.js);
    - [ActionController]: the action executor
      (src/extension/actionController.js);
    - [ContentScript]: the action queue and the configuration of the content
      script (the second script of src/unnamed/part_002);
    - [Llm]: the message formats of the model clients
      (src/unnamed/part_006) and of the server's helper
      (src/unnamed/part_004);
    - [Legacy]: the first conversation manager, [MessageManager] of
      src/server/agent/message-manager.js, and the nodes of the agent graph
      (src/server/agent/graph.js);
    - [Agent]: the agent service, [AgentService] of
      src/server/agent/message-manager.js, with the server's handler of an
      action result (src/unnamed/part_004) and the way of a result from the
      executor to the server (src/unnamed/part_002);
    - [Background] and [Popup]: the reconnection of the background script
      (src/unnamed/part_002) and the popup's list of results
      (src/unnamed/part_001).

    JavaScript strings are modelled as [string] (one character per code
    unit, code units below 256), the numbers the code counts with as [Z] or
    [nat], other numbers as exact rationals [Q].  Timestamps and console
    output are left out.  The definitions come first, module by module; the
    properties follow. *)

From Stdlib Require Import List String Ascii Bool Arith ZArith QArith Qminmax Lia.
From Stdlib Require Import DecimalString Sorted Lqa.
From Stdlib Require DecimalNat DecimalFacts.
From Stdlib Require Import ZifyBool.
Import ListNotations.

Set Implicit Arguments.
Set Warnings "-register-all".
Close Scope Q_scope.

(** ** Host string operations *)
Module JS.

Local Open Scope string_scope.

(** The double-quote character, spliced into literals that contain it. *)
Definition dquote : string := String (ascii_of_nat 34) EmptyString.

(** [s.includes(sub)] *)
Fixpoint includes (sub s : string) : bool :=
  if String.prefix sub s then true
  else match s with
       | EmptyString => false
       | String _ s' => includes sub s'
       end.

(** White space and line terminators of ECMAScript among the code units
    below 256: TAB, LF, VT, FF, CR, SP and NBSP. *)
Definition isWhiteSpace (c : ascii) : bool :=
  let n := nat_of_ascii c in
  (((9 <=? n) && (n <=? 13)) || (n =? 32) || (n =? 160))%nat.

Fixpoint trimStart (s : string) : string :=
  match s with
  | String c s' => if isWhiteSpace c then trimStart s' else s
  | EmptyString => EmptyString
  end.

(** Drops the trailing white space: a character is kept when it is not
    white space or when something is kept after it. *)
Fixpoint trimEnd (s : string) : string :=
  match s with
  | EmptyString => EmptyString
  | String c s' =>
      match trimEnd s' with
      | EmptyString => if isWhiteSpace c then EmptyString else String c EmptyString
      | rest => String c rest
      end
  end.

(** [s.trim()] *)
Definition trim (s : string) : string := trimEnd (trimStart s).

(** The lower case of a code unit below 256: that of A to Z and of the
    letters from 192 to 222 (215, the multiplication sign, is none) lies 32
    above. *)
Definition lowerChar (c : ascii) : ascii :=
  let n := nat_of_ascii c in
  if (((65 <=? n) && (n <=? 90))
      || ((192 <=? n) && (n <=? 222) && negb (n =? 215)))%nat
  then ascii_of_nat (n + 32) else c.

(** [s.toLowerCase()] *)
Fixpoint toLowerCase (s : string) : string :=
  match s with
  | EmptyString => EmptyString
  | String c s' => String (lowerChar c) (toLowerCase s')
  end.

(** The upper case of a code unit below 256, where it is one: that of a to
    z and of the letters from 224 to 254 (247, the division sign, is none)
    lies 32 below. *)
Definition upperChar (c : ascii) : ascii :=
  let n := nat_of_ascii c in
  if (((97 <=? n) && (n <=? 122))
      || ((224 <=? n) && (n <=? 254) && negb (n =? 247)))%nat
  then ascii_of_nat (n - 32) else c.

(** [s.toUpperCase()]: the sharp s (223) becomes SS.  The micro sign (181)
    and the y with diaeresis (255), whose upper case is no code unit below
    256, are left as they are. *)
Fixpoint toUpperCase (s : string) : string :=
  match s with
  | EmptyString => EmptyString
  | String c s' =>
      if (nat_of_ascii c =? 223)%nat then String "S" (String "S" (toUpperCase s'))
      else String (upperChar c) (toUpperCase s')
  end.

(** Truthiness of a string: only the empty string is falsy. *)
Definition truthy (s : string) : bool :=
  match s with EmptyString => false | _ => true end.

(** Truthiness of a possibly undefined string. *)
Definition truthyOpt (o : option string) : bool :=
  match o with Some s => truthy s | None => false end.

(** [o !== undefined] *)
Definition defined {A : Type} (o : option A) : bool :=
  match o with Some _ => true | None => false end.

(** A natural number in a template literal. *)
Definition showNat (n : nat) : string := NilZero.string_of_uint (Nat.to_uint n).

(** A possibly undefined string in a template literal. *)
Definition showOpt (o : option string) : string :=
  match o with Some s => s | None => "undefined" end.

(** The line feed. *)
Definition nl : string := String (ascii_of_nat 10) EmptyString.

(** [l.join(sep)] on an array of strings. *)
Fixpoint join (sep : string) (l : list string) : string :=
  match l with
  | [] => ""
  | [s] => s
  | s :: l' => s ++ sep ++ join sep l'
  end.

End JS.

(** ** Conversation history (message-manager/views.js) *)
Module Views.

Local Open Scope Z_scope.

(** A chat message [{ role, content }]. *)
Record Message := mkMessage { role : string; content : string }.

(** [MessageMetadata]: the token estimate (the timestamp is not modelled). *)
Record MessageMetadata := mkMetadata { tokens : Z }.

(** One element of [MessageHistory.messages]. *)
Record Entry := mkEntry { message : Message; metadata : MessageMetadata }.

Record MessageHistory := mkHistory {
  messages : list Entry;
  currentTokens : Z
}.

(** [new MessageHistory()] *)
Definition empty : MessageHistory := mkHistory [] 0.

(** [MessageHistory.addMessage(message, metadata)] *)
Definition addMessage (h : MessageHistory) (m : Message) (md : MessageMetadata)
  : MessageHistory :=
  mkHistory (messages h ++ [mkEntry m md]) (currentTokens h + tokens md).

(** [MessageHistory.getMessages()] *)
Definition getMessages (h : MessageHistory) : list Message :=
  map message (messages h).

(** [MessageHistory.getTotalTokens()] *)
Definition getTotalTokens (h : MessageHistory) : Z := currentTokens h.

Definition isSystem (e : Entry) : bool := String.eqb (role (message e)) "system".

(** The [for] loop of [trimIfNeeded]: the first index, counted from [i],
    whose message has a role other than 'system'. *)
Fixpoint firstNonSystem (l : list Entry) (i : nat) : option nat :=
  match l with
  | [] => None
  | e :: l' => if isSystem e then firstNonSystem l' (S i) else Some i
  end.

(** [messages.splice(i, 1)]: the removed elements and what is left. *)
Definition splice1 (l : list Entry) (i : nat) : list Entry * list Entry :=
  (firstn 1 (skipn i l), firstn i l ++ skipn (S i) l).

(** [MessageHistory.trimIfNeeded(maxTokens)]: the returned flag and the
    history afterwards. *)
Definition trimIfNeeded (h : MessageHistory) (maxTokens : Z)
  : bool * MessageHistory :=
  if currentTokens h <=? maxTokens then (false, h)
  else
    match firstNonSystem (messages h) 0 with
    | Some indexToRemove =>
        match splice1 (messages h) indexToRemove with
        | (removed :: _, rest) =>
            (true, mkHistory rest (currentTokens h - tokens (metadata removed)))
        | ([], _) => (false, h)
        end
    | None => (false, h)
    end.

(** The sum of the token estimates of the stored messages. *)
Definition sumTokens (l : list Entry) : Z :=
  fold_right (fun e acc => tokens (metadata e) + acc) 0 l.

(** Eviction as the specification words it: the oldest entry whose role
    is not 'system' is removed. *)
Fixpoint evictOldest (l : list Entry) : list Entry :=
  match l with
  | [] => []
  | e :: l' => if isSystem e then e :: evictOldest l' else l'
  end.

(** The number of entries that eviction can still remove. *)
Definition nonSystemCount (l : list Entry) : nat :=
  List.length (filter (fun e => negb (isSystem e)) l).

(** The operations of a [MessageHistory] that change it. *)
Inductive Op :=
| OpAdd (m : Message) (md : MessageMetadata)
| OpTrim (maxTokens : Z).

Definition applyOp (h : MessageHistory) (o : Op) : MessageHistory :=
  match o with
  | OpAdd m md => addMessage h m md
  | OpTrim maxTokens => snd (trimIfNeeded h maxTokens)
  end.

Definition run (ops : list Op) : MessageHistory := fold_left applyOp ops empty.

End Views.

(** ** Conversation manager ([MessageManager] of the message manager service) *)
Module Service.

Import JS.
Local Open Scope string_scope.

(** The fields of an action that the summary of past actions reads. *)
Record Action := mkAction {
  atype : string;
  xpath : option string;
  text : option string;
  goal : option string;
  direction : option string
}.

(** An action result as [addActionResultMessage] reads it:
    [data_message] is [result.data?.message]. *)
Record Result := mkResult {
  success : bool;
  data_message : option string;
  error : option string;
  action : option Action;
  url : option string
}.

(** A document state message as [formatStateMessage] reads it. *)
Record DomState := mkDomState {
  state_url : string;
  state_title : string;
  interactiveElements : string
}.

(** An element of [actionHistory] (the timestamp is not modelled). *)
Record HistoryEntry := mkHistoryEntry {
  h_action : Action;
  h_result : Result;
  h_url : string
}.

Record MessageManager := mkManager {
  task : string;
  history : Views.MessageHistory;
  maxTokens : Z;
  actionHistory : list HistoryEntry
}.

Definition nl : string := String (ascii_of_nat 10) EmptyString.

(** The system instruction of [addSystemMessage]. *)
Definition systemContent : string :=
"You are an AI agent that interacts with web pages. You will be given information about the current state of a webpage and must decide what action to take next. The goal is to complete the user's task.

Your response should be a JSON object with this structure:
{
  " ++ dquote ++
"current_state" ++ dquote ++
": {
    " ++ dquote ++
"evaluation" ++ dquote ++
": " ++ dquote ++
"Your analysis of the current page state" ++ dquote ++
",
    " ++ dquote ++
"next_goal" ++ dquote ++
": " ++ dquote ++
"What you want to accomplish next" ++ dquote ++
"
  },
  " ++ dquote ++
"action" ++ dquote ++
": {
    " ++ dquote ++
"type" ++ dquote ++
": " ++ dquote ++
"action_name" ++ dquote ++
",
    // Additional parameters based on action type
  }
}

Available actions:
- click_element: Click on an element by XPath. Parameters: { xpath: string }
- input_text: Type text into an input field. Parameters: { xpath: string, text: string }
- extract_content: Extract information from the page. Parameters: { goal: string }
- scroll: Scroll the page. Parameters: { direction: " ++ dquote ++
"up" ++ dquote ++
"|" ++ dquote ++
"down" ++ dquote ++
", amount: number (optional) }
- wait: Wait for specified seconds. Parameters: { seconds: number (optional, default 1) }
- done: Mark task as complete. Parameters: { text: string, success: boolean }

Carefully analyze the webpage elements provided. Elements are identified by [xpath=" ++ dquote ++
"..." ++ dquote ++
"] attributes. Include the element's current 'value' in your analysis. Choose actions that make progress toward completing the task efficiently. Avoid repeating actions that don't lead to progress.

**CRITICAL: Before using 'input_text', check if the target element already has the desired value or similar content. Do NOT use 'input_text' if the field is already correctly filled. Target elements using the full 'xpath' value provided in the square brackets.**".

(** [estimateTokens(text)]: [Math.ceil(text.length / 4)]. *)
Definition estimateTokens (s : string) : Z :=
  Z.of_nat ((String.length s + 3) / 4)%nat.

(** The [while] loop of [addMessage]: each round calls [trimIfNeeded] and
    stops when it reports that nothing was removed.  [fuel] bounds the
    number of rounds. *)
Fixpoint trimLoop (fuel : nat) (h : Views.MessageHistory) (maxTokens : Z)
  : Views.MessageHistory :=
  match fuel with
  | O => h
  | S fuel' =>
      if (Views.getTotalTokens h >? maxTokens)%Z then
        let (trimmed, h') := Views.trimIfNeeded h maxTokens in
        if trimmed then trimLoop fuel' h' maxTokens else h'
      else h
  end.

(** [MessageManager.addMessage(message)].  A round of the loop that goes on
    removes a message, so one round more than there are messages is enough
    (see [trimLoop_spec]). *)
Definition addMessage (mm : MessageManager) (m : Views.Message) : MessageManager :=
  let tokenEstimate := estimateTokens (Views.content m) in
  let metadata := Views.mkMetadata tokenEstimate in
  let h := Views.addMessage (history mm) m metadata in
  mkManager (task mm)
            (trimLoop (S (List.length (Views.messages h))) h (maxTokens mm))
            (maxTokens mm) (actionHistory mm).

Definition addSystemMessage (mm : MessageManager) : MessageManager :=
  addMessage mm (Views.mkMessage "system" systemContent).

Definition addTaskMessage (mm : MessageManager) : MessageManager :=
  addMessage mm
    (Views.mkMessage "user" ("Your task is: " ++ dquote ++ task mm ++ dquote)).

(** [options.maxTokens || 8000]: an absent or zero option gives 8000. *)
Definition maxTokensOption (o : option Z) : Z :=
  match o with
  | Some 0%Z | None => 8000%Z
  | Some n => n
  end.

(** [new MessageManager(task, options)] *)
Definition constructor (task : string) (optMaxTokens : option Z) : MessageManager :=
  addTaskMessage
    (addSystemMessage
       (mkManager task Views.empty (maxTokensOption optMaxTokens) [])).

(** One line of [generateActionSummary], for the entry at [index]. *)
Definition summaryLine (index : nat) (entry : HistoryEntry) : string :=
  let a := h_action entry in
  let actionStr := "Step " ++ showNat (index + 1) ++ ": " ++ atype a in
  let actionStr :=
    if String.eqb (atype a) "click_element" && defined (xpath a) then
      actionStr ++ " on element [" ++ showOpt (xpath a) ++ "]"
    else if String.eqb (atype a) "input_text" && defined (xpath a) then
      actionStr ++ " on element [" ++ showOpt (xpath a) ++ "] with text "
                ++ dquote ++ showOpt (text a) ++ dquote
    else if String.eqb (atype a) "extract_content" then
      actionStr ++ " with goal " ++ dquote ++ showOpt (goal a) ++ dquote
    else if String.eqb (atype a) "scroll" then
      actionStr ++ " " ++ showOpt (direction a)
    else actionStr in
  let outcomeStr := if success (h_result entry) then "succeeded" else "failed" in
  actionStr ++ ", " ++ outcomeStr ++ nl.

Fixpoint summaryLines (index : nat) (l : list HistoryEntry) : string :=
  match l with
  | [] => ""
  | entry :: l' => summaryLine index entry ++ summaryLines (S index) l'
  end.

(** [generateActionSummary()] *)
Definition generateActionSummary (mm : MessageManager) : string :=
  match actionHistory mm with
  | [] => ""
  | l => "Previous actions:" ++ nl ++ summaryLines 0 l
  end.

(** [formatStateMessage(state)] *)
Definition formatStateMessage (mm : MessageManager) (state : DomState) : string :=
  "Task: " ++ task mm ++ nl ++ nl
  ++ "Current URL: " ++ state_url state ++ nl ++ "Title: " ++ state_title state ++ nl ++ nl
  ++ "Interactive elements:" ++ nl
  ++ interactiveElements state.

(** [addStateMessage(state)] *)
Definition addStateMessage (mm : MessageManager) (state : DomState) : MessageManager :=
  let summary := generateActionSummary mm in
  let mm1 := if truthy summary then addMessage mm (Views.mkMessage "system" summary)
             else mm in
  addMessage mm1 (Views.mkMessage "user" (formatStateMessage mm1 state)).

(** [addActionToHistory(action, result)] *)
Definition addActionToHistory (mm : MessageManager) (a : Action) (r : Result)
  : MessageManager :=
  let u := if truthyOpt (url r) then showOpt (url r) else "unknown" in
  mkManager (task mm) (history mm) (maxTokens mm)
            (actionHistory mm ++ [mkHistoryEntry a r u]).

(** [addActionResultMessage(result)] *)
Definition addActionResultMessage (mm : MessageManager) (r : Result) : MessageManager :=
  let content :=
    if success r then
      "Action completed: "
      ++ (if truthyOpt (data_message r) then showOpt (data_message r) else "Success")
    else
      "Action failed: "
      ++ (if truthyOpt (error r) then showOpt (error r) else "Unknown error") in
  let mm1 := addMessage mm (Views.mkMessage "system" content) in
  match action r with
  | Some a => addActionToHistory mm1 a r
  | None => mm1
  end.

(** [addNavigationMessage(url)] *)
Definition addNavigationMessage (mm : MessageManager) (u : string) : MessageManager :=
  addMessage mm (Views.mkMessage "system" ("Page navigation occurred. New URL: " ++ u)).

(** The additions of the manager's interface. *)
Inductive Op :=
| AddTask
| AddState (state : DomState)
| AddActionResult (r : Result)
| AddNavigation (u : string).

Definition applyOp (mm : MessageManager) (o : Op) : MessageManager :=
  match o with
  | AddTask => addTaskMessage mm
  | AddState s => addStateMessage mm s
  | AddActionResult r => addActionResultMessage mm r
  | AddNavigation u => addNavigationMessage mm u
  end.

(** The manager after its construction and a sequence of additions. *)
Definition run (task : string) (optMaxTokens : option Z) (ops : list Op)
  : MessageManager :=
  fold_left applyOp ops (constructor task optMaxTokens).

(** The system instruction and the task statement as the constructor adds them. *)
Definition systemMessage : Views.Message := Views.mkMessage "system" systemContent.

Definition taskMessage (task : string) : Views.Message :=
  Views.mkMessage "user" ("Your task is: " ++ dquote ++ task ++ dquote).

(** The history entry that [addMessage] stores for a message. *)
Definition entryOf (m : Views.Message) : Views.Entry :=
  Views.mkEntry m (Views.mkMetadata (estimateTokens (Views.content m))).

(** What holds of a manager after its construction and any additions: the
    counter is the sum of the stored estimates, the system instruction is
    the first entry, and the total is within the budget unless only
    system-role entries are left. *)
Definition managerInv (mm : MessageManager) : Prop :=
  Views.currentTokens (history mm) = Views.sumTokens (Views.messages (history mm))
  /\ (exists rest, Views.messages (history mm) = entryOf systemMessage :: rest)
  /\ (Views.getTotalTokens (history mm) <= maxTokens mm
      \/ forallb Views.isSystem (Views.messages (history mm)) = true)%Z.

(** A run with a budget of 400: the construction for the task "t", then one
    navigation notice. *)
Definition exampleRun : MessageManager :=
  run "t" (Some 400%Z) [AddNavigation "x"].

(** The observation that [addStateMessage] appends for a state. *)
Definition stateMessage (mm : MessageManager) (state : DomState) : Views.Message :=
  Views.mkMessage "user" (formatStateMessage mm state).

(** Every stored estimate is that of some text: it is not negative. *)
Definition estimatesNonNegative (l : list Views.Entry) : Prop :=
  Forall (fun e => (0 <= Views.tokens (Views.metadata e))%Z) l.

(** A page with one link, as the content script reports it. *)
Definition exampleState : DomState :=
  mkDomState "https://example.org/" "Example"
             "[0][xpath=html/body/a]<a>More information</a>".

End Service.

(** ** Document model builder (extension/domBuilder.js) *)
Module DomBuilder.

Import JS.
Local Open Scope string_scope.

(** *** The host's document, as the builder reads it *)

(** A [DOMRect]. *)
Record Rect := mkRect {
  top : Q; left : Q; bottom : Q; right : Q; width : Q; height : Q
}.

(** The properties of a computed style that the builder reads. *)
Record Style := mkStyle {
  visibility : string; display : string; opacity : string; cursor : string
}.

(** [element.getRootNode()]: the document, or a shadow root. *)
Inductive RootNode := InDocument | InShadowRoot (root : nat).

(** An element node: its identity [uid] (two references are [===] when
    their [uid]s are equal) and the properties the builder reads. *)
Record Element := mkElement {
  uid : nat;
  id : string;
  tagName : string;
  attributes : list (string * string);
  offsetWidth : Z;
  offsetHeight : Z;
  style : Style;
  rect : Rect;
  onclick : bool;
  draggable : bool;
  rootNode : RootNode
}.

(** The parent element of a text node, as [_isTextNodeVisible] reads it:
    what [checkVisibility] returns ([None] when the call raises) and the
    computed style. *)
Record TextParent := mkTextParent {
  checkVisibility : option bool;
  parentStyle : Style
}.

(** [node.contentDocument || node.contentWindow.document] of a frame. *)
Inductive FrameDocument (N : Type) :=
| FrameRaises
| FrameNull
| FrameBody (body : option N).

Arguments FrameRaises {N}.
Arguments FrameNull {N}.
Arguments FrameBody {N} body.

(** A node of the document tree: a text node with the bounding box of its
    contents, an element with its child nodes, the child nodes of its shadow
    root if it has one and the document it frames, or a node of another
    type (a comment, for one). *)
Inductive Node :=
| Text (textContent : string) (rangeRect : Rect) (parentElement : option TextParent)
| Elem (e : Element) (childNodes : list Node) (shadowRoot : option (list Node))
       (contentDocument : FrameDocument Node)
| Other.

(** The window: the viewport's size, the document element, and hit testing
    inside the viewport.  A hit is the element found with its chain of
    [parentElement]s, innermost first; [[]] stands for [null]. *)
Record Window := mkWindow {
  innerWidth : Q;
  innerHeight : Q;
  documentElement : nat;
  hitTest : Q -> Q -> list nat;
  shadowHitTest : nat -> Q -> Q -> list nat
}.

Record Page := mkPage { window : Window; body : Node }.

Definition Qltb (a b : Q) : bool := negb (Qle_bool b a).

(** [elementFromPoint(x, y)] answers [null] outside the viewport (a negative
    coordinate, or one greater than the viewport's extent), as CSSOM View has
    it; inside, it is the host's hit test. *)
Definition insideViewport (w : Window) (x y : Q) : bool :=
  Qle_bool 0 x && Qle_bool x (innerWidth w)
  && Qle_bool 0 y && Qle_bool y (innerHeight w).

Definition document_elementFromPoint (w : Window) (x y : Q) : list nat :=
  if insideViewport w x y then hitTest w x y else [].

Definition shadowRoot_elementFromPoint (w : Window) (root : nat) (x y : Q) : list nat :=
  if insideViewport w x y then shadowHitTest w root x y else [].

(** [element.getAttribute(name)] *)
Fixpoint getAttribute (attrs : list (string * string)) (name : string) : option string :=
  match attrs with
  | [] => None
  | (n, v) :: attrs' => if String.eqb n name then Some v else getAttribute attrs' name
  end.

(** [element.hasAttribute(name)] *)
Definition hasAttribute (attrs : list (string * string)) (name : string) : bool :=
  defined (getAttribute attrs name).

Definition has (set : list string) (s : string) : bool :=
  existsb (String.eqb s) set.

(** *** The builder *)

Record Options := mkOptions {
  highlightElements : bool;
  focusHighlightIndex : Z;
  viewportExpansion : Z;
  debugMode : bool
}.

(** The defaults of the constructor. *)
Definition defaultOptions : Options := mkOptions true (-1) 300 false.

Definition HIGHLIGHT_CONTAINER_ID : string := "agent-highlight-container".

(** An overlay drawn by [_highlightElement]: the index shown, the index of
    its colour in the palette of ten, and its box. *)
Record Overlay := mkOverlay {
  ov_index : nat;
  ov_colorIndex : nat;
  ov_top : Q;
  ov_left : Q;
  ov_width : Q;
  ov_height : Q
}.

(** The builder's mutable state: the counter, the map from index to node
    (in the order the keys were set), and the overlays drawn. *)
Record State := mkState {
  highlightIndex : nat;
  selectorMap : list (nat * Element);
  overlays : list Overlay
}.

(** The node data of the returned tree (the locator string is not modelled). *)
Inductive NodeData :=
| TextData (text : string)
| ElemData (tag : string) (attrs : list (string * string)) (children : list NodeData)
           (isInteractive isTopElement isInViewport : bool)
           (highlight_index : option nat) (hasShadowRoot : bool).

Definition leafElementDenyList : list string :=
  ["svg"; "script"; "style"; "link"; "meta"; "noscript"; "template"].

(** [_isElementAccepted(element)] *)
Definition _isElementAccepted (e : Element) : bool :=
  truthy (tagName e) && negb (has leafElementDenyList (toLowerCase (tagName e))).

Definition styleShown (s : Style) : bool :=
  negb (String.eqb (visibility s) "hidden")
  && negb (String.eqb (display s) "none")
  && negb (String.eqb (opacity s) "0").

(** [_isElementVisible(element)] *)
Definition _isElementVisible (e : Element) : bool :=
  (0 <? offsetWidth e)%Z && (0 <? offsetHeight e)%Z && styleShown (style e).

(** [_isInExpandedViewport(element, viewportExpansion)], on the element's
    bounding box. *)
Definition _isInExpandedViewport (w : Window) (r : Rect) (viewportExpansion : Z) : bool :=
  if (viewportExpansion =? -1)%Z then true
  else
    let ve := inject_Z viewportExpansion in
    negb (Qltb (bottom r) (- ve)
          || Qltb (innerHeight w + ve) (top r)
          || Qltb (right r) (- ve)
          || Qltb (innerWidth w + ve) (left r))%Q.

(** The loops of [_isTopElement]: climb from the hit element through its
    parent elements, up to [stop] if there is one. *)
Fixpoint climb (stop : option nat) (element : nat) (chain : list nat) : bool :=
  match chain with
  | [] => false
  | current :: parents =>
      if match stop with Some s => Nat.eqb current s | None => false end then false
      else if Nat.eqb current element then true
      else climb stop element parents
  end.

(** [_isTopElement(element)].  In a shadow tree the loop's bound is the
    shadow root, which is no element and so ends no climb. *)
Definition _isTopElement (w : Window) (e : Element) : bool :=
  let centerX := (left (rect e) + width (rect e) / 2)%Q in
  let centerY := (top (rect e) + height (rect e) / 2)%Q in
  match rootNode e with
  | InShadowRoot root =>
      climb None (uid e) (shadowRoot_elementFromPoint w root centerX centerY)
  | InDocument =>
      climb (Some (documentElement w)) (uid e)
            (document_elementFromPoint w centerX centerY)
  end.

Definition interactiveElements : list string :=
  ["a"; "button"; "details"; "embed"; "input"; "label"; "menu"; "menuitem";
   "object"; "select"; "textarea"; "summary"].

Definition interactiveRoles : list string :=
  ["button"; "menu"; "menuitem"; "link"; "checkbox"; "radio"; "slider"; "tab";
   "tabpanel"; "textbox"; "combobox"; "grid"; "listbox"; "option"; "progressbar";
   "scrollbar"; "searchbox"; "switch"; "tree"; "treeitem"; "spinbutton"; "tooltip"].

(** [_isInteractiveElement(element)], as the truth value of what it returns. *)
Definition _isInteractiveElement (e : Element) : bool :=
  let tagName := toLowerCase (tagName e) in
  let role := option_map toLowerCase (getAttribute (attributes e) "role") in
  let tabIndex := getAttribute (attributes e) "tabindex" in
  has interactiveElements tagName
  || match role with Some r => truthy r && has interactiveRoles r | None => false end
  || match tabIndex with Some t => negb (String.eqb t "-1") | None => false end
  || String.eqb (cursor (style e)) "pointer"
  || onclick e
  || truthyOpt (getAttribute (attributes e) "onclick")
  || hasAttribute (attributes e) "ng-click"
  || hasAttribute (attributes e) "@click"
  || hasAttribute (attributes e) "v-on:click"
  || hasAttribute (attributes e) "aria-expanded"
  || hasAttribute (attributes e) "aria-pressed"
  || hasAttribute (attributes e) "aria-selected"
  || hasAttribute (attributes e) "aria-checked"
  || draggable e
  || match getAttribute (attributes e) "draggable" with
     | Some v => String.eqb v "true"
     | None => false
     end.

(** [_isTextNodeVisible(textNode)] *)
Definition _isTextNodeVisible (w : Window) (opts : Options)
           (r : Rect) (parent : option TextParent) : bool :=
  if Qeq_bool (width r) 0 || Qeq_bool (height r) 0 then false
  else
    let isInViewport := _isInExpandedViewport w r (viewportExpansion opts) in
    match parent with
    | None => false
    | Some p =>
        if isInViewport then
          match checkVisibility p with
          | Some visible => visible
          | None => styleShown (parentStyle p)
          end
        else false
    end.

(** [_highlightElement(element, index, parentIframe)]: the overlay it adds
    (the label beside it is not modelled). *)
Definition _highlightElement (e : Element) (index : nat) (parentIframe : option Element)
  : Overlay :=
  let (dtop, dleft) :=
    match parentIframe with
    | Some f => (top (rect f), left (rect f))
    | None => (0%Q, 0%Q)
    end in
  mkOverlay index (index mod 10)
            (top (rect e) + dtop)%Q (left (rect e) + dleft)%Q
            (width (rect e)) (height (rect e)).

(** Is this the node [document.body]? *)
Definition isDocumentBody (p : Page) (e : Element) : bool :=
  match body p with
  | Elem b _ _ _ => Nat.eqb (uid e) (uid b)
  | _ => false
  end.

(** The end of [_buildDomTree]: the three checks, and the index for an
    element that passes them all. *)
Definition evaluate (p : Page) (opts : Options) (e : Element)
           (parentIframe : option Element) (children : list NodeData)
           (hasShadow : bool) (st : State) : NodeData * State :=
  let data inter topEl inView idx :=
    ElemData (toLowerCase (tagName e)) (attributes e) children
             inter topEl inView idx hasShadow in
  if _isInExpandedViewport (window p) (rect e) (viewportExpansion opts) then
    if _isTopElement (window p) e then
      if _isInteractiveElement e then
        let index := highlightIndex st in
        let drawn :=
          if highlightElements opts then
            if (0 <=? focusHighlightIndex opts)%Z then
              if (focusHighlightIndex opts =? Z.of_nat index)%Z
              then [_highlightElement e index parentIframe] else []
            else [_highlightElement e index parentIframe]
          else [] in
        (data true true true (Some index),
         mkState (S index) (selectorMap st ++ [(index, e)]) (overlays st ++ drawn))
      else (data false true true None, st)
    else (data false false true None, st)
  else (data false false false None, st).

Definition pushTree (r : option NodeData) (l : list NodeData) : list NodeData :=
  match r with Some t => l ++ [t] | None => l end.

(** The loops over child nodes: each child is visited in turn and the tree
    it yields, if any, is pushed onto the children collected so far. *)
Section Walk.
Variable visit : Node -> State -> option NodeData * State.

Fixpoint walk (l : list Node) (acc : list NodeData) (st : State)
  : list NodeData * State :=
  match l with
  | [] => (acc, st)
  | child :: l' =>
      let (r, st1) := visit child st in
      walk l' (pushTree r acc) st1
  end.
End Walk.

(** [_buildDomTree(node, parentIframe)]: the tree returned ([None] for
    [null]) and the builder's state afterwards. *)
Fixpoint _buildDomTree (p : Page) (opts : Options) (node : Node)
         (parentIframe : option Element) (st : State) {struct node}
  : option NodeData * State :=
  match node with
  | Other => (None, st)
  | Text textContent r parent =>
      let text := trim textContent in
      if negb (truthy text) || negb (_isTextNodeVisible (window p) opts r parent)
      then (None, st)
      else (Some (TextData text), st)
  | Elem e childNodes shadow frame =>
      if String.eqb (id e) HIGHLIGHT_CONTAINER_ID then (None, st)
      else if negb (_isElementAccepted e) then (None, st)
      else if negb (isDocumentBody p e) && negb (_isElementVisible e) then (None, st)
      else
        let visit child st := _buildDomTree p opts child parentIframe st in
        let (children1, st1) := walk visit childNodes [] st in
        let (children2, st2) :=
          match shadow with
          | Some shadowChildren => walk visit shadowChildren children1 st1
          | None => (children1, st1)
          end in
        let (children3, st3) :=
          if String.eqb (toUpperCase (tagName e)) "IFRAME" then
            match frame with
            | FrameBody (Some iframeBody) =>
                let (r, st') := _buildDomTree p opts iframeBody (Some e) st2 in
                (pushTree r children2, st')
            | FrameBody None | FrameNull | FrameRaises => (children2, st2)
            end
          else (children2, st2) in
        let (data, st4) :=
          evaluate p opts e parentIframe children3 (defined shadow) st3 in
        (Some data, st4)
  end.

(** [build()]: the counter and the map are reset, the tree is built from
    [document.body]; the result is the tree and the map (the state is
    returned whole). *)
Definition build (p : Page) (opts : Options) : option NodeData * State :=
  _buildDomTree p opts (body p) None (mkState 0 [] []).

Definition elementTree (r : option NodeData * State) : option NodeData := fst r.
Definition resultMap (r : option NodeData * State) : list (nat * Element) :=
  selectorMap (snd r).

(** *** Reading a document and a snapshot *)

(** The element nodes of a tree, shadow trees and framed documents included. *)
Fixpoint elementsOf (n : Node) : list Element :=
  match n with
  | Elem e childNodes shadow frame =>
      e :: flat_map elementsOf childNodes
        ++ match shadow with
           | Some shadowChildren => flat_map elementsOf shadowChildren
           | None => []
           end
        ++ match frame with
           | FrameBody (Some iframeBody) => elementsOf iframeBody
           | _ => []
           end
  | _ => []
  end.

(** The indices of a returned tree, those inside an element before its own. *)
Fixpoint postorderIndices (t : NodeData) : list nat :=
  match t with
  | TextData _ => []
  | ElemData _ _ children _ _ _ idx _ =>
      flat_map postorderIndices children
      ++ match idx with Some i => [i] | None => [] end
  end.

(** The indices of a returned tree, an element's own before those inside it. *)
Fixpoint preorderIndices (t : NodeData) : list nat :=
  match t with
  | TextData _ => []
  | ElemData _ _ children _ _ _ idx _ =>
      match idx with Some i => [i] | None => [] end
      ++ flat_map preorderIndices children
  end.

(** In a returned tree, every index inside an element is below the
    element's own. *)
Fixpoint ancestorsLast (t : NodeData) : Prop :=
  match t with
  | TextData _ => True
  | ElemData _ _ children _ _ _ idx _ =>
      match idx with
      | Some i => Forall (fun j => j < i) (flat_map postorderIndices children)
      | None => True
      end
      /\ (fix all (l : list NodeData) : Prop :=
            match l with
            | [] => True
            | c :: l' => ancestorsLast c /\ all l'
            end) children
  end.

Definition treeIndices (walkOrder : NodeData -> list nat) (r : option NodeData)
  : list nat :=
  match r with Some t => walkOrder t | None => [] end.

(** What [_buildDomTree] has checked of an element by the time it gives it
    an index. *)
Definition passesChecks (p : Page) (opts : Options) (e : Element) : bool :=
  negb (String.eqb (id e) HIGHLIGHT_CONTAINER_ID)
  && _isElementAccepted e
  && (isDocumentBody p e || _isElementVisible e)
  && _isInExpandedViewport (window p) (rect e) (viewportExpansion opts)
  && _isTopElement (window p) e
  && _isInteractiveElement e.

(** From [st] to [st'] the map grew by fresh, consecutive indices, given to
    elements of [scope] that pass every check; [indices] are those indices. *)
Definition grows (p : Page) (opts : Options) (scope : list Element)
           (st st' : State) (indices : list nat) : Prop :=
  exists new : list (nat * Element),
    selectorMap st' = (selectorMap st ++ new)%list
    /\ map fst new = seq (highlightIndex st) (List.length new)
    /\ highlightIndex st' = highlightIndex st + List.length new
    /\ indices = map fst new
    /\ Forall (fun ie => In (snd ie) scope /\ passesChecks p opts (snd ie) = true) new.

(** A visit of node [n] makes the map grow so, by the indices of the tree
    it returns. *)
Definition visitGrows (p : Page) (opts : Options)
           (visit : Node -> State -> option NodeData * State) (n : Node) : Prop :=
  forall st, grows p opts (elementsOf n) st (snd (visit n st))
                   (treeIndices postorderIndices (fst (visit n st))).

(** The last three checks of [_buildDomTree], which decide whether an
    element that was not rejected gets an index. *)
Definition qualifies (p : Page) (opts : Options) (e : Element) : bool :=
  _isInExpandedViewport (window p) (rect e) (viewportExpansion opts)
  && _isTopElement (window p) e
  && _isInteractiveElement e.

(** The elements that [_buildDomTree] comes to evaluate, in the order in
    which it does: an element is passed over with all that is inside it
    when it is the container of the overlays, is not accepted or is not
    visible (the body apart); else what is inside it comes first -- its
    child nodes, its shadow tree and, for an IFRAME, the body it frames. *)
Fixpoint visitedElements (p : Page) (n : Node) : list Element :=
  match n with
  | Elem e childNodes shadow frame =>
      if String.eqb (id e) HIGHLIGHT_CONTAINER_ID then []
      else if negb (_isElementAccepted e) then []
      else if negb (isDocumentBody p e) && negb (_isElementVisible e) then []
      else
        flat_map (visitedElements p) childNodes
        ++ match shadow with
           | Some shadowChildren => flat_map (visitedElements p) shadowChildren
           | None => []
           end
        ++ (if String.eqb (toUpperCase (tagName e)) "IFRAME" then
              match frame with
              | FrameBody (Some iframeBody) => visitedElements p iframeBody
              | _ => []
              end
            else [])
        ++ [e]
  | _ => []
  end.

(** The flags of a returned tree agree: an interactive element is a top
    element, a top element is in the viewport, an element has an index
    exactly when it is interactive, and a text is trimmed and not empty. *)
Fixpoint flagsConsistent (t : NodeData) : bool :=
  match t with
  | TextData text => truthy text && String.eqb (trim text) text
  | ElemData _ _ children isInteractive isTopElement isInViewport highlight_index _ =>
      implb isInteractive isTopElement
      && implb isTopElement isInViewport
      && Bool.eqb isInteractive (defined highlight_index)
      && forallb flagsConsistent children
  end.

(** The indices that get an overlay, among those given out: all of them,
    the one in focus, or none. *)
Definition highlightedIndices (opts : Options) (indices : list nat) : list nat :=
  if highlightElements opts then
    if (0 <=? focusHighlightIndex opts)%Z then
      filter (fun index => (focusHighlightIndex opts =? Z.of_nat index)%Z) indices
    else indices
  else [].

(** The overlays drawn are those of the highlighted indices, each in the
    colour of its index. *)
Definition overlaysMatch (opts : Options) (st : State) : Prop :=
  map ov_index (overlays st) = highlightedIndices opts (map fst (selectorMap st))
  /\ Forall (fun o => ov_colorIndex o = ov_index o mod 10) (overlays st).

(** What one visit of a node does: the tree it returns has consistent
    flags, the map grows by the visited elements that qualify, and the
    overlays keep matching the map. *)
Definition visitSpec (p : Page) (opts : Options)
           (visit : Node -> State -> option NodeData * State) (n : Node) : Prop :=
  forall st : State,
    match fst (visit n st) with
    | Some t => flagsConsistent t = true
    | None => True
    end
    /\ map snd (selectorMap (snd (visit n st)))
       = (map snd (selectorMap st)
          ++ filter (qualifies p opts) (visitedElements p n))%list
    /\ (overlaysMatch opts st -> overlaysMatch opts (snd (visit n st))).

(** *** Locators *)

(** A previous sibling as the inner loop of [_getXPathTree] reads it:
    whether it is an element node, and its node name. *)
Record Sibling := mkSibling { isElementNode : bool; nodeName : string }.

(** An element with what [_getXPathTree] finds around it on its way up: its
    node name, its previous siblings, the nearest first, and its parent
    node -- none, a document, a shadow root, or an element, which may be
    an [HTMLIFrameElement]. *)
Inductive Located :=
| Loc (name : string) (previousSiblings : list Sibling) (parentNode : Above)
with Above :=
| NoParent
| DocumentAbove
| ShadowRootAbove
| ElementAbove (isIFrame : bool) (parent : Located).

(** [parentNode instanceof ShadowRoot || parentNode instanceof HTMLIFrameElement] *)
Definition atBoundary (above : Above) : bool :=
  match above with
  | ShadowRootAbove => true
  | ElementAbove isIFrame _ => isIFrame
  | _ => false
  end.

(** The inner loop: the number of previous siblings that are elements of
    the same node name. *)
Definition sameNameBefore (name : string) (previousSiblings : list Sibling) : nat :=
  List.length
    (filter (fun sibling => isElementNode sibling && String.eqb (nodeName sibling) name)
            previousSiblings).

(** The segment of an element: its tag name in lower case, followed by its
    position among the siblings of that name unless it is the first. *)
Definition segmentOf (name : string) (previousSiblings : list Sibling) : string :=
  let index := sameNameBefore name previousSiblings in
  let tagName := toLowerCase name in
  let xpathIndex := if (0 <? index)%nat then "[" ++ showNat (index + 1) ++ "]" else "" in
  tagName ++ xpathIndex.

(** The outer loop of [_getXPathTree], from [currentElement] up. *)
Fixpoint xpathSegments (stopAtBoundary : bool) (currentElement : Located)
         (segments : list string) {struct currentElement} : list string :=
  match currentElement with
  | Loc name previousSiblings above =>
      if stopAtBoundary && atBoundary above then segments
      else
        let segments := segmentOf name previousSiblings :: segments in
        match above with
        | ElementAbove _ parent => xpathSegments stopAtBoundary parent segments
        | _ => segments
        end
  end.

(** [_getXPathTree(element, stopAtBoundary = true)] *)
Definition _getXPathTree (element : Located) (stopAtBoundary : bool) : string :=
  join "/" (xpathSegments stopAtBoundary element []).

(** A node as a later sibling sees it. *)
Definition siblingOf (n : Node) : Sibling :=
  match n with
  | Elem e _ _ _ => mkSibling true (tagName e)
  | Text _ _ _ => mkSibling false "#text"
  | Other => mkSibling false "#comment"
  end.

Definition isIFrameElement (e : Element) : bool :=
  String.eqb (toUpperCase (tagName e)) "IFRAME".

Definition isElem (n : Node) : bool :=
  match n with Elem _ _ _ _ => true | _ => false end.

(** The elements of a tree, through child nodes, each with what is around
    it; [previousSiblings] and [above] are those of the root. *)
Fixpoint locate (n : Node) (previousSiblings : list Sibling) (above : Above)
  : list (Element * Located) :=
  match n with
  | Elem e childNodes _ _ =>
      let here := Loc (tagName e) previousSiblings above in
      (e, here)
      :: (fix kids (l : list Node) (previous : list Sibling) {struct l}
            : list (Element * Located) :=
            match l with
            | [] => []
            | c :: l' =>
                (locate c previous (ElementAbove (isIFrameElement e) here)
                 ++ kids l' (siblingOf c :: previous))%list
            end) childNodes []
  | _ => []
  end.

(** The locators of the elements of a document whose root element is [root]. *)
Definition locators (root : Node) : list string :=
  map (fun el => _getXPathTree (snd el) true) (locate root [] DocumentAbove).

(** A character of a plain node name: no slash, no opening bracket and
    none of the letters that lower case gives -- a to z and, above them,
    the code units from 224 to 254 other than 247. *)
Definition plainChar (c : ascii) : bool :=
  let n := nat_of_ascii c in
  negb (n =? 47)%nat && negb (n =? 91)%nat
  && negb ((97 <=? n) && (n <=? 122))%nat
  && negb ((224 <=? n) && (n <=? 254) && negb (n =? 247))%nat.

Fixpoint allChars (p : ascii -> bool) (s : string) : bool :=
  match s with
  | EmptyString => true
  | String c s' => p c && allChars p s'
  end.

Definition plainName (s : string) : bool := truthy s && allChars plainChar s.

(** A tree with plain node names, not empty, in which an IFRAME has no
    child elements. *)
Fixpoint plainTree (n : Node) : bool :=
  match n with
  | Elem e childNodes _ _ =>
      plainName (tagName e)
      && (negb (isIFrameElement e) || forallb (fun c => negb (isElem c)) childNodes)
      && forallb plainTree childNodes
  | _ => true
  end.

(** The segments of the elements of a tree, from the root of the tree down. *)
Fixpoint relativePaths (n : Node) (previousSiblings : list Sibling)
  : list (list string) :=
  match n with
  | Elem e childNodes _ _ =>
      let segment := segmentOf (tagName e) previousSiblings in
      [segment]
      :: map (cons segment)
             ((fix kids (l : list Node) (previous : list Sibling) {struct l}
                 : list (list string) :=
                 match l with
                 | [] => []
                 | c :: l' =>
                     (relativePaths c previous ++ kids l' (siblingOf c :: previous))%list
                 end) childNodes [])
  | _ => []
  end.

(** The paths of a list of sibling nodes. *)
Fixpoint siblingPaths (l : list Node) (previous : list Sibling) : list (list string) :=
  match l with
  | [] => []
  | c :: l' =>
      (relativePaths c previous ++ siblingPaths l' (siblingOf c :: previous))%list
  end.

(** The located elements of a list of sibling nodes. *)
Fixpoint locateSiblings (l : list Node) (previous : list Sibling) (above : Above)
  : list (Element * Located) :=
  match l with
  | [] => []
  | c :: l' =>
      (locate c previous above
       ++ locateSiblings l' (siblingOf c :: previous) above)%list
  end.

(** The segments above an element whose parent node is [above]. *)
Definition segmentsAbove (above : Above) : list string :=
  match above with
  | ElementAbove _ parent => xpathSegments true parent []
  | _ => []
  end.

(** A segment that [join] keeps apart from its neighbours: it is not empty
    and holds no slash. *)
Definition slashFree (s : string) : bool :=
  truthy s && allChars (fun c => negb (Ascii.eqb c "/")) s.

(** *** Example documents, in a viewport of 1024 by 768 *)

Definition box (x y w h : Q) : Rect := mkRect y x (y + h)%Q (x + w)%Q w h.

Definition inBox (r : Rect) (x y : Q) : bool :=
  Qle_bool (left r) x && Qle_bool x (right r)
  && Qle_bool (top r) y && Qle_bool y (bottom r).

(** Hit testing from painted boxes, the topmost first. *)
Fixpoint hitIn (boxes : list (Rect * list nat)) (x y : Q) : list nat :=
  match boxes with
  | [] => []
  | (r, chain) :: boxes' => if inBox r x y then chain else hitIn boxes' x y
  end.

Definition plainStyle : Style := mkStyle "visible" "block" "1" "auto".

Definition exampleWindow (boxes : list (Rect * list nat)) : Window :=
  mkWindow 1024 768 0 (hitIn boxes) (fun _ _ _ => []).

(** A [div] with a click handler attribute that holds a [button]. *)
Definition nestedButton : Element :=
  mkElement 3 "" "BUTTON" [] 100 30 plainStyle (box 10 10 100 30) false false InDocument.

Definition nestedDiv : Element :=
  mkElement 2 "" "DIV" [("onclick", "open()")] 200 100 plainStyle (box 0 0 200 100)
            false false InDocument.

Definition nestedBody : Element :=
  mkElement 1 "" "BODY" [] 1024 768 plainStyle (box 0 0 1024 768) false false InDocument.

Definition nestedPage : Page :=
  mkPage (exampleWindow [(box 10 10 100 30, [3; 2; 1; 0]%nat);
                         (box 0 0 200 100, [2; 1; 0]%nat);
                         (box 0 0 1024 768, [1; 0]%nat)])
         (Elem nestedBody
               [Elem nestedDiv [Elem nestedButton [] None FrameNull] None FrameNull]
               None FrameNull).

(** A body that is fully transparent and carries a click handler attribute. *)
Definition transparentBody : Element :=
  mkElement 1 "" "BODY" [("onclick", "go()")] 1024 768
            (mkStyle "visible" "block" "0" "auto") (box 0 0 1024 768)
            false false InDocument.

Definition transparentPage : Page :=
  mkPage (exampleWindow [(box 0 0 1024 768, [1; 0]%nat)])
         (Elem transparentBody [] None FrameNull).

(** A button 2000 pixels down a page that has not been scrolled: nothing
    covers it. *)
Definition farButton : Element :=
  mkElement 2 "" "BUTTON" [] 100 40 plainStyle (box 10 2000 100 40) false false InDocument.

Definition tallBody : Element :=
  mkElement 1 "" "BODY" [] 1024 3000 plainStyle (box 0 0 1024 3000) false false InDocument.

Definition tallPage : Page :=
  mkPage (exampleWindow [(box 10 2000 100 40, [2; 1; 0]%nat);
                         (box 0 0 1024 3000, [1; 0]%nat)])
         (Elem tallBody [Elem farButton [] None FrameNull] None FrameNull).

(** A wrapper of no height whose button overflows it: the button is
    visible and on top, the wrapper is rejected as not visible. *)
Definition overflowingButton : Element :=
  mkElement 3 "" "BUTTON" [] 100 30 plainStyle (box 10 10 100 30) false false InDocument.

Definition flatWrapper : Element :=
  mkElement 2 "" "DIV" [] 200 0 plainStyle (box 0 10 200 0) false false InDocument.

Definition wrapperPage : Page :=
  mkPage (exampleWindow [(box 10 10 100 30, [3; 2; 1; 0]%nat);
                         (box 0 0 1024 768, [1; 0]%nat)])
         (Elem nestedBody
               [Elem flatWrapper [Elem overflowingButton [] None FrameNull] None FrameNull]
               None FrameNull).

(** A document with a list of two items and a paragraph. *)
Definition tag (name : string) (childNodes : list Node) : Node :=
  Elem (mkElement 0 "" name [] 10 10 plainStyle (box 0 0 10 10) false false InDocument)
       childNodes None FrameNull.

Definition listDocument : Node :=
  tag "HTML" [tag "HEAD" [];
              tag "BODY" [tag "UL" [tag "LI" []; Other; tag "LI" []]; tag "P" []]].

(** A document with two sibling elements whose node names differ only in
    the case of a letter above 127 (the code units 192 and 224). *)
Definition accentedSiblings : Node :=
  tag "HTML"
      [tag (String "X" (String "-" (String (ascii_of_nat 192) EmptyString))) [];
       tag (String "X" (String "-" (String (ascii_of_nat 224) EmptyString))) []].

(** The options with [viewportExpansion] set to -1. *)
Definition wholeDocument : Options := mkOptions true (-1) (-1) false.

End DomBuilder.

(** ** Decision parsing ([AgentGraph.parseAction] and
    [AgentService.parseActionFromLLM]) *)
Module Parsing.

Import JS.
Local Open Scope string_scope.

(** *** Values *)

(** The values the parsers handle: what [JSON.parse] gives, object
    literals, and [undefined]. *)
Inductive Value :=
| VUndefined
| VNull
| VBool (b : bool)
| VNumber (q : Q)
| VString (s : string)
| VArray (items : list Value)
| VObject (fields : list (string * Value)).

(** A thrown error, with its [message]. *)
Inductive Exn := Thrown (message : string).

Definition message (e : Exn) : string := match e with Thrown m => m end.

(** The truth value of a value in a condition. *)
Definition truthyValue (v : Value) : bool :=
  match v with
  | VUndefined | VNull => false
  | VBool b => b
  | VNumber q => negb (Qeq_bool q 0)
  | VString s => truthy s
  | VArray _ | VObject _ => true
  end.

Fixpoint lookupField (fields : list (string * Value)) (name : string) : Value :=
  match fields with
  | [] => VUndefined
  | (k, v) :: fields' => if String.eqb k name then v else lookupField fields' name
  end.

(** A property set in an object literal: an existing key keeps its place. *)
Fixpoint setField (fields : list (string * Value)) (name : string) (v : Value)
  : list (string * Value) :=
  match fields with
  | [] => [(name, v)]
  | (k, w) :: fields' =>
      if String.eqb k name then (k, v) :: fields' else (k, w) :: setField fields' name v
  end.

(** What the host supplies: [JSON.parse], which returns a value or raises,
    and the error raised by reading a property of [null] or [undefined]. *)
Record Host := mkHost {
  JSON_parse : string -> Value + Exn;
  nullPropertyError : string -> Exn
}.

(** [v.name], for the property names the parsers read. *)
Definition getProp (h : Host) (v : Value) (name : string) : Value + Exn :=
  match v with
  | VUndefined | VNull => inr (nullPropertyError h name)
  | VObject fields => inl (lookupField fields name)
  | _ => inl VUndefined
  end.

(** *** Regular expressions *)

(** The regular expressions the parsers use, built from character classes:
    one character, a sequence, a repetition of a class (greedy or lazy), an
    optional character, and a capturing group. *)
Inductive Re :=
| Eps
| Chr (p : ascii -> bool)
| Seq (a b : Re)
| Star (greedy : bool) (p : ascii -> bool)
| Opt (p : ascii -> bool)
| Group (r : Re).

(** [class*], longest first. *)
Fixpoint starGreedy {A : Type} (p : ascii -> bool) (s : string)
         (k : string -> option A) : option A :=
  match s with
  | String c s' =>
      if p c then
        match starGreedy p s' k with
        | Some m => Some m
        | None => k s
        end
      else k s
  | EmptyString => k s
  end.

(** [class*?], shortest first. *)
Fixpoint starLazy {A : Type} (p : ascii -> bool) (s : string)
         (k : string -> option A) : option A :=
  match k s with
  | Some m => Some m
  | None =>
      match s with
      | String c s' => if p c then starLazy p s' k else None
      | EmptyString => None
      end
  end.

(** The part of [s] that was consumed when [rest] is what is left of it. *)
Definition consumed (s rest : string) : string :=
  substring 0 (String.length s - String.length rest) s.

(** A backtracking match of [r] at the start of [s]: [k] continues with
    what is left and the groups captured so far. *)
Fixpoint matchHere {A : Type} (r : Re) (s : string) (caps : list string)
         (k : string -> list string -> option A) : option A :=
  match r with
  | Eps => k s caps
  | Chr p =>
      match s with
      | String c s' => if p c then k s' caps else None
      | EmptyString => None
      end
  | Seq a b => matchHere a s caps (fun rest caps' => matchHere b rest caps' k)
  | Star true p => starGreedy p s (fun rest => k rest caps)
  | Star false p => starLazy p s (fun rest => k rest caps)
  | Opt p =>
      match s with
      | String c s' =>
          if p c then
            match k s' caps with
            | Some m => Some m
            | None => k s caps
            end
          else k s caps
      | EmptyString => k s caps
      end
  | Group r' => matchHere r' s caps (fun rest caps' => k rest (caps' ++ [consumed s rest])%list)
  end.

(** The result of [s.match(r)]: the text matched and the groups. *)
Record MatchResult := mkMatch { whole : string; groups : list string }.

(** [s.match(r)] for a regular expression without the [g] flag: the first
    position where [r] matches. *)
Fixpoint exec (r : Re) (s : string) : option MatchResult :=
  match matchHere r s [] (fun rest caps => Some (rest, caps)) with
  | Some (rest, caps) => Some (mkMatch (consumed s rest) caps)
  | None =>
      match s with
      | String _ s' => exec r s'
      | EmptyString => None
      end
  end.

(** [m[1]] *)
Definition group1 (m : MatchResult) : option string := nth_error (groups m) 0.

Definition isChar (c : ascii) : ascii -> bool := Ascii.eqb c.
Definition notChar (c : ascii) : ascii -> bool := fun x => negb (Ascii.eqb c x).
Definition any : ascii -> bool := fun _ => true.
Definition digit (c : ascii) : bool :=
  let n := nat_of_ascii c in ((48 <=? n) && (n <=? 57))%nat.

(** A literal, with or without the [i] flag. *)
Fixpoint lit (s : string) : Re :=
  match s with
  | EmptyString => Eps
  | String c s' => Seq (Chr (isChar c)) (lit s')
  end.

Fixpoint liti (s : string) : Re :=
  match s with
  | EmptyString => Eps
  | String c s' => Seq (Chr (fun x => Ascii.eqb (lowerChar x) (lowerChar c))) (liti s')
  end.

Definition plus (p : ascii -> bool) : Re := Seq (Chr p) (Star true p).

Definition fence : string := "```".
Definition newline : ascii := ascii_of_nat 10.
Definition quoteChar : ascii := ascii_of_nat 34.
Definition aposChar : ascii := ascii_of_nat 39.

(** [/```json\n([\s\S]*?)\n```/] *)
Definition reJsonFence : Re :=
  Seq (lit (fence ++ "json")) (Seq (Chr (isChar newline))
      (Seq (Group (Star false any)) (Seq (Chr (isChar newline)) (lit fence)))).

(** [/```([\s\S]*?)```/] *)
Definition reFence : Re := Seq (lit fence) (Seq (Group (Star false any)) (lit fence)).

(** [/{[\s\S]*?}/] *)
Definition reBraces : Re := Seq (lit "{") (Seq (Star false any) (lit "}")).

(** [/```\n?([\s\S]*?)\n?```/] *)
Definition reFenceLines : Re :=
  Seq (lit fence) (Seq (Opt (isChar newline))
      (Seq (Group (Star false any)) (Seq (Opt (isChar newline)) (lit fence)))).

(** [[:\s]] *)
Definition colonOrSpace (c : ascii) : bool := Ascii.eqb c ":" || isWhiteSpace c.

(** [/index[:\s]+(\d+)/i] *)
Definition reIndex : Re := Seq (liti "index") (Seq (plus colonOrSpace) (Group (plus digit))).

(** [/amount[:\s]+(\d+)/i] *)
Definition reAmount : Re := Seq (liti "amount") (Seq (plus colonOrSpace) (Group (plus digit))).

(** The expression for a text in double quotes: [text], one or more of
    [[:\s]], then between two double quotes a group of any number of other
    characters; flag [i]. *)
Definition reTextDouble : Re :=
  Seq (liti "text") (Seq (plus colonOrSpace)
      (Seq (Chr (isChar quoteChar)) (Seq (Group (Star true (notChar quoteChar)))
                                     (Chr (isChar quoteChar))))).

(** The same between two apostrophes. *)
Definition reTextSingle : Re :=
  Seq (liti "text") (Seq (plus colonOrSpace)
      (Seq (Chr (isChar aposChar)) (Seq (Group (Star true (notChar aposChar)))
                                    (Chr (isChar aposChar))))).

(** The expression for a bare text: [text], one or more of [[:\s]], then a
    group of any number of characters other than a line feed and a comma;
    flag [i]. *)
Definition reTextBare : Re :=
  Seq (liti "text") (Seq (plus colonOrSpace)
      (Group (Star true (fun c => negb (Ascii.eqb c newline || Ascii.eqb c ","))))).

(** [parseInt(digits)] on a string of decimal digits. *)
Fixpoint parseDigits (acc : Z) (s : string) : Z :=
  match s with
  | EmptyString => acc
  | String c s' => parseDigits (10 * acc + Z.of_nat (nat_of_ascii c - 48))%Z s'
  end.

Definition parseInt (s : string) : Q := inject_Z (parseDigits 0 s).

Definition orElse {A : Type} (a b : option A) : option A :=
  match a with Some _ => a | None => b end.

(** *** [AgentGraph.parseAction] *)

(** The last resort of [parseAction]: an action inferred from keywords. *)
Definition inferAction (thinkingOutput : string) : Value + Exn :=
  if includes "click" thinkingOutput || includes "select" thinkingOutput then
    let indexMatch := exec reIndex thinkingOutput in
    inl (VObject [("type", VString "click");
                  ("index", VNumber (match indexMatch with
                                     | Some m => parseInt (showOpt (group1 m))
                                     | None => 0
                                     end))])
  else if includes "type" thinkingOutput || includes "input" thinkingOutput then
    let indexMatch := exec reIndex thinkingOutput in
    let textMatch :=
      orElse (exec reTextDouble thinkingOutput)
             (orElse (exec reTextSingle thinkingOutput) (exec reTextBare thinkingOutput)) in
    inl (VObject [("type", VString "input");
                  ("index", VNumber (match indexMatch with
                                     | Some m => parseInt (showOpt (group1 m))
                                     | None => 0
                                     end));
                  ("text", VString (match textMatch with
                                    | Some m => trim (showOpt (group1 m))
                                    | None => ""
                                    end))])
  else if includes "scroll" thinkingOutput then
    let direction := if includes "down" thinkingOutput then "down" else "up" in
    let amountMatch := exec reAmount thinkingOutput in
    inl (VObject [("type", VString "scroll");
                  ("direction", VString direction);
                  ("amount", VNumber (match amountMatch with
                                      | Some m => parseInt (showOpt (group1 m))
                                      | None => 500
                                      end))])
  else if includes "done" thinkingOutput || includes "complete" thinkingOutput then
    inl (VObject [("type", VString "done");
                  ("success", VBool (includes "success" thinkingOutput
                                     && negb (includes "not success" thinkingOutput)))])
  else inr (Thrown "Could not parse action from LLM response").

(** The [try] block of [parseAction]: the action it returns, or what it raises. *)
Definition parseActionBody (h : Host) (thinkingOutput : string) : Value + Exn :=
  let jsonMatch :=
    orElse (exec reJsonFence thinkingOutput)
           (orElse (exec reFence thinkingOutput) (exec reBraces thinkingOutput)) in
  match jsonMatch with
  | Some m =>
      let source := if truthyOpt (group1 m) then showOpt (group1 m) else whole m in
      match JSON_parse h source with
      | inr e => inr e
      | inl actionJson =>
          match getProp h actionJson "type" with
          | inr e => inr e
          | inl t => if truthyValue t then inl actionJson
                     else inr (Thrown "Action missing type")
          end
      end
  | None =>
      let whole :=
        match JSON_parse h thinkingOutput with
        | inl action =>
            match getProp h action "type" with
            | inl t => if truthyValue t then Some action else None
            | inr _ => None
            end
        | inr _ => None
        end in
      match whole with
      | Some action => inl action
      | None => inferAction thinkingOutput
      end
  end.

(** The synthetic action of the [catch] block of [parseAction]. *)
Definition failedDone (e : Exn) : Value :=
  VObject [("type", VString "done");
           ("success", VBool false);
           ("error", VString ("Failed to determine next action: " ++ message e))].

(** [AgentGraph.parseAction(thinkingOutput)] *)
Definition parseAction (h : Host) (thinkingOutput : string) : Value :=
  match parseActionBody h thinkingOutput with
  | inl action => action
  | inr error => failedDone error
  end.

(** *** [AgentService.parseActionFromLLM] *)

(** [{ ...v }]: the own enumerable properties of a value. *)
Fixpoint indexed (i : nat) (l : list Value) : list (string * Value) :=
  match l with
  | [] => []
  | v :: l' => (showNat i, v) :: indexed (S i) l'
  end.

Fixpoint chars (s : string) : list Value :=
  match s with
  | EmptyString => []
  | String c s' => VString (String c EmptyString) :: chars s'
  end.

Definition spread (v : Value) : list (string * Value) :=
  match v with
  | VObject fields => fields
  | VArray items => indexed 0 items
  | VString s => indexed 0 (chars s)
  | _ => []
  end.

Definition isString (v : Value) (s : string) : bool :=
  match v with VString t => String.eqb t s | _ => false end.

Definition isUndefined (v : Value) : bool :=
  match v with VUndefined => true | _ => false end.

(** A value in a template literal, for the values an action type can be. *)
Definition showValue (v : Value) : string :=
  match v with
  | VString s => s
  | VUndefined => "undefined"
  | VNull => "null"
  | VBool true => "true"
  | VBool false => "false"
  | _ => "[object]"
  end.

(** The [try] block of [parseActionFromLLM]. *)
Definition parseActionFromLLMBody (h : Host) (response : string) : Value + Exn :=
  let actionJson :=
    if includes (fence ++ "json") response then
      match exec reJsonFence response with
      | Some m => if truthyOpt (group1 m) then showOpt (group1 m) else response
      | None => response
      end
    else if includes fence response then
      match exec reFenceLines response with
      | Some m => if truthyOpt (group1 m) then showOpt (group1 m) else response
      | None => response
      end
    else response in
  match JSON_parse h actionJson with
  | inr e => inr e
  | inl parsed =>
      match getProp h parsed "action" with
      | inr e => inr e
      | inl action =>
          let structured :=
            if truthyValue action then
              match getProp h parsed "current_state" with
              | inl current_state => truthyValue current_state
              | inr _ => false
              end
            else false in
          if negb structured then
            inr (Thrown "Invalid response structure: missing action or current_state")
          else
            match getProp h action "type" with
            | inr e => inr e
            | inl t =>
                let actionModel := fold_left (fun fs kv => setField fs (fst kv) (snd kv))
                                             (spread action) [("type", t)] in
                let type := lookupField actionModel "type" in
                if (isString type "click_element" || isString type "input_text")
                   && negb (truthyValue (lookupField actionModel "xpath"))
                   && isUndefined (lookupField actionModel "index")
                then inr (Thrown ("Action type " ++ showValue type
                                  ++ " requires 'xpath' parameter"))
                else inl (VObject actionModel)
            end
      end
  end.

(** The synthetic action of the [catch] block of [parseActionFromLLM]. *)
Definition errorAction (e : Exn) : Value :=
  VObject [("type", VString "error");
           ("message", VString ("Failed to parse response: " ++ message e))].

(** [AgentService.parseActionFromLLM(response)] *)
Definition parseActionFromLLM (h : Host) (response : string) : Value :=
  match parseActionFromLLMBody h response with
  | inl actionModel => actionModel
  | inr error => errorAction error
  end.

(** The type of an action object: its [type] property. *)
Definition typeOf (v : Value) : Value :=
  match v with VObject fields => lookupField fields "type" | _ => VUndefined end.

Definition isObject (v : Value) : bool :=
  match v with VObject _ => true | _ => false end.

(** *** A reference host

    [JSON.parse] over texts whose strings stay below code unit 256, with
    numbers kept exact; the messages are those of V8, without positions. *)

Definition isJsonSpace (c : ascii) : bool :=
  let n := nat_of_ascii c in ((n =? 32) || (n =? 9) || (n =? 10) || (n =? 13))%nat.

Fixpoint skipWs (s : string) : string :=
  match s with
  | String c s' => if isJsonSpace c then skipWs s' else s
  | EmptyString => EmptyString
  end.

Definition hexDigit (c : ascii) : option nat :=
  let n := nat_of_ascii c in
  if ((48 <=? n) && (n <=? 57))%nat then Some (n - 48)%nat
  else if ((65 <=? n) && (n <=? 70))%nat then Some (n - 55)%nat
  else if ((97 <=? n) && (n <=? 102))%nat then Some (n - 87)%nat
  else None.

Definition cons1 (c : ascii) (r : option (string * string)) : option (string * string) :=
  match r with
  | Some (str, rest) => Some (String c str, rest)
  | None => None
  end.

(** A string, from after its opening quote. *)
Fixpoint pString (s : string) : option (string * string) :=
  match s with
  | EmptyString => None
  | String c rest =>
      if Ascii.eqb c quoteChar then Some (EmptyString, rest)
      else if Ascii.eqb c "\" then
        match rest with
        | String e rest1 =>
            if Ascii.eqb e quoteChar || Ascii.eqb e "\" || Ascii.eqb e "/"
            then cons1 e (pString rest1)
            else if Ascii.eqb e "b" then cons1 (ascii_of_nat 8) (pString rest1)
            else if Ascii.eqb e "f" then cons1 (ascii_of_nat 12) (pString rest1)
            else if Ascii.eqb e "n" then cons1 (ascii_of_nat 10) (pString rest1)
            else if Ascii.eqb e "r" then cons1 (ascii_of_nat 13) (pString rest1)
            else if Ascii.eqb e "t" then cons1 (ascii_of_nat 9) (pString rest1)
            else if Ascii.eqb e "u" then
              match rest1 with
              | String h1 (String h2 (String h3 (String h4 rest2))) =>
                  match hexDigit h1, hexDigit h2, hexDigit h3, hexDigit h4 with
                  | Some 0%nat, Some 0%nat, Some d3, Some d4 =>
                      cons1 (ascii_of_nat (16 * d3 + d4)) (pString rest2)
                  | _, _, _, _ => None
                  end
              | _ => None
              end
            else None
        | EmptyString => None
        end
      else if (nat_of_ascii c <? 32)%nat then None
      else cons1 c (pString rest)
  end.

Fixpoint takeDigits (s : string) : string * string :=
  match s with
  | String c s' =>
      if digit c then let (ds, rest) := takeDigits s' in (String c ds, rest)
      else (EmptyString, s)
  | EmptyString => (EmptyString, EmptyString)
  end.

(** A number: an optional minus, the integer part without a leading zero,
    an optional fraction and an optional exponent. *)
Definition pNumber (s : string) : option (Q * string) :=
  let (negative, s1) :=
    match s with
    | String "-" s' => (true, s')
    | _ => (false, s)
    end in
  let (intPart, s2) :=
    match s1 with
    | String "0" s' => ("0", s')
    | _ => takeDigits s1
    end in
  if negb (truthy intPart) then None
  else
    let fraction :=
      match s2 with
      | String "." s' =>
          let (ds, rest) := takeDigits s' in
          if truthy ds then Some (ds, rest) else None
      | _ => Some (EmptyString, s2)
      end in
    match fraction with
    | None => None
    | Some (fracPart, s3) =>
        let exponent :=
          match s3 with
          | String e s' =>
              if Ascii.eqb e "e" || Ascii.eqb e "E" then
                let (minus, s'') :=
                  match s' with
                  | String "-" r => (true, r)
                  | String "+" r => (false, r)
                  | _ => (false, s')
                  end in
                let (ds, rest) := takeDigits s'' in
                if truthy ds
                then Some (if minus then (- parseDigits 0 ds)%Z else parseDigits 0 ds, rest)
                else None
              else Some (0%Z, s3)
          | EmptyString => Some (0%Z, s3)
          end in
        match exponent with
        | None => None
        | Some (e, rest) =>
            let mantissa := parseDigits 0 (intPart ++ fracPart) in
            let q := (inject_Z mantissa
                      * Qpower 10 (e - Z.of_nat (String.length fracPart)))%Q in
            Some (if negative then (- q)%Q else q, rest)
        end
    end.

(** A value, the elements of an array after its first bracket, and the
    members of an object after its first brace. *)
Fixpoint pValue (fuel : nat) (s : string) {struct fuel} : option (Value * string) :=
  match fuel with
  | O => None
  | S fuel' =>
      match skipWs s with
      | EmptyString => None
      | String c rest =>
          if Ascii.eqb c "{" then
            match skipWs rest with
            | String "}" r => Some (VObject [], r)
            | _ => pMembers fuel' rest []
            end
          else if Ascii.eqb c "[" then
            match skipWs rest with
            | String "]" r => Some (VArray [], r)
            | _ => pElements fuel' rest []
            end
          else if Ascii.eqb c quoteChar then
            match pString rest with
            | Some (str, r) => Some (VString str, r)
            | None => None
            end
          else if String.prefix "true" (String c rest)
               then Some (VBool true, substring 4 (String.length rest) (String c rest))
          else if String.prefix "false" (String c rest)
               then Some (VBool false, substring 5 (String.length rest) (String c rest))
          else if String.prefix "null" (String c rest)
               then Some (VNull, substring 4 (String.length rest) (String c rest))
          else
            match pNumber (String c rest) with
            | Some (q, r) => Some (VNumber q, r)
            | None => None
            end
      end
  end
with pElements (fuel : nat) (s : string) (acc : list Value) {struct fuel}
  : option (Value * string) :=
  match fuel with
  | O => None
  | S fuel' =>
      match pValue fuel' s with
      | Some (v, r) =>
          match skipWs r with
          | String "," r' => pElements fuel' r' (acc ++ [v])%list
          | String "]" r' => Some (VArray (acc ++ [v])%list, r')
          | _ => None
          end
      | None => None
      end
  end
with pMembers (fuel : nat) (s : string) (acc : list (string * Value)) {struct fuel}
  : option (Value * string) :=
  match fuel with
  | O => None
  | S fuel' =>
      match skipWs s with
      | String c r =>
          if Ascii.eqb c quoteChar then
            match pString r with
            | Some (key, r1) =>
                match skipWs r1 with
                | String ":" r2 =>
                    match pValue fuel' r2 with
                    | Some (v, r3) =>
                        match skipWs r3 with
                        | String "," r4 => pMembers fuel' r4 (setField acc key v)
                        | String "}" r4 => Some (VObject (setField acc key v), r4)
                        | _ => None
                        end
                    | None => None
                    end
                | _ => None
                end
            | None => None
            end
          else None
      | EmptyString => None
      end
  end.

(** [JSON.parse(text)] of the reference host. *)
Definition jsonParse (text : string) : Value + Exn :=
  match pValue (2 * String.length text + 2) text with
  | Some (v, rest) =>
      match skipWs rest with
      | EmptyString => inl v
      | _ => inr (Thrown "Unexpected non-whitespace character after JSON")
      end
  | None =>
      match skipWs text with
      | EmptyString => inr (Thrown "Unexpected end of JSON input")
      | _ => inr (Thrown "Unexpected token in JSON")
      end
  end.

Definition referenceHost : Host :=
  mkHost jsonParse
         (fun name => Thrown ("Cannot read properties of null (reading '" ++ name ++ "')")).

(** Example texts. *)
Definition proseText : string := "I am not sure what to do next.".

Definition clickJson : string :=
  "{" ++ dquote ++ "type" ++ dquote ++ ":" ++ dquote ++ "click" ++ dquote ++ ","
      ++ dquote ++ "index" ++ dquote ++ ":2}".

Definition fencedClick : string :=
  "Next step:" ++ String newline (fence ++ "json") ++ String newline clickJson
    ++ String newline fence.

Definition brokenJson : string := "{" ++ dquote ++ "type" ++ dquote ++ ": }".

(** A response in the structure that [parseActionFromLLM] expects. *)
Definition structuredClick : string :=
  "{" ++ dquote ++ "current_state" ++ dquote ++ ": {" ++ dquote ++ "evaluation"
      ++ dquote ++ ": " ++ dquote ++ "login page" ++ dquote ++ "}, "
      ++ dquote ++ "action" ++ dquote ++ ": {" ++ dquote ++ "type" ++ dquote ++ ": "
      ++ dquote ++ "click_element" ++ dquote ++ ", " ++ dquote ++ "xpath" ++ dquote
      ++ ": " ++ dquote ++ "html/body/a" ++ dquote ++ "}}".

(** A response in prose that names an action. *)
Definition clickProse : string := "I would click the element at index 3 now.".

End Parsing.

(** ** Action executor (extension/actionController.js) *)
Module ActionController.

Import JS.
Local Open Scope string_scope.

(** *** Values *)

(** The text of a template literal: string pieces and the numbers
    interpolated between them. *)
Inductive Piece := Lit (s : string) | Num (q : Q).

Definition Template := list Piece.

(** What is thrown: an [Error] made by the code with its message, or an
    error raised by the host (a [TypeError], say). *)
Inductive Exn :=
| Error (message : Template)
| HostError (name : string).

(** An action as it arrives: its type and the parameters that are present.
    The goal and the direction are the values of the JSON the action came
    in, which need not be strings. *)
Record Action := mkAction {
  atype : string;
  xpath : option string;
  index : option Z;
  text : option string;
  goal : Parsing.Value;
  direction : Parsing.Value;
  amount : option Q;
  seconds : option Q;
  success : option bool
}.

(** The result objects the executor returns. *)
Record ActionResult := mkResult {
  r_success : bool;
  r_message : option Template;
  r_error : option Exn;
  r_extracted : option string;
  r_isComplete : bool;
  r_finalMessage : option string;
  r_taskSuccess : option bool
}.

(** *** The page *)

(** The methods of a node that the executor calls. *)
Inductive Method :=
| MScrollIntoView
| MFocus
| MClick
| MGetBoundingClientRect
| MDispatchEvent (eventType : string).

(** A node as the executor reads and writes it.  [raises] tells which of
    its methods raise, and what.  [assignValue] is the setter of [value]:
    the string the node holds after a string was assigned to it -- an INPUT
    sanitises what it is given according to its type, a number field keeps
    nothing of what is no number -- or what the setter raises, as that of a
    file field does.  [focusable] tells whether [focus()] moves the focus to
    the node, which it does not for a disabled or hidden control. *)
Record Element := mkElement {
  tagName : string;
  value : string;
  textContent : string;
  isContentEditable : bool;
  rect_left : Q;
  rect_top : Q;
  rect_width : Q;
  rect_height : Q;
  raises : Method -> option Exn;
  assignValue : string -> string + Exn;
  focusable : bool
}.

(** What the executor did to the page: a method call on a node (for a mouse
    event with coordinates, [clientX] and [clientY]) and whether it
    returned, or a request to scroll the window. *)
Inductive Event :=
| Call (node : nat) (m : Method) (client : option (Q * Q)) (returned : bool)
| ScrollBy (top : Q).

(** The page: its nodes (a reference to a node is its position), what
    [document.evaluate] gives for a path ([None] when it raises, else its
    [singleNodeValue]), what the queries of [extractContent] give, the node
    that has the focus, the log of what the executor did, and the time spent
    waiting on timers, in milliseconds.  What the page's own scripts do in
    reaction is not modelled. *)
Record Page := mkPage {
  nodes : list Element;
  document_evaluate : string -> option (option nat);
  title : string;
  visibleTexts : list string;
  linksJson : string;
  imagesJson : string;
  tablesJson : string;
  innerHeight : Q;
  focused : option nat;
  log : list Event;
  clock : Q
}.

Definition setNodes (pg : Page) (l : list Element) : Page :=
  mkPage l (document_evaluate pg) (title pg) (visibleTexts pg) (linksJson pg)
         (imagesJson pg) (tablesJson pg) (innerHeight pg) (focused pg) (log pg) (clock pg).

Definition setFocused (pg : Page) (f : option nat) : Page :=
  mkPage (nodes pg) (document_evaluate pg) (title pg) (visibleTexts pg) (linksJson pg)
         (imagesJson pg) (tablesJson pg) (innerHeight pg) f (log pg) (clock pg).

Definition addLog (pg : Page) (ev : Event) : Page :=
  mkPage (nodes pg) (document_evaluate pg) (title pg) (visibleTexts pg) (linksJson pg)
         (imagesJson pg) (tablesJson pg) (innerHeight pg) (focused pg) (log pg ++ [ev])
         (clock pg).

Definition addClock (pg : Page) (ms : Q) : Page :=
  mkPage (nodes pg) (document_evaluate pg) (title pg) (visibleTexts pg) (linksJson pg)
         (imagesJson pg) (tablesJson pg) (innerHeight pg) (focused pg) (log pg)
         (clock pg + ms)%Q.

(** The controller's own fields. *)
Record Controller := mkController {
  selectorMap : list (nat * nat);
  debug : bool
}.

(** *** Computations that change the page and may raise *)

Definition M (A : Type) : Type := Page -> (A + Exn) * Page.

Definition ret {A : Type} (a : A) : M A := fun pg => (inl a, pg).

Definition throw {A : Type} (e : Exn) : M A := fun pg => (inr e, pg).

Definition bind {A B : Type} (c : M A) (k : A -> M B) : M B :=
  fun pg =>
    match c pg with
    | (inl a, pg') => k a pg'
    | (inr e, pg') => (inr e, pg')
    end.

(** [try { body } catch (error) { handler }] *)
Definition tryCatch {A : Type} (body : M A) (handler : Exn -> M A) : M A :=
  fun pg =>
    match body pg with
    | (inl a, pg') => (inl a, pg')
    | (inr e, pg') => handler e pg'
    end.

Notation "x <- c ;; k" := (bind c (fun x => k))
  (at level 61, c at next level, right associativity).
Notation "c ;;; k" := (bind c (fun _ => k))
  (at level 61, right associativity).

(** [await new Promise(resolve => setTimeout(resolve, ms))] *)
Definition sleep (ms : Q) : M unit := fun pg => (inl tt, addClock pg ms).

(** The node behind a reference; a reference the page never handed out
    raises. *)
Definition getNode (node : nat) : M Element :=
  fun pg =>
    match nth_error (nodes pg) node with
    | Some el => (inl el, pg)
    | None => (inr (HostError "stale reference"), pg)
    end.

(** A method call on a node: it is logged, and it raises if the node says so. *)
Definition call (node : nat) (m : Method) (client : option (Q * Q)) : M unit :=
  el <- getNode node ;;
  fun pg =>
    match raises el m with
    | Some e => (inr e, addLog pg (Call node m client false))
    | None => (inl tt, addLog pg (Call node m client true))
    end.

Fixpoint replaceNth (l : list Element) (n : nat) (el : Element) : list Element :=
  match l, n with
  | [], _ => []
  | _ :: l', O => el :: l'
  | x :: l', S n' => x :: replaceNth l' n' el
  end.

(** A node of the page replaced by its new state. *)
Definition setNode (node : nat) (el : Element) : M unit :=
  fun pg => (inl tt, setNodes pg (replaceNth (nodes pg) node el)).

Definition withValue (el : Element) (v : string) : Element :=
  mkElement (tagName el) v (textContent el) (isContentEditable el)
            (rect_left el) (rect_top el) (rect_width el) (rect_height el) (raises el)
            (assignValue el) (focusable el).

Definition withTextContent (el : Element) (v : string) : Element :=
  mkElement (tagName el) (value el) v (isContentEditable el)
            (rect_left el) (rect_top el) (rect_width el) (rect_height el) (raises el)
            (assignValue el) (focusable el).

(** [element.value = v]: the node holds what its setter makes of [v], or
    the setter raises. *)
Definition setValue (node : nat) (v : string) : M unit :=
  el <- getNode node ;;
  match assignValue el v with
  | inl stored => setNode node (withValue el stored)
  | inr e => throw e
  end.

(** [element.focus()] *)
Definition focus (node : nat) : M unit :=
  call node MFocus None ;;;
  el <- getNode node ;;
  if focusable el then fun pg => (inl tt, setFocused pg (Some node)) else ret tt.

(** *** The executor *)

(** [_findElementByXPath(xpath)] *)
Definition _findElementByXPath (xpath : string) : M (option nat) :=
  fun pg =>
    match document_evaluate pg xpath with
    | Some result => (inl result, pg)
    | None => (inl None, pg)
    end.

(** [this.selectorMap[index]] *)
Fixpoint lookupIndex (map : list (nat * nat)) (index : Z) : option nat :=
  match map with
  | [] => None
  | (k, node) :: map' =>
      if (Z.of_nat k =? index)%Z then Some node else lookupIndex map' index
  end.

Definition okResult (message : Template) : ActionResult :=
  mkResult true (Some message) None None false None None.

(** The three ways of clicking, each tried only when the one before raised
    (the same block stands in [clickElement] and in [clickElementByXPath]). *)
Definition clickMethods (node : nat) : M unit :=
  tryCatch
    (call node MClick None)
    (fun _error =>
       tryCatch
         (call node (MDispatchEvent "click") None)
         (fun _error2 =>
            call node MGetBoundingClientRect None ;;;
            el <- getNode node ;;
            let centerX := (rect_left el + rect_width el / 2)%Q in
            let centerY := (rect_top el + rect_height el / 2)%Q in
            call node (MDispatchEvent "mousedown") (Some (centerX, centerY)) ;;;
            call node (MDispatchEvent "mouseup") (Some (centerX, centerY)))).

(** [clickElement(index)] *)
Definition clickElement (c : Controller) (index : Z) : M ActionResult :=
  match lookupIndex (selectorMap c) index with
  | None =>
      throw (Error [Lit "Element with index "; Num (inject_Z index); Lit " not found"])
  | Some node =>
      call node MScrollIntoView None ;;;
      sleep 500 ;;;
      clickMethods node ;;;
      sleep 300 ;;;
      ret (okResult [Lit "Clicked element with index "; Num (inject_Z index)])
  end.

(** [clickElementByXPath(xpath)] *)
Definition clickElementByXPath (xpath : string) : M ActionResult :=
  element <- _findElementByXPath xpath ;;
  match element with
  | None =>
      throw (Error [Lit ("Element with XPath " ++ dquote ++ xpath ++ dquote ++ " not found")])
  | Some node =>
      call node MScrollIntoView None ;;;
      sleep 500 ;;;
      clickMethods node ;;;
      sleep 300 ;;;
      ret (okResult [Lit ("Clicked element with XPath " ++ dquote ++ xpath ++ dquote)])
  end.

Definition isFormControl (el : Element) : bool :=
  String.eqb (tagName el) "INPUT" || String.eqb (tagName el) "TEXTAREA".

(** The start of [inputText] and [inputTextByXPath]: the existing value is
    cleared. *)
Definition clearValue (node : nat) : M unit :=
  el <- getNode node ;;
  if isFormControl el then setValue node ""
  else if isContentEditable el then setNode node (withTextContent el "")
  else ret tt.

(** One round of the typing loop. *)
Definition typeChar (node : nat) (char : ascii) : M unit :=
  el <- getNode node ;;
  (if isFormControl el then
     setValue node (value el ++ String char EmptyString)
   else if isContentEditable el then
     setNode node (withTextContent el (textContent el ++ String char EmptyString))
   else ret tt) ;;;
  call node (MDispatchEvent "input") None ;;;
  sleep 10.

Fixpoint typeChars (node : nat) (s : string) : M unit :=
  match s with
  | EmptyString => ret tt
  | String char s' => typeChar node char ;;; typeChars node s'
  end.

(** [for (const char of text)]: an undefined [text] is not iterable. *)
Definition typeText (node : nat) (text : option string) : M unit :=
  match text with
  | None => throw (HostError "TypeError: text is not iterable")
  | Some s => typeChars node s
  end.

(** The body shared by [inputText] and [inputTextByXPath], from the focus on. *)
Definition inputInto (node : nat) (text : option string) : M unit :=
  focus node ;;;
  clearValue node ;;;
  typeText node text ;;;
  call node (MDispatchEvent "change") None.

(** [inputText(index, text)] *)
Definition inputText (c : Controller) (index : Z) (text : option string)
  : M ActionResult :=
  match lookupIndex (selectorMap c) index with
  | None =>
      throw (Error [Lit "Element with index "; Num (inject_Z index); Lit " not found"])
  | Some node =>
      inputInto node text ;;;
      ret (okResult [Lit ("Input text " ++ dquote ++ showOpt text ++ dquote
                          ++ " into element with index "); Num (inject_Z index)])
  end.

(** [inputTextByXPath(xpath, text)] *)
Definition inputTextByXPath (xpath : string) (text : option string) : M ActionResult :=
  element <- _findElementByXPath xpath ;;
  match element with
  | None =>
      throw (Error [Lit ("Element with XPath " ++ dquote ++ xpath ++ dquote ++ " not found")])
  | Some node =>
      inputInto node text ;;;
      ret (okResult [Lit ("Input text " ++ dquote ++ showOpt text ++ dquote
                          ++ " into element with XPath " ++ dquote ++ xpath ++ dquote)])
  end.

Definition nl : string := String (ascii_of_nat 10) EmptyString.

Fixpoint join (sep : string) (l : list string) : string :=
  match l with
  | [] => ""
  | [s] => s
  | s :: l' => s ++ sep ++ join sep l'
  end.

(** [extractContent(goal)]: only a string has a [toLowerCase]; reading it
    from [undefined] or [null] raises, and so does calling it on any other
    value. *)
Definition extractContent (goal : Parsing.Value) : M ActionResult :=
  match goal with
  | Parsing.VUndefined =>
      throw (HostError "TypeError: cannot read properties of undefined")
  | Parsing.VNull => throw (HostError "TypeError: cannot read properties of null")
  | Parsing.VString g =>
      fun pg =>
        let g := toLowerCase g in
        let content := "" in
        let content :=
          if includes "title" g
          then content ++ "Page title: " ++ title pg ++ nl ++ nl else content in
        let content :=
          if includes "text" g || includes "content" g
          then content ++ "Page content:" ++ nl ++ join (nl ++ nl) (visibleTexts pg)
                       ++ nl ++ nl
          else content in
        let content :=
          if includes "link" g || includes "url" g
          then content ++ "Links:" ++ nl ++ linksJson pg ++ nl ++ nl else content in
        let content :=
          if includes "image" g
          then content ++ "Images:" ++ nl ++ imagesJson pg ++ nl ++ nl else content in
        let content :=
          if includes "table" g
          then content ++ "Tables:" ++ nl ++ tablesJson pg ++ nl ++ nl else content in
        (inl (mkResult true None None (Some content) false None None), pg)
  | _ => throw (HostError "TypeError: goal.toLowerCase is not a function")
  end.

(** [scroll(direction = 'down', amount = 0)]: the default stands in for
    an undefined direction only; a direction that is no string has no
    [toLowerCase], so that the call raises before anything is scrolled. *)
Definition scroll (direction : Parsing.Value) (amount : option Q) : M ActionResult :=
  let direction :=
    match direction with Parsing.VUndefined => Parsing.VString "down" | d => d end in
  let amount := match amount with Some a => a | None => 0%Q end in
  fun pg =>
    let scrollAmount := if Qeq_bool amount 0 then (innerHeight pg / 2)%Q else amount in
    match direction with
    | Parsing.VString direction =>
        let scrollY :=
          if String.eqb (toLowerCase direction) "down" then scrollAmount
          else (- scrollAmount)%Q in
        (sleep 500 ;;;
         ret (okResult [Lit ("Scrolled " ++ direction ++ " by "); Num scrollAmount;
                        Lit "px"]))
          (addLog pg (ScrollBy scrollY))
    | Parsing.VNull =>
        throw (HostError "TypeError: cannot read properties of null") pg
    | _ => throw (HostError "TypeError: direction.toLowerCase is not a function") pg
    end.

(** [wait(seconds)] *)
Definition wait (seconds : Q) : M ActionResult :=
  let ms := Qmax 100 (Qmin 30000 (seconds * 1000)) in
  sleep ms ;;;
  ret (okResult [Lit "Waited for "; Num seconds; Lit " seconds"]).

(** [done(text, success = true)] *)
Definition done (text : option string) (success : option bool) : ActionResult :=
  let success := match success with Some b => b | None => true end in
  mkResult true None None None true text (Some success).

(** [action.seconds || 1]: an absent or zero duration gives 1. *)
Definition secondsOrDefault (seconds : option Q) : Q :=
  match seconds with
  | Some s => if Qeq_bool s 0 then 1%Q else s
  | None => 1%Q
  end.

(** [executeAction(action)] *)
Definition executeAction (c : Controller) (action : Action) : Page -> ActionResult * Page :=
  fun pg =>
    let body : M ActionResult :=
      if String.eqb (atype action) "click_element" then
        if truthyOpt (xpath action) then clickElementByXPath (showOpt (xpath action))
        else match index action with
             | Some i => clickElement c i
             | None =>
                 throw (Error [Lit "click_element requires either xpath or index parameter"])
             end
      else if String.eqb (atype action) "input_text" then
        if truthyOpt (xpath action)
        then inputTextByXPath (showOpt (xpath action)) (text action)
        else match index action with
             | Some i => inputText c i (text action)
             | None =>
                 throw (Error [Lit "input_text requires either xpath or index parameter"])
             end
      else if String.eqb (atype action) "extract_content" then extractContent (goal action)
      else if String.eqb (atype action) "scroll" then
        scroll (direction action) (amount action)
      else if String.eqb (atype action) "wait" then
        wait (secondsOrDefault (seconds action))
      else if String.eqb (atype action) "done" then
        ret (done (text action) (success action))
      else throw (Error [Lit ("Unknown action type: " ++ atype action)]) in
    match body pg with
    | (inl result, pg') => (result, pg')
    | (inr error, pg') => (mkResult false None (Some error) None false None None, pg')
    end.

(** *** Reading an action and a log *)

(** The node a click or input action resolves to, if any: by its locator
    when it has one, else by its index. *)
Definition resolve (c : Controller) (pg : Page) (a : Action) : option nat :=
  if truthyOpt (xpath a) then
    match document_evaluate pg (showOpt (xpath a)) with
    | Some result => result
    | None => None
    end
  else
    match index a with
    | Some i => lookupIndex (selectorMap c) i
    | None => None
    end.

Definition addLogs (pg : Page) (evs : list Event) : Page :=
  mkPage (nodes pg) (document_evaluate pg) (title pg) (visibleTexts pg) (linksJson pg)
         (imagesJson pg) (tablesJson pg) (innerHeight pg) (focused pg) (log pg ++ evs)
         (clock pg).

Definition returns (el : Element) (m : Method) : bool :=
  match raises el m with Some _ => false | None => true end.

(** The centre of an element's box. *)
Definition centre (el : Element) : Q * Q :=
  ((rect_left el + rect_width el / 2)%Q, (rect_top el + rect_height el / 2)%Q).

(** The press and release of the third way of clicking as the log shows
    them: the box is read, then the two events are sent at its centre; the
    calls stop at the first that raises. *)
Definition pressReleaseLog (node : nat) (el : Element) : list Event :=
  Call node MGetBoundingClientRect None (returns el MGetBoundingClientRect)
  :: if returns el MGetBoundingClientRect then
       Call node (MDispatchEvent "mousedown") (Some (centre el))
            (returns el (MDispatchEvent "mousedown"))
       :: if returns el (MDispatchEvent "mousedown") then
            [Call node (MDispatchEvent "mouseup") (Some (centre el))
                  (returns el (MDispatchEvent "mouseup"))]
          else []
     else [].

Definition pressReleaseReturns (el : Element) : bool :=
  returns el MGetBoundingClientRect
  && returns el (MDispatchEvent "mousedown")
  && returns el (MDispatchEvent "mouseup").

(** What the third way of clicking raises, if it does. *)
Definition pressReleaseRaises (el : Element) : option Exn :=
  match raises el MGetBoundingClientRect with
  | Some e => Some e
  | None =>
      match raises el (MDispatchEvent "mousedown") with
      | Some e => Some e
      | None => raises el (MDispatchEvent "mouseup")
      end
  end.

(** The log of the three ways of clicking, and what the block raises. *)
Definition clickLog (node : nat) (el : Element) : list Event :=
  Call node MClick None (returns el MClick)
  :: if returns el MClick then []
     else Call node (MDispatchEvent "click") None (returns el (MDispatchEvent "click"))
          :: if returns el (MDispatchEvent "click") then []
             else pressReleaseLog node el.

Definition clickRaises (el : Element) : option Exn :=
  if returns el MClick then None
  else if returns el (MDispatchEvent "click") then None
       else pressReleaseRaises el.


(** *** Example pages and actions *)

Definition neverRaises : Method -> option Exn := fun _ => None.

(** A text field that holds "abc". *)
Definition filledInput : Element :=
  mkElement "INPUT" "abc" "" false 10 10 200 20 neverRaises inl true.

Definition formPage : Page :=
  mkPage [filledInput]
         (fun xpath => if String.eqb xpath "html/body/input" then Some (Some 0%nat)
                       else Some None)
         "Form" [] "[]" "[]" "[]" 768 None [] 0.

(** An input-text action with a locator that resolves and no text. *)
Definition inputWithoutText : Action :=
  mkAction "input_text" (Some "html/body/input") None None
           Parsing.VUndefined Parsing.VUndefined None None None.

(** A click action on a locator. *)
Definition clickAction (xpath : string) : Action :=
  mkAction "click_element" (Some xpath) None None
           Parsing.VUndefined Parsing.VUndefined None None None.

(** A done action, with or without its message and its flag. *)
Definition doneAction (text : option string) (success : option bool) : Action :=
  mkAction "done" None None text Parsing.VUndefined Parsing.VUndefined None None success.


(** A wait action, with or without its duration. *)
Definition waitAction (seconds : option Q) : Action :=
  mkAction "wait" None None None Parsing.VUndefined Parsing.VUndefined None seconds None.

Definition emptyController : Controller := mkController [] false.

(** A node without a [click] method of its own, as the first way of
    clicking finds it; its other methods work. *)
Definition onlySyntheticClicks : Method -> option Exn :=
  fun m => match m with
           | MClick => Some (HostError "TypeError: element.click is not a function")
           | _ => None
           end.

Definition svgLink : Element :=
  mkElement "a" "" "more" false 40 60 80 20 onlySyntheticClicks inl true.

Definition svgPage : Page :=
  mkPage [svgLink]
         (fun xpath => if String.eqb xpath "html/body/svg/a" then Some (Some 0%nat)
                       else Some None)
         "Chart" [] "[]" "[]" "[]" 768 None [] 0.

(** Clamping as the specification words it: [x] brought into the range
    from [lo] to [hi]. *)
Definition clamp (x lo hi : Q) : Q :=
  if Qle_bool lo x then (if Qle_bool x hi then x else hi) else lo.

(** The pause the specification gives a wait of [s] seconds, in
    milliseconds. *)
Definition clampedPause (s : Q) : Q := clamp (s * 1000) 100 30000.

(** *** Further readings of an action *)

(** The cases of the [switch] of [executeAction]. *)
Definition actionTypes : list string :=
  ["click_element"; "input_text"; "extract_content"; "scroll"; "wait"; "done"].

(** The result object of the [catch] block of [executeAction]. *)
Definition failed (e : Exn) : ActionResult :=
  mkResult false None (Some e) None false None None.

(** An action with another index. *)
Definition withIndex (a : Action) (i : option Z) : Action :=
  mkAction (atype a) (xpath a) i (text a) (goal a) (direction a) (amount a)
           (seconds a) (success a).


(** The distance a scroll action asks for: [amount || window.innerHeight / 2]. *)
Definition scrollAmount (pg : Page) (amount : option Q) : Q :=
  match amount with
  | Some a => if Qeq_bool a 0 then (innerHeight pg / 2)%Q else a
  | None => (innerHeight pg / 2)%Q
  end.

(** A scroll action. *)
Definition scrollAction (direction : Parsing.Value) (amount : option Q) : Action :=
  mkAction "scroll" None None None Parsing.VUndefined direction amount None None.

(** An extraction action. *)
Definition extractAction (goal : Parsing.Value) : Action :=
  mkAction "extract_content" None None None goal Parsing.VUndefined None None None.



End ActionController.

(** ** In-page action queue (the content script) *)
Module ContentScript.

Import JS.

(** What the script does that others can see, and when a call of
    [executeAction] starts and settles.  [Started a dequeued] tells whether
    the call of [handleAction] came from the queue. *)
Inductive Entry :=
| Started (a : ActionController.Action) (dequeued : bool)
| Settled (a : ActionController.Action)
| SentActionResult (success : bool)
| SentDomState
| SentError.

(** What a configuration update writes: the [config] object, the three
    options of the builder and the debug flag of the controller.  The
    values are those of the message, whatever they are. *)
Record Settings := mkSettings {
  config : list (string * Parsing.Value);
  options_highlightElements : Parsing.Value;
  options_viewportExpansion : Parsing.Value;
  options_debugMode : Parsing.Value;
  controllerDebug : Parsing.Value
}.

(** The script's variables, the calls of [executeAction] that have not
    settled yet, the number of 300 ms callbacks that are pending, the log,
    and the settings. *)
Record State := mkState {
  isProcessing : bool;
  pendingActionQueue : list ActionController.Action;
  inFlight : list ActionController.Action;
  timers : nat;
  log : list Entry;
  settings : Settings
}.

(** The [config] object the script starts with. *)
Definition initialConfig : list (string * Parsing.Value) :=
  [("highlightElements"%string, Parsing.VBool true);
   ("viewportExpansion"%string, Parsing.VNumber 300);
   ("includedAttributes"%string,
    Parsing.VArray (map Parsing.VString
                        ["title"; "type"; "name"; "role"; "aria-label";
                         "placeholder"]%string));
   ("debug"%string, Parsing.VBool false)].

(** The state once [init] has made the builder and the controller. *)
Definition initial : State :=
  mkState false [] [] 0 []
          (mkSettings initialConfig (Parsing.VBool true) (Parsing.VNumber 300)
                      (Parsing.VBool false) (Parsing.VBool false)).

(** How the [try] block of [collectAndSendDOM] ends: the snapshot is built,
    formatted and sent, or one of these calls raises. *)
Inductive Collected := Snapshot | CollectRaises.

(** What [collectAndSendDOM] sends: the snapshot, or in its [catch] block
    an error message in its place. *)
Definition sent (c : Collected) : Entry :=
  match c with Snapshot => SentDomState | CollectRaises => SentError end.

(** [collectAndSendDOM()]: nothing while an action is processed; else a
    snapshot is built and sent, or the error that building it raised. *)
Definition collectAndSendDOM (c : Collected) (st : State) : State :=
  if isProcessing st then st
  else mkState (isProcessing st) (pendingActionQueue st) (inFlight st) (timers st)
               (log st ++ [sent c]) (settings st).

(** [handleAction(action)] up to its [await]: the action is queued, or the
    flag is set and [executeAction] is called. *)
Definition handleAction (a : ActionController.Action) (dequeued : bool) (st : State)
  : State :=
  if isProcessing st then
    mkState (isProcessing st) (pendingActionQueue st ++ [a]) (inFlight st) (timers st)
            (log st) (settings st)
  else
    mkState true (pendingActionQueue st) (inFlight st ++ [a]) (timers st)
            (log st ++ [Started a dequeued]) (settings st).

(** How the [try] block of [handleAction] ends once [executeAction] has
    settled: with a result that is sent, or by raising; the [catch] block
    then calls [collectAndSendDOM]. *)
Inductive Outcome :=
| Returned (r : ActionController.ActionResult)
| Raised (c : Collected).

(** [handleAction] after its [await], for the call that settles. *)
Definition afterAwait (o : Outcome) (st : State) : State :=
  match inFlight st with
  | [] => st
  | a :: others =>
      match o with
      | Returned r =>
          mkState (isProcessing st) (pendingActionQueue st) others (S (timers st))
                  (log st ++ [Settled a; SentActionResult (ActionController.r_success r)])
                  (settings st)
      | Raised c =>
          collectAndSendDOM c
            (mkState false (pendingActionQueue st) others (timers st)
                     (log st ++ [Settled a; SentActionResult false]) (settings st))
      end
  end.

(** The callback that [handleAction] sets for 300 ms after a result. *)
Definition settleCallback (c : Collected) (st : State) : State :=
  match timers st with
  | O => st
  | S n =>
      let st1 :=
        collectAndSendDOM c
          (mkState false (pendingActionQueue st) (inFlight st) n (log st)
                   (settings st)) in
      match pendingActionQueue st1 with
      | [] => st1
      | nextAction :: rest =>
          handleAction nextAction true
            (mkState (isProcessing st1) rest (inFlight st1) (timers st1) (log st1)
                     (settings st1))
      end
  end.

(** [Object.assign(target, source)]: the own enumerable properties of the
    source are written to the target, in their order. *)
Definition objectAssign (target : list (string * Parsing.Value)) (source : Parsing.Value)
  : list (string * Parsing.Value) :=
  fold_left (fun t property => Parsing.setField t (fst property) (snd property))
            (Parsing.spread source) target.

(** [updateConfig(newConfig)]: the configuration is written first, and only
    then the flag is tested. *)
Definition updateConfig (newConfig : Parsing.Value) (c : Collected) (st : State)
  : State :=
  if negb (Parsing.truthyValue newConfig) then st
  else
    let config := objectAssign (config (settings st)) newConfig in
    let st1 :=
      mkState (isProcessing st) (pendingActionQueue st) (inFlight st) (timers st)
              (log st)
              (mkSettings config
                          (Parsing.lookupField config "highlightElements")
                          (Parsing.lookupField config "viewportExpansion")
                          (Parsing.lookupField config "debug")
                          (Parsing.lookupField config "debug")) in
    if negb (isProcessing st1) then collectAndSendDOM c st1 else st1.

(** What the event loop can deliver to the script: an action message, a
    call of [collectAndSendDOM] (for a requestDOM message, or when the timer
    of [init] or of the mutation observer fires), a configuration update,
    the settling of a call of [executeAction], or the firing of a 300 ms
    callback.  The last two change nothing when there is no such call or
    callback.  Where [collectAndSendDOM] may be called, the event tells how
    its [try] block would end. *)
Inductive Event :=
| ActionMessage (a : ActionController.Action)
| DomRequest (c : Collected)
| UpdateConfig (newConfig : Parsing.Value) (c : Collected)
| ExecuteSettles (o : Outcome)
| TimerFires (c : Collected).

Definition step (st : State) (ev : Event) : State :=
  match ev with
  | ActionMessage a => handleAction a false st
  | DomRequest c => collectAndSendDOM c st
  | UpdateConfig newConfig c => updateConfig newConfig c st
  | ExecuteSettles o => afterAwait o st
  | TimerFires c => settleCallback c st
  end.

Definition run (evs : list Event) : State := fold_left step evs initial.

(** The calls of [executeAction] that a log shows as started and not settled. *)
Fixpoint running (newestFirst : list Entry) : nat :=
  match newestFirst with
  | [] => 0
  | Started _ _ :: older => S (running older)
  | Settled _ :: older => pred (running older)
  | _ :: older => running older
  end.

(** A log, read from its newest entry back, is orderly when every call
    started while no other was running, every call that came from the queue
    started right after the call before it had settled, its result had been
    sent and [collectAndSendDOM] had sent a snapshot or, in its place, an
    error, and every settling is that of the one running call. *)
Fixpoint orderly (newestFirst : list Entry) : Prop :=
  match newestFirst with
  | [] => True
  | e :: older =>
      orderly older
      /\ match e with
         | Started _ dequeued =>
             running older = 0
             /\ (dequeued = true ->
                 exists c success before older',
                   older = sent c :: SentActionResult success :: Settled before
                           :: older')
         | Settled _ => running older = 1
         | _ => True
         end
  end.

(** What every reachable state of the script satisfies. *)
Definition queueInv (st : State) : Prop :=
  List.length (inFlight st) <= 1
  /\ running (rev (log st)) = List.length (inFlight st)
  /\ (inFlight st <> [] -> isProcessing st = true /\ timers st = 0)
  /\ (timers st <> 0 ->
      isProcessing st = true /\ timers st = 1
      /\ exists success before older,
           rev (log st) = SentActionResult success :: Settled before :: older)
  /\ orderly (rev (log st)).

(** The actions of the action messages among the events, in the order of
    their arrival. *)
Fixpoint received (evs : list Event) : list ActionController.Action :=
  match evs with
  | [] => []
  | ActionMessage a :: evs' => a :: received evs'
  | _ :: evs' => received evs'
  end.

(** The actions that a log shows as started, the oldest first. *)
Fixpoint started (log : list Entry) : list ActionController.Action :=
  match log with
  | [] => []
  | Started a _ :: log' => a :: started log'
  | _ :: log' => started log'
  end.

(** An event other than a call of [executeAction] that settles by raising. *)
Definition noRaise (ev : Event) : bool :=
  match ev with
  | ExecuteSettles (Raised _) => false
  | _ => true
  end.

(** What is started and what waits make up what has arrived, and nothing
    waits while the flag is clear. *)
Definition arrivalInv (st : State) (arrived : list ActionController.Action) : Prop :=
  started (log st) ++ pendingActionQueue st = arrived
  /\ (isProcessing st = false -> pendingActionQueue st = []).

(** Two action messages, the second while the first is executed; then the
    first settles and its callback fires, and so for the second. *)
Definition twoActions (a b : ActionController.Action) : list Event :=
  [ActionMessage a; ActionMessage b;
   ExecuteSettles (Returned (ActionController.done None None)); TimerFires Snapshot;
   ExecuteSettles (Returned (ActionController.done None None)); TimerFires Snapshot].

(** Two action messages, the second while the first is executed; the first
    settles, and when its callback fires, building the snapshot raises. *)
Definition snapshotFails (a b : ActionController.Action) : list Event :=
  [ActionMessage a; ActionMessage b;
   ExecuteSettles (Returned (ActionController.done None None));
   TimerFires CollectRaises].

End ContentScript.
(** ** Message formats of the model clients (the LLM setup module and the
    server's helper) *)
Module Llm.

Import JS.
Local Open Scope string_scope.

(** A message in Gemini's format: [{ role, parts: [{ text }] }]. *)
Record GeminiMessage := mkGemini { g_role : string; g_parts : list string }.

(** A message in Anthropic's format: [{ role, content }]. *)
Record AnthropicMessage := mkAnthropic { a_role : string; a_content : string }.

Definition isSystem (m : Views.Message) : bool := String.eqb (Views.role m) "system".

Definition isAssistant (m : Views.Message) : bool :=
  String.eqb (Views.role m) "assistant".

(** How both conversions to Gemini's format start: the contents of the
    system messages, joined by line feeds; the empty string without any. *)
Definition systemText (messages : list Views.Message) : string :=
  let systemMessages := filter isSystem messages in
  match systemMessages with
  | [] => ""
  | _ => join nl (map Views.content systemMessages)
  end.

(** One round of the loop of [GeminiClient.convertToGeminiFormat]. *)
Definition convertStep (systemMessage : string) (result : list GeminiMessage)
           (message : Views.Message) : list GeminiMessage :=
  if isSystem message then result
  else
    let role := if isAssistant message then "model" else "user" in
    let content :=
      if String.eqb role "user" && truthy systemMessage
         && negb (existsb (fun m => String.eqb (g_role m) "user") result)
      then systemMessage ++ nl ++ nl ++ Views.content message
      else Views.content message in
    (result ++ [mkGemini role [content]])%list.

(** [GeminiClient.convertToGeminiFormat(messages)] *)
Definition convertToGeminiFormat (messages : list Views.Message) : list GeminiMessage :=
  fold_left (convertStep (systemText messages)) messages [].

(** One round of the loop of the server's [formatMessagesForGemini]. *)
Definition formatStep (systemMessage : string) (result : list GeminiMessage)
           (message : Views.Message) : list GeminiMessage :=
  if isSystem message then result
  else
    let role := if isAssistant message then "model" else "user" in
    let content :=
      if String.eqb role "user" && truthy systemMessage
         && Nat.eqb (List.length result) 0
      then systemMessage ++ nl ++ nl ++ Views.content message
      else Views.content message in
    (result ++ [mkGemini role [content]])%list.

(** [formatMessagesForGemini(messages)] of the server *)
Definition formatMessagesForGemini (messages : list Views.Message) : list GeminiMessage :=
  fold_left (formatStep (systemText messages)) messages [].

(** One round of the loop of [AnthropicClient.convertToAnthropicFormat]. *)
Definition anthropicStep (result : list AnthropicMessage) (message : Views.Message)
  : list AnthropicMessage :=
  if isSystem message then
    (result ++ [mkAnthropic "user"
                  ("<system>" ++ nl ++ Views.content message ++ nl ++ "</system>")])%list
  else
    let role := if isAssistant message then "assistant" else "user" in
    (result ++ [mkAnthropic role (Views.content message)])%list.

(** [AnthropicClient.convertToAnthropicFormat(messages)] *)
Definition convertToAnthropicFormat (messages : list Views.Message)
  : list AnthropicMessage :=
  fold_left anthropicStep messages [].

(** The clients that [setupLLM] makes, with the key and the model they are
    given. *)
Inductive Client :=
| OpenAIClient (apiKey model : string)
| AnthropicClient (apiKey model : string)
| GeminiClient (apiKey model : string).

(** [setupLLM(provider, model, apiKey)]; the model is that of the server's
    configuration, which is never undefined. *)
Definition setupLLM (provider model : string) (apiKey : option string)
  : Client + Parsing.Exn :=
  if negb (truthyOpt apiKey) then
    inr (Parsing.Thrown ("API key required for " ++ provider))
  else
    let key := showOpt apiKey in
    if String.eqb (toLowerCase provider) "openai" then inl (OpenAIClient key model)
    else if String.eqb (toLowerCase provider) "anthropic" then
      inl (AnthropicClient key model)
    else if String.eqb (toLowerCase provider) "gemini" then inl (GeminiClient key model)
    else inr (Parsing.Thrown ("Unsupported LLM provider: " ++ provider)).

(** *** Reading a conversion *)

(** A message carried over as it is, but for its role. *)
Definition plain (m : Views.Message) : GeminiMessage :=
  mkGemini (if isAssistant m then "model" else "user") [Views.content m].

(** A message of the user's with the system text put before its own. *)
Definition withSystemText (systemMessage : string) (m : Views.Message) : GeminiMessage :=
  mkGemini "user"
           [if truthy systemMessage
            then systemMessage ++ nl ++ nl ++ Views.content m
            else Views.content m].

(** The messages of a conversation that are not system messages. *)
Definition conversation (messages : list Views.Message) : list Views.Message :=
  filter (fun m => negb (isSystem m)) messages.

(** A conversation in which the assistant speaks before the user does. *)
Definition assistantFirst : list Views.Message :=
  [Views.mkMessage "system" "Be brief.";
   Views.mkMessage "assistant" "Hello.";
   Views.mkMessage "user" "Open the page."].

End Llm.

(** ** The first conversation manager ([MessageManager] of
    server/agent/message-manager.js) and the nodes of the agent graph
    (server/agent/graph.js) *)
Module Legacy.

Import JS.
Local Open Scope string_scope.

(** A message of the manager's: its role, the text of its first part and,
    when a screenshot was given, the image data of its second part.  Every
    message the manager makes has this shape. *)
Record Message := mkMessage {
  role : string;
  text : string;
  inlineData : option string
}.

Record MessageManager := mkManager {
  systemPrompt : string;
  messages : list Message;
  task : option string
}.

(** [reset()] *)
Definition reset (mm : MessageManager) : MessageManager :=
  mkManager (systemPrompt mm) [mkMessage "system" (systemPrompt mm) None] (task mm).

(** [new MessageManager(systemPrompt)] *)
Definition constructor (systemPrompt : string) : MessageManager :=
  reset (mkManager systemPrompt [] None).

(** The text of the task statement. *)
Definition taskText (task : string) : string :=
  "Your task is: " ++ task
  ++ ". I'll show you the webpage and you should help accomplish this task step by step.".

(** [setTask(task)] *)
Definition setTask (mm : MessageManager) (task : string) : MessageManager :=
  mkManager (systemPrompt mm)
            (messages mm ++ [mkMessage "user" (taskText task) None])
            (Some task).

(** An element and the viewport of a document state, as
    [_formatDOMForPrompt] reads them; the numbers are whole. *)
Record ElementInfo := mkElementInfo {
  index : Z;
  tagName : string;
  innerText : option string
}.

Record Viewport := mkViewport {
  vp_width : Z; vp_height : Z; scrollY : Z; maxScroll : Z
}.

Record DomState := mkDomState {
  url : string;
  title : string;
  elements : option (list ElementInfo);
  viewport : option Viewport
}.

(** A whole number in a template literal. *)
Definition showZ (z : Z) : string := NilZero.string_of_int (Z.to_int z).

Definition elementLine (el : ElementInfo) : string :=
  "[" ++ showZ (index el) ++ "] <" ++ tagName el ++ ">"
      ++ (if truthyOpt (innerText el) then showOpt (innerText el) else "")
      ++ "</" ++ tagName el ++ ">" ++ nl.

(** [_formatDOMForPrompt(domState)] *)
Definition _formatDOMForPrompt (domState : DomState) : string :=
  let prompt := "Current URL: " ++ url domState ++ nl in
  let prompt := prompt ++ "Page Title: " ++ title domState ++ nl ++ nl in
  let prompt := prompt ++ "Interactive Elements:" ++ nl in
  let prompt :=
    match elements domState with
    | Some (el :: els) =>
        fold_left (fun prompt el => prompt ++ elementLine el) (el :: els) prompt
    | _ => prompt ++ "No interactive elements found on page." ++ nl
    end in
  let prompt :=
    match viewport domState with
    | Some v =>
        prompt ++ nl ++ "Viewport: " ++ showZ (vp_width v) ++ "x" ++ showZ (vp_height v)
               ++ ", " ++ "Scroll position: " ++ showZ (scrollY v) ++ "/"
               ++ showZ (maxScroll v) ++ "px" ++ nl
    | None => prompt
    end in
  prompt ++ nl
  ++ "Please analyze the webpage and decide on the next action to take toward completing the task.".

Definition MAX_MESSAGES : nat := 20.

(** [messages.slice(-n)] *)
Definition lastN (n : nat) (l : list Message) : list Message :=
  skipn (List.length l - n) l.

Definition isTaskMessage (m : Message) : bool :=
  String.eqb (role m) "user" && includes "Your task is:" (text m).

Definition summaryText (task : option string) : string :=
  "[Previous conversation history removed to save context space. The current task is still: "
  ++ (match task with Some t => t | None => "null" end) ++ "]".

Definition optionToList {A : Type} (o : option A) : list A :=
  match o with Some a => [a] | None => [] end.

(** [_pruneMessagesIfNeeded()] *)
Definition _pruneMessagesIfNeeded (mm : MessageManager) : MessageManager :=
  if (MAX_MESSAGES <? List.length (messages mm))%nat then
    let systemMessage := hd_error (messages mm) in
    let taskMessage := find isTaskMessage (messages mm) in
    let summaryMessage := mkMessage "user" (summaryText (task mm)) None in
    let recentMessages := lastN 10 (messages mm) in
    mkManager (systemPrompt mm)
              (optionToList systemMessage ++ optionToList taskMessage
               ++ [summaryMessage] ++ recentMessages)%list
              (task mm)
  else mm.

(** The message that [addDOMState] makes. *)
Definition observation (domState : DomState) (screenshot : option string) : Message :=
  mkMessage "user" (_formatDOMForPrompt domState)
            (if truthyOpt screenshot then screenshot else None).

(** [addDOMState(domState, screenshot)] *)
Definition addDOMState (mm : MessageManager) (domState : DomState)
           (screenshot : option string) : MessageManager :=
  _pruneMessagesIfNeeded
    (mkManager (systemPrompt mm) (messages mm ++ [observation domState screenshot])
               (task mm)).

(** A result as [addActionResult] reads it. *)
Record ActionResult := mkResult {
  success : bool;
  message : option string;
  error : option string
}.

(** [addActionResult(result)] *)
Definition addActionResult (mm : MessageManager) (result : ActionResult) : MessageManager :=
  let resultText :=
    if success result then
      "The action was successful. "
      ++ (if truthyOpt (message result) then showOpt (message result) else "")
    else
      "The action failed. Error: "
      ++ (if truthyOpt (error result) then showOpt (error result) else "Unknown error") in
  mkManager (systemPrompt mm) (messages mm ++ [mkMessage "user" resultText None])
            (task mm).

(** [formatPrompt(state)] *)
Definition formatPrompt (mm : MessageManager) : list Message := messages mm.

(** *** The nodes of the agent graph *)

(** An entry of the graph state's history (without its timestamp). *)
Inductive HistoryItem :=
| Observation (url : option string)
| ActionTaken (action : option Parsing.Value) (result : option ActionResult).

(** The state that the nodes pass on. *)
Record GraphState := mkState {
  s_task : string;
  s_domState : option DomState;
  s_screenshot : option string;
  s_thinking : option string;
  s_nextAction : option Parsing.Value;
  s_lastActionResult : option ActionResult;
  s_history : list HistoryItem;
  s_isComplete : bool
}.

(** [initialize(state)] *)
Definition initialize (mm : MessageManager) (state : GraphState)
  : MessageManager * GraphState :=
  (setTask (reset mm) (s_task state),
   mkState (s_task state) (s_domState state) (s_screenshot state) (s_thinking state)
           (s_nextAction state) (s_lastActionResult state) [] false).

(** [observe(state)] *)
Definition observe (mm : MessageManager) (state : GraphState)
  : MessageManager * GraphState :=
  (match s_domState state with
   | Some domState => addDOMState mm domState (s_screenshot state)
   | None => mm
   end,
   mkState (s_task state) (s_domState state) (s_screenshot state) (s_thinking state)
           (s_nextAction state) (s_lastActionResult state)
           (s_history state ++ [Observation (option_map url (s_domState state))])
           (s_isComplete state)).

(** [parseAction] as [decide] calls it: a thinking output that is undefined
    has no [match] method, which the [catch] block answers like any other
    error. *)
Definition parseThinking (h : Parsing.Host) (thinking : option string) : Parsing.Value :=
  match thinking with
  | Some thinkingOutput => Parsing.parseAction h thinkingOutput
  | None => Parsing.failedDone (Parsing.nullPropertyError h "match")
  end.

(** [decide(state)] *)
Definition decide (h : Parsing.Host) (state : GraphState) : GraphState :=
  let nextAction := parseThinking h (s_thinking state) in
  let isComplete := Parsing.isString (Parsing.typeOf nextAction) "done" in
  mkState (s_task state) (s_domState state) (s_screenshot state) (s_thinking state)
          (Some nextAction) (s_lastActionResult state) (s_history state) isComplete.

(** [evaluate(state)] *)
Definition evaluate (mm : MessageManager) (state : GraphState)
  : MessageManager * GraphState :=
  (match s_lastActionResult state with
   | Some result => addActionResult mm result
   | None => mm
   end,
   mkState (s_task state) (s_domState state) (s_screenshot state) (s_thinking state)
           (s_nextAction state) (s_lastActionResult state)
           (s_history state
            ++ [ActionTaken (s_nextAction state) (s_lastActionResult state)])
           (s_isComplete state)).

(** *** Runs of the manager *)

(** What is added to the conversation after the task was set. *)
Inductive Op :=
| AddDOMState (domState : DomState) (screenshot : option string)
| AddActionResult (result : ActionResult).

Definition applyOp (mm : MessageManager) (o : Op) : MessageManager :=
  match o with
  | AddDOMState domState screenshot => addDOMState mm domState screenshot
  | AddActionResult result => addActionResult mm result
  end.

(** The manager of a session: made with the system prompt, reset and given
    the task as [initialize] does, then fed observations and results. *)
Definition session (systemPrompt task : string) (ops : list Op) : MessageManager :=
  fold_left applyOp ops (setTask (reset (constructor systemPrompt)) task).

(** The system message and the task statement of a session. *)
Definition systemMessage (systemPrompt : string) : Message :=
  mkMessage "system" systemPrompt None.

Definition taskMessage (task : string) : Message :=
  mkMessage "user" (taskText task) None.

(** What holds of the manager of a session: the system message comes first
    and the task statement second. *)
Definition pinned (systemPrompt task : string) (mm : MessageManager) : Prop :=
  exists rest : list Message,
    messages mm = systemMessage systemPrompt :: taskMessage task :: rest.

(** An empty page. *)
Definition blankState : DomState := mkDomState "about:blank" "" None None.

(** A graph state with a thinking output. *)
Definition thinkingState (thinking : option string) : GraphState :=
  mkState "find the price" None None thinking None None [] false.

End Legacy.

(** ** The agent service ([AgentService], with the modules of the
    extension that carry an action result to it and the server's handler
    that calls it) *)
Module Agent.

Import JS.
Local Open Scope string_scope.

(** *** An action result on its way to the server *)

(** The result object of the executor as JSON carries it: the [data] of an
    action result message, with the fields the server reads. *)
Record ResultData := mkData {
  d_message : option string;
  d_error : option string;
  d_isComplete : bool;
  d_finalMessage : option string;
  d_taskSuccess : option bool
}.

(** An action result message: [{ type: 'actionResult', success, data, error }]. *)
Record ActionResultMessage := mkMessage {
  m_success : bool;
  m_data : option ResultData;
  m_error : option string
}.

Section Wire.

(** How the host writes a number in a template literal. *)
Variable showNumber : Q -> string.

Definition renderPiece (p : ActionController.Piece) : string :=
  match p with
  | ActionController.Lit s => s
  | ActionController.Num q => showNumber q
  end.

(** The text of a template literal. *)
Definition render (t : ActionController.Template) : string :=
  fold_right (fun p s => renderPiece p ++ s) "" t.

(** [error.message] *)
Definition errorMessage (e : ActionController.Exn) : string :=
  match e with
  | ActionController.Error message => render message
  | ActionController.HostError message => message
  end.

(** [JSON.stringify(result)] and back: the fields that are undefined are
    left out. *)
Definition dataOf (r : ActionController.ActionResult) : ResultData :=
  mkData (option_map render (ActionController.r_message r))
         (option_map errorMessage (ActionController.r_error r))
         (ActionController.r_isComplete r)
         (ActionController.r_finalMessage r)
         (ActionController.r_taskSuccess r).

(** The message that [handleAction] of the content script sends for a
    result of [executeAction], as [handleActionResult] of the background
    script forwards it: the first has no [error] field, so the second
    finds none. *)
Definition actionResultMessage (r : ActionController.ActionResult) : ActionResultMessage :=
  mkMessage (ActionController.r_success r) (Some (dataOf r)) None.

(** The message of the [catch] block of [handleAction], forwarded likewise. *)
Definition raisedMessage (e : ActionController.Exn) : ActionResultMessage :=
  mkMessage false None (Some (errorMessage e)).

End Wire.

(** *** The service *)

Record FinalResult := mkFinal { f_message : string; f_success : bool }.

(** [this.state] *)
Record ServiceState := mkState {
  steps : nat;
  isComplete : bool;
  lastResult : option ActionResultMessage;
  finalResult : option FinalResult;
  lastAction : option Parsing.Value
}.

Record AgentService := mkService {
  state : ServiceState;
  currentUrl : option string;
  pageHistory : list (option string);
  messageManager : Service.MessageManager
}.

(** [new AgentService({ llm, task, messageManager, formatMessages })] *)
Definition constructor (messageManager : Service.MessageManager) : AgentService :=
  mkService (mkState 0 false None None None) None [] messageManager.

(** [processState(domState)] *)
Definition processState (agent : AgentService) (domState : Service.DomState)
  : AgentService :=
  let changed :=
    match currentUrl agent with
    | Some u => negb (String.eqb u (Service.state_url domState))
    | None => true
    end in
  let pageHistory1 :=
    if changed && truthyOpt (currentUrl agent)
    then (pageHistory agent ++ [currentUrl agent])%list
    else pageHistory agent in
  let currentUrl1 :=
    if changed then Some (Service.state_url domState) else currentUrl agent in
  mkService (state agent) currentUrl1 pageHistory1
            (Service.addStateMessage (messageManager agent) domState).

Section Reading.

(** An action object as the summary of past actions reads it. *)
Variable view : Parsing.Value -> Service.Action.

(** The result as [addActionResultMessage] reads it, once
    [processActionResult] has attached the last action to it. *)
Definition resultView (result : ActionResultMessage) (lastAction : option Parsing.Value)
  : Service.Result :=
  Service.mkResult (m_success result)
                   (match m_data result with
                    | Some data => d_message data
                    | None => None
                    end)
                   (m_error result)
                   (option_map view lastAction)
                   None.

(** [processActionResult(result)] *)
Definition processActionResult (agent : AgentService) (result : ActionResultMessage)
  : AgentService :=
  let st := state agent in
  let messageManager1 :=
    Service.addActionResultMessage (messageManager agent)
                                   (resultView result (lastAction st)) in
  let completes :=
    match m_data result with
    | Some data => d_isComplete data
    | None => false
    end in
  let st1 :=
    if completes then
      mkState (S (steps st)) true (Some result)
              (Some (mkFinal
                       (match m_data result with
                        | Some data =>
                            if truthyOpt (d_finalMessage data)
                            then showOpt (d_finalMessage data) else "Task completed"
                        | None => "Task completed"
                        end)
                       (match m_data result with
                        | Some data =>
                            match d_taskSuccess data with
                            | Some false => false
                            | _ => true
                            end
                        | None => true
                        end)))
              (lastAction st)
    else mkState (S (steps st)) (isComplete st) (Some result) (finalResult st)
                 (lastAction st) in
  mkService st1 (currentUrl agent) (pageHistory agent) messageManager1.

End Reading.

(** [isTaskComplete()] *)
Definition isTaskComplete (agent : AgentService) : bool := isComplete (state agent).

(** [getFinalResult()]: [None] stands for a final result that was never set. *)
Definition getFinalResult (agent : AgentService) : option FinalResult :=
  if negb (isTaskComplete agent) then Some (mkFinal "Task not complete" false)
  else finalResult (state agent).

(** [handleNavigation(url)] *)
Definition handleNavigation (agent : AgentService) (url : string) : AgentService :=
  mkService (state agent) (Some url)
            (pageHistory agent ++ [currentUrl agent])%list
            (Service.addNavigationMessage (messageManager agent) url).

(** [callLLM(messages)], given what [llm.generateResponse] settles with
    (no formatter is configured). *)
Definition callLLM (settled : string + Parsing.Exn) : string + Parsing.Exn :=
  match settled with
  | inl response => inl response
  | inr error => inr (Parsing.Thrown ("LLM call failed: " ++ Parsing.message error))
  end.

(** [getNextAction()], given what the model call settles with: the action
    returned, or the error raised, and the service afterwards. *)
Definition getNextAction (h : Parsing.Host) (settled : string + Parsing.Exn)
           (agent : AgentService) : (Parsing.Value + Parsing.Exn) * AgentService :=
  match callLLM settled with
  | inl llmResponse =>
      let action := Parsing.parseActionFromLLM h llmResponse in
      let st := state agent in
      (inl action,
       mkService (mkState (steps st) (isComplete st) (lastResult st) (finalResult st)
                          (Some action))
                 (currentUrl agent) (pageHistory agent) (messageManager agent))
  | inr error =>
      (inr (Parsing.Thrown ("Failed to generate next action: " ++ Parsing.message error)),
       agent)
  end.

(** *** The server's handler of an action result *)

(** What the server sends to the extension. *)
Inductive Sent :=
| TaskComplete (task : option string) (result : string) (success : bool)
| RequestDOM
| SentAction (action : Parsing.Value)
| SentError (error : string).

(** The state the server keeps for a client. *)
Record ClientState := mkClient {
  agent : option AgentService;
  c_task : option string;
  isExecuting : bool;
  waitingForResult : bool;
  isGeneratingAction : bool
}.

Section Handler.

Variable view : Parsing.Value -> Service.Action.

(** The host, for the error it raises when a property of [null] is read. *)
Variable host : Parsing.Host.

(** [handleActionResult(ws, clientState, data)]: the state afterwards and
    what is sent. *)
Definition handleActionResult (cs : ClientState) (data : ActionResultMessage)
  : ClientState * list Sent :=
  match isExecuting cs, agent cs with
  | true, Some agent0 =>
      let agent1 := processActionResult view agent0 data in
      if isTaskComplete agent1 then
        match getFinalResult agent1 with
        | Some finalResult =>
            (mkClient (Some agent1) None false false (isGeneratingAction cs),
             [TaskComplete (c_task cs) (f_message finalResult) (f_success finalResult)])
        | None =>
            (mkClient (Some agent1) (c_task cs) true false (isGeneratingAction cs),
             [SentError ("Error processing action result: "
                         ++ Parsing.message (Parsing.nullPropertyError host "message"))])
        end
      else
        (mkClient (Some agent1) (c_task cs) true false (isGeneratingAction cs),
         [RequestDOM])
  | _, _ =>
      (mkClient (agent cs) (c_task cs) (isExecuting cs) false (isGeneratingAction cs), [])
  end.

(** The state of a client for which [handleExecuteTask] has started a task. *)
Definition executing (task : string) : ClientState :=
  mkClient (Some (constructor (Service.constructor task None))) (Some task)
           true false false.

(** What the service goes through: observations, decisions, results and
    navigations. *)
Inductive Op :=
| ProcessState (domState : Service.DomState)
| NextAction (h : Parsing.Host) (settled : string + Parsing.Exn)
| ProcessActionResult (result : ActionResultMessage)
| HandleNavigation (url : string).

Definition applyOp (agent : AgentService) (o : Op) : AgentService :=
  match o with
  | ProcessState domState => processState agent domState
  | NextAction h settled => snd (getNextAction h settled agent)
  | ProcessActionResult result => processActionResult view agent result
  | HandleNavigation url => handleNavigation agent url
  end.

(** The service of a task after a sequence of such calls. *)
Definition run (task : string) (ops : list Op) : AgentService :=
  fold_left applyOp ops (constructor (Service.constructor task None)).

End Handler.

(** Whether a result message completes the task. *)
Definition completes (result : ActionResultMessage) : bool :=
  match m_data result with
  | Some data => d_isComplete data
  | None => false
  end.

(** The results among the calls, the oldest first. *)
Fixpoint results (ops : list Op) : list ActionResultMessage :=
  match ops with
  | [] => []
  | ProcessActionResult result :: ops' => result :: results ops'
  | _ :: ops' => results ops'
  end.

(** The final result that a completing result sets. *)
Definition finalOf (result : ActionResultMessage) : FinalResult :=
  match m_data result with
  | Some data =>
      mkFinal (if truthyOpt (d_finalMessage data)
               then showOpt (d_finalMessage data) else "Task completed")
              (match d_taskSuccess data with Some false => false | _ => true end)
  | None => mkFinal "Task completed" true
  end.

(** The last of the results that completes the task, if any. *)
Definition lastCompleting (l : list ActionResultMessage) : option ActionResultMessage :=
  find completes (rev l).

(** An action object read field by field, each as a string if it is one. *)
Definition stringField (v : Parsing.Value) (name : string) : option string :=
  match v with
  | Parsing.VObject fields =>
      match Parsing.lookupField fields name with
      | Parsing.VString s => Some s
      | _ => None
      end
  | _ => None
  end.

Definition exampleView (v : Parsing.Value) : Service.Action :=
  Service.mkAction (showOpt (stringField v "type")) (stringField v "xpath")
                   (stringField v "text") (stringField v "goal")
                   (stringField v "direction").

(** Numbers written with their numerator and denominator. *)
Definition exampleShowNumber (q : Q) : string :=
  Legacy.showZ (Qnum q) ++ "/" ++ Legacy.showZ (Zpos (Qden q)).

End Agent.

(** ** The background script's connection and the popup's list of results *)
Module Background.

Import JS.
Local Open Scope string_scope.

(** The variables of the background script that the socket's handlers
    change, and the delays of the reconnections scheduled so far, in
    milliseconds. *)
Record State := mkState {
  connectionStatus : string;
  reconnectAttempts : nat;
  taskInProgress : bool;
  scheduled : list nat
}.

Definition maxReconnectAttempts : nat := 5.
Definition reconnectDelay : nat := 3000.

(** The state when the script is loaded. *)
Definition initial : State := mkState "disconnected" 0 false [].

(** [socket.onopen] *)
Definition onopen (st : State) : State :=
  mkState "connected" 0 (taskInProgress st) (scheduled st).

(** [socket.onclose] *)
Definition onclose (wasClean : bool) (st : State) : State :=
  if negb wasClean && (reconnectAttempts st <? maxReconnectAttempts)%nat then
    let attempts := S (reconnectAttempts st) in
    let delay := reconnectDelay * attempts in
    mkState "disconnected" attempts (taskInProgress st) (scheduled st ++ [delay])
  else mkState "disconnected" (reconnectAttempts st) (taskInProgress st) (scheduled st).

(** [connectToServer(url)] when the socket can be made. *)
Definition connectToServer (st : State) : State :=
  mkState "connecting" (reconnectAttempts st) (taskInProgress st) (scheduled st).

(** [updateBadge()]: the colour and the text of the badge. *)
Definition updateBadge (st : State) : string * string :=
  if String.eqb (connectionStatus st) "connected" then
    ("#4CAF50", if taskInProgress st then "BUSY" else "ON")
  else if String.eqb (connectionStatus st) "connecting" then ("#FFC107", "...")
  else if String.eqb (connectionStatus st) "error" then ("#F44336", "ERR")
  else ("#888888", "").

(** What happens to the connection: the socket opens, it closes, or a
    connection is started (by the user or by a scheduled reconnection). *)
Inductive Event :=
| Opens
| Closes (wasClean : bool)
| Connects.

Definition step (st : State) (ev : Event) : State :=
  match ev with
  | Opens => onopen st
  | Closes wasClean => onclose wasClean st
  | Connects => connectToServer st
  end.

Definition run (evs : list Event) : State := fold_left step evs initial.



End Background.

Module Popup.

Import JS.
Local Open Scope string_scope.

(** A child of the results container: the note that nothing was executed
    yet, or the item of a result (its time is not modelled). *)
Inductive Child :=
| EmptyState
| ResultItem (task : string) (response : string) (success : bool).

(** A result as the popup gets it. *)
Record TaskResult := mkTaskResult {
  t_task : string;
  t_result : option string;
  t_success : bool
}.

Definition isEmptyState (c : Child) : bool :=
  match c with EmptyState => true | _ => false end.

Definition isResultItem (c : Child) : bool :=
  match c with ResultItem _ _ _ => true | _ => false end.

(** [container.removeChild(child)] for the first child that [p] selects. *)
Fixpoint removeFirst (p : Child -> bool) (l : list Child) : list Child :=
  match l with
  | [] => []
  | c :: l' => if p c then l' else c :: removeFirst p l'
  end.

(** [container.removeChild(items[items.length - 1])]: the last result item
    is taken out. *)
Definition removeLastItem (l : list Child) : list Child :=
  rev (removeFirst isResultItem (rev l)).

(** The item that [addTaskResult] makes. *)
Definition itemOf (r : TaskResult) : Child :=
  ResultItem ("Task: " ++ t_task r)
             (if truthyOpt (t_result r) then showOpt (t_result r)
              else if t_success r then "Completed successfully"
                   else "Failed to complete")
             (t_success r).

(** [addTaskResult(task, result, success)] on the children of the container. *)
Definition addTaskResult (children : list Child) (r : TaskResult) : list Child :=
  let children1 :=
    if existsb isEmptyState children then removeFirst isEmptyState children
    else children in
  let children2 := itemOf r :: children1 in
  if (10 <? List.length (filter isResultItem children2))%nat
  then removeLastItem children2 else children2.

(** The container of the popup when it is opened. *)
Definition initial : list Child := [EmptyState].

(** [loadTaskHistory()], given what the storage holds. *)
Definition loadTaskHistory (children : list Child) (taskHistory : option (list TaskResult))
  : list Child :=
  match taskHistory with
  | Some (r :: l) => fold_left addTaskResult (rev (r :: l)) []
  | _ => children
  end.

(** A container that holds result items only, and no more than ten. *)
Definition settled (children : list Child) : Prop :=
  forallb isResultItem children = true /\ List.length children <= 10.

End Popup.


(** * Properties *)

(** ** The conversation history *)
Section HistoryFacts.

Import Views.
Local Open Scope Z_scope.

Lemma sumTokens_app (l1 l2 : list Entry) :
  sumTokens (l1 ++ l2) = sumTokens l1 + sumTokens l2.
Proof.
  induction l1 as [|e l1 IH]; simpl; [reflexivity|].
  rewrite IH. lia.
Qed.

Lemma splice1_cons (a : Entry) (l : list Entry) (n : nat) :
  splice1 (a :: l) (S n) = (fst (splice1 l n), a :: snd (splice1 l n)).
Proof. reflexivity. Qed.

(** The index found by the loop of [trimIfNeeded] is that of the first
    entry that is not a system message, and removing it there is
    [evictOldest]. *)
Lemma firstNonSystem_found (l : list Entry) :
  forall i j, firstNonSystem l i = Some j ->
    exists e, (i <= j)%nat
      /\ nth_error l (j - i) = Some e
      /\ isSystem e = false
      /\ splice1 l (j - i) = ([e], evictOldest l)
      /\ sumTokens (evictOldest l) = sumTokens l - tokens (metadata e).
Proof.
  induction l as [|a l IH]; intros i j H; simpl in H; [discriminate|].
  destruct (isSystem a) eqn:Ha.
  - destruct (IH _ _ H) as (e & Hle & Hnth & Hsys & Hsp & Hsum).
    exists e. assert (Hj : (j - i = S (j - S i))%nat) by lia.
    rewrite Hj. simpl. rewrite Ha. repeat split; try assumption; try lia.
    + rewrite splice1_cons, Hsp. reflexivity.
    + simpl. lia.
  - injection H as <-. exists a. rewrite Nat.sub_diag. simpl. rewrite Ha.
    repeat split; try reflexivity; try assumption; try lia.
Qed.

Lemma firstNonSystem_none (l : list Entry) :
  forall i, firstNonSystem l i = None -> forallb isSystem l = true.
Proof.
  induction l as [|a l IH]; intros i H; simpl in *; [reflexivity|].
  destruct (isSystem a); [eauto | discriminate].
Qed.

(** What [trimIfNeeded] does, case by case. *)
Lemma trimIfNeeded_cases (h : MessageHistory) (maxTokens : Z) :
  (currentTokens h <= maxTokens /\ trimIfNeeded h maxTokens = (false, h))
  \/ (maxTokens < currentTokens h /\ forallb isSystem (messages h) = true
      /\ trimIfNeeded h maxTokens = (false, h))
  \/ (maxTokens < currentTokens h /\ forallb isSystem (messages h) = false
      /\ exists e, In e (messages h) /\ isSystem e = false
         /\ sumTokens (evictOldest (messages h))
            = sumTokens (messages h) - tokens (metadata e)
         /\ trimIfNeeded h maxTokens
            = (true, mkHistory (evictOldest (messages h))
                               (currentTokens h - tokens (metadata e)))).
Proof.
  unfold trimIfNeeded.
  destruct (currentTokens h <=? maxTokens) eqn:Hle.
  - left. split; [lia | reflexivity].
  - right. assert (maxTokens < currentTokens h) by lia.
    destruct (firstNonSystem (messages h) 0) as [j|] eqn:Hf.
    + right. destruct (firstNonSystem_found _ _ Hf) as (e & _ & Hnth & Hsys & Hsp & Hsum).
      rewrite Nat.sub_0_r in *. rewrite Hsp.
      split; [assumption|]. split.
      * destruct (forallb isSystem (messages h)) eqn:Hall; [|reflexivity].
        rewrite forallb_forall in Hall.
        rewrite (Hall e (nth_error_In _ _ Hnth)) in Hsys. discriminate.
      * exists e. repeat split; try assumption.
        eapply nth_error_In; eassumption.
    + left. split; [assumption|]. split; [|reflexivity].
      eapply firstNonSystem_none; eassumption.
Qed.

(** The counter is the sum of the stored estimates: kept by every operation. *)
Lemma applyOp_counter (h : MessageHistory) (o : Op) :
  currentTokens h = sumTokens (messages h) ->
  currentTokens (applyOp h o) = sumTokens (messages (applyOp h o)).
Proof.
  intros Hinv. destruct o as [m md | maxTokens]; simpl.
  - rewrite sumTokens_app, Hinv. simpl. lia.
  - destruct (trimIfNeeded_cases h maxTokens)
      as [(_ & ->) | [(_ & _ & ->) | (_ & _ & e & _ & _ & Hsum & ->)]];
      simpl; try assumption.
    rewrite Hsum, Hinv. reflexivity.
Qed.

Lemma run_counter_from (ops : list Op) :
  forall h, currentTokens h = sumTokens (messages h) ->
    currentTokens (fold_left applyOp ops h)
    = sumTokens (messages (fold_left applyOp ops h)).
Proof.
  induction ops as [|o ops IH]; intros h Hinv; simpl; [assumption|].
  apply IH, applyOp_counter, Hinv.
Qed.

End HistoryFacts.

(** C10. After every sequence of [addMessage] and [trimIfNeeded] calls on a
    fresh [MessageHistory], the running counter [currentTokens] is the sum of
    the token estimates of the messages stored, and [getTotalTokens] returns
    that sum. *)
Theorem C10_counter_is_sum_of_stored_estimates :
  forall ops : list Views.Op,
    Views.currentTokens (Views.run ops)
    = Views.sumTokens (Views.messages (Views.run ops))
    /\ Views.getTotalTokens (Views.run ops)
       = Views.sumTokens (Views.messages (Views.run ops)).
Proof.
  intros ops.
  assert (H : Views.currentTokens (Views.run ops)
              = Views.sumTokens (Views.messages (Views.run ops))).
  { unfold Views.run. apply run_counter_from. reflexivity. }
  split; [exact H | exact H].
Qed.

(** ** The conversation manager *)
Section ManagerFacts.

Import Views Service.
Local Open Scope Z_scope.

Lemma evictOldest_count (l : list Entry) :
  forallb isSystem l = false ->
  S (nonSystemCount (evictOldest l)) = nonSystemCount l.
Proof.
  unfold nonSystemCount.
  induction l as [|a l IH]; simpl; intros H; [discriminate|].
  destruct (isSystem a) eqn:Ha; simpl in *.
  - rewrite Ha. simpl. apply IH, H.
  - reflexivity.
Qed.

(** Eviction never removes an entry of role 'system'. *)
Lemma evictOldest_keeps_system (l : list Entry) :
  filter isSystem (evictOldest l) = filter isSystem l.
Proof.
  induction l as [|a l IH]; simpl; [reflexivity|].
  destruct (isSystem a) eqn:Ha; simpl; [now rewrite Ha, IH | reflexivity].
Qed.

Lemma iter_evictOldest_head (k : nat) (a : Entry) (l : list Entry) :
  isSystem a = true ->
  Nat.iter k evictOldest (a :: l) = a :: Nat.iter k evictOldest l.
Proof.
  intros Ha. induction k as [|k IH]; simpl; [reflexivity|].
  rewrite IH. simpl. now rewrite Ha.
Qed.

(** The loop of [addMessage] with enough fuel: it evicts oldest-first, [k]
    times, and stops as soon as the budget holds or nothing is evictable. *)
Lemma trimLoop_spec (fuel : nat) :
  forall (h : MessageHistory) (maxTokens : Z),
    (nonSystemCount (messages h) < fuel)%nat ->
    currentTokens h = sumTokens (messages h) ->
    exists k,
      messages (trimLoop fuel h maxTokens) = Nat.iter k evictOldest (messages h)
      /\ currentTokens (trimLoop fuel h maxTokens)
         = sumTokens (messages (trimLoop fuel h maxTokens))
      /\ (getTotalTokens (trimLoop fuel h maxTokens) <= maxTokens
          \/ forallb isSystem (messages (trimLoop fuel h maxTokens)) = true)
      /\ (forall j, (j < k)%nat ->
            maxTokens < sumTokens (Nat.iter j evictOldest (messages h))
            /\ forallb isSystem (Nat.iter j evictOldest (messages h)) = false).
Proof.
  induction fuel as [|fuel IH]; intros h maxTokens Hfuel Hinv; [lia|].
  simpl. unfold getTotalTokens.
  destruct (currentTokens h >? maxTokens) eqn:Hgt.
  - destruct (trimIfNeeded_cases h maxTokens)
      as [(Hle & _) | [(_ & Hall & ->) | (Hlt & Hall & e & _ & _ & Hsum & ->)]].
    + lia.
    + exists 0%nat. simpl.
      split; [reflexivity|]. split; [assumption|]. split; [right; assumption|].
      intros j Hj. lia.
    + set (h' := mkHistory (evictOldest (messages h))
                           (currentTokens h - tokens (metadata e))).
      assert (Hinv' : currentTokens h' = sumTokens (messages h')).
      { unfold h'. simpl. rewrite Hsum, Hinv. reflexivity. }
      assert (Hfuel' : (nonSystemCount (messages h') < fuel)%nat).
      { unfold h'. simpl. pose proof (evictOldest_count _ Hall). lia. }
      destruct (IH h' maxTokens Hfuel' Hinv') as (k & Hm & Hc & Hex & Hmin).
      exists (S k). rewrite Nat.iter_succ_r.
      split; [exact Hm|]. split; [exact Hc|]. split; [exact Hex|].
      intros j Hj. destruct j as [|j].
      * simpl. split; [rewrite <- Hinv; assumption | assumption].
      * rewrite Nat.iter_succ_r. apply Hmin. lia.
  - exists 0%nat. simpl.
    split; [reflexivity|]. split; [assumption|]. split; [left; lia|].
    intros j Hj. lia.
Qed.

Lemma nonSystemCount_le (l : list Entry) : (nonSystemCount l <= List.length l)%nat.
Proof. unfold nonSystemCount. apply filter_length_le. Qed.

Lemma addMessage_history (mm : MessageManager) (m : Message) :
  history (Service.addMessage mm m)
  = trimLoop
      (S (List.length
            (messages (Views.addMessage (history mm) m
                         (mkMetadata (estimateTokens (content m)))))))
      (Views.addMessage (history mm) m (mkMetadata (estimateTokens (content m))))
      (maxTokens mm).
Proof. reflexivity. Qed.

(** One [addMessage], from a history whose counter is right. *)
Lemma addMessage_spec (mm : MessageManager) (m : Message) :
  currentTokens (history mm) = sumTokens (messages (history mm)) ->
  exists k,
    messages (history (Service.addMessage mm m))
      = Nat.iter k evictOldest (messages (history mm) ++ [entryOf m])
    /\ currentTokens (history (Service.addMessage mm m))
       = sumTokens (messages (history (Service.addMessage mm m)))
    /\ (getTotalTokens (history (Service.addMessage mm m)) <= maxTokens mm
        \/ forallb isSystem (messages (history (Service.addMessage mm m))) = true)
    /\ (forall j, (j < k)%nat ->
          maxTokens mm
          < sumTokens (Nat.iter j evictOldest (messages (history mm) ++ [entryOf m]))
          /\ forallb isSystem
               (Nat.iter j evictOldest (messages (history mm) ++ [entryOf m])) = false).
Proof.
  intros Hinv. rewrite addMessage_history.
  set (h := Views.addMessage (history mm) m
              (mkMetadata (estimateTokens (content m)))).
  change (messages (history mm) ++ [entryOf m]) with (messages h).
  apply trimLoop_spec.
  - pose proof (nonSystemCount_le (messages h)). lia.
  - unfold h. simpl. rewrite sumTokens_app, Hinv. simpl. lia.
Qed.

Lemma addMessage_inv (mm : MessageManager) (m : Message) :
  managerInv mm -> managerInv (Service.addMessage mm m).
Proof.
  intros (Hc & (rest & Hhd) & _).
  destruct (addMessage_spec mm m Hc) as (k & Hm & Hc' & Hex & _).
  split; [assumption|]. split; [|assumption].
  rewrite Hm, Hhd. simpl. rewrite iter_evictOldest_head by reflexivity. eauto.
Qed.

Lemma addSystemMessage_first (mm : MessageManager) :
  messages (history mm) = [] -> currentTokens (history mm) = 0 ->
  managerInv (addSystemMessage mm).
Proof.
  intros Hnil Hzero.
  assert (Hc : currentTokens (history mm) = sumTokens (messages (history mm)))
    by (rewrite Hnil, Hzero; reflexivity).
  destruct (addMessage_spec mm systemMessage Hc) as (k & Hm & Hc' & Hex & _).
  unfold addSystemMessage. fold systemMessage.
  split; [assumption|]. split; [|assumption].
  rewrite Hm, Hnil. simpl. rewrite iter_evictOldest_head by reflexivity. eauto.
Qed.

Lemma addActionToHistory_inv (mm : MessageManager) (a : Action) (r : Result) :
  managerInv mm -> managerInv (addActionToHistory mm a r).
Proof. intros H. exact H. Qed.

Lemma applyOp_inv (mm : MessageManager) (o : Service.Op) :
  managerInv mm -> managerInv (Service.applyOp mm o).
Proof.
  intros H. destruct o as [| s | r | u]; simpl.
  - apply addMessage_inv, H.
  - unfold addStateMessage.
    destruct (JS.truthy (generateActionSummary mm));
      repeat apply addMessage_inv; exact H.
  - unfold addActionResultMessage.
    destruct (action r); [|apply addMessage_inv, H].
    apply addActionToHistory_inv, addMessage_inv, H.
  - apply addMessage_inv, H.
Qed.

Lemma run_inv (task : string) (opt : option Z) (ops : list Service.Op) :
  managerInv (Service.run task opt ops).
Proof.
  unfold Service.run.
  assert (H0 : managerInv (constructor task opt)).
  { unfold constructor, addTaskMessage. apply addMessage_inv.
    apply addSystemMessage_first; reflexivity. }
  revert H0. generalize (constructor task opt).
  induction ops as [|o ops IH]; intros mm H; simpl; [assumption|].
  apply IH, applyOp_inv, H.
Qed.

End ManagerFacts.

(** C1, as the code has it.  After the construction and any sequence of
    additions: the system instruction is still the first entry; either the
    total estimated cost is within the budget or every entry left has the
    role 'system'; and one more [addMessage] appends the entry and then
    removes, oldest first, entries whose role is not 'system' -- as many as
    it takes, and no more, to get within the budget or to leave only
    system-role entries.  The task statement has the role 'user' and is the
    first to go. *)
Theorem C1_eviction_spares_system_role_only :
  forall (task : string) (opt : option Z) (ops : list Service.Op) (m : Views.Message),
    hd_error (Views.getMessages (Service.history (Service.run task opt ops)))
      = Some Service.systemMessage
    /\ (Views.getTotalTokens (Service.history (Service.run task opt ops))
          <= Service.maxTokens (Service.run task opt ops)
        \/ forallb Views.isSystem
             (Views.messages (Service.history (Service.run task opt ops))) = true)%Z
    /\ exists k : nat,
         Views.messages
           (Service.history (Service.addMessage (Service.run task opt ops) m))
         = Nat.iter k Views.evictOldest
             (Views.messages (Service.history (Service.run task opt ops))
              ++ [Service.entryOf m])
         /\ (Views.getTotalTokens
               (Service.history (Service.addMessage (Service.run task opt ops) m))
             <= Service.maxTokens (Service.run task opt ops)
             \/ forallb Views.isSystem
                  (Views.messages
                     (Service.history
                        (Service.addMessage (Service.run task opt ops) m))) = true)%Z
         /\ (forall j : nat, (j < k)%nat ->
               (Service.maxTokens (Service.run task opt ops)
                < Views.sumTokens
                    (Nat.iter j Views.evictOldest
                       (Views.messages (Service.history (Service.run task opt ops))
                        ++ [Service.entryOf m])))%Z
               /\ forallb Views.isSystem
                    (Nat.iter j Views.evictOldest
                       (Views.messages (Service.history (Service.run task opt ops))
                        ++ [Service.entryOf m])) = false).
Proof.
  intros task opt ops m.
  destruct (run_inv task opt ops) as (Hc & (rest & Hhd) & Hbudget).
  split; [|split].
  - unfold Views.getMessages. rewrite Hhd. reflexivity.
  - exact Hbudget.
  - destruct (addMessage_spec (Service.run task opt ops) m Hc)
      as (k & Hm & _ & Hstop & Hmin).
    exists k. split; [exact Hm|]. split; [exact Hstop | exact Hmin].
Qed.

(** C1 as stated fails: with a budget of 400, after the construction for the
    task "t" and one navigation notice, the task statement is gone and the
    total (404) exceeds the budget although an entry other than the two
    pinned ones is present. *)
Lemma C1_task_statement_evicted_and_budget_exceeded :
  Views.getMessages (Service.history Service.exampleRun)
    = [Service.systemMessage;
       Views.mkMessage "system" "Page navigation occurred. New URL: x"]
  /\ ~ In (Service.taskMessage "t")
          (Views.getMessages (Service.history Service.exampleRun))
  /\ Service.maxTokens Service.exampleRun = 400%Z
  /\ Views.getTotalTokens (Service.history Service.exampleRun) = 404%Z.
Proof.
  assert (H : Views.getMessages (Service.history Service.exampleRun)
              = [Service.systemMessage;
                 Views.mkMessage "system" "Page navigation occurred. New URL: x"])
    by (vm_compute; reflexivity).
  split; [exact H|]. split; [|split; vm_compute; reflexivity].
  rewrite H. intros [Hin | [Hin | []]]; discriminate Hin.
Qed.

(** ** The document model builder *)
Section NodeInduction.

Import DomBuilder.

Variable P : Node -> Prop.
Hypothesis Htext : forall t r parent, P (Text t r parent).
Hypothesis Hother : P Other.
Hypothesis Helem :
  forall e childNodes shadow frame,
    Forall P childNodes ->
    match shadow with Some shadowChildren => Forall P shadowChildren | None => True end ->
    match frame with FrameBody (Some iframeBody) => P iframeBody | _ => True end ->
    P (Elem e childNodes shadow frame).

(** Induction over a document tree, through child nodes, shadow trees and
    framed documents. *)
Fixpoint Node_nested_ind (n : Node) : P n :=
  let all := fix all (l : list Node) : Forall P l :=
    match l with
    | [] => Forall_nil P
    | c :: l' => Forall_cons c (Node_nested_ind c) (all l')
    end in
  match n with
  | Text t r parent => Htext t r parent
  | Other => Hother
  | Elem e childNodes shadow frame =>
      @Helem e childNodes shadow frame
            (all childNodes)
            (match shadow with Some shadowChildren => all shadowChildren | None => I end)
            (match frame with
             | FrameBody (Some iframeBody) => Node_nested_ind iframeBody
             | FrameBody None => I
             | FrameNull => I
             | FrameRaises => I
             end)
  end.

End NodeInduction.

Section BuilderFacts.

Import DomBuilder.

Variable p : Page.
Variable opts : Options.

Let grows := DomBuilder.grows p opts.
Let visitGrows := DomBuilder.visitGrows p opts.

Lemma grows_refl (scope : list Element) (st : State) : grows scope st st [].
Proof.
  exists []. simpl. rewrite app_nil_r, Nat.add_0_r. repeat split; constructor.
Qed.

Lemma grows_weaken (s s' : list Element) (st st' : State) (ix : list nat) :
  incl s s' -> grows s st st' ix -> grows s' st st' ix.
Proof.
  intros Hincl (new & H1 & H2 & H3 & H4 & H5).
  exists new. repeat split; try assumption.
  eapply Forall_impl; [|exact H5]. intros ie [Hin Hok]. split; auto.
Qed.

Lemma grows_trans (s : list Element) (st st1 st2 : State) (i1 i2 : list nat) :
  grows s st st1 i1 -> grows s st1 st2 i2 -> grows s st st2 (i1 ++ i2).
Proof.
  intros (n1 & A1 & A2 & A3 & A4 & A5) (n2 & B1 & B2 & B3 & B4 & B5).
  exists (n1 ++ n2). rewrite length_app, map_app.
  split; [rewrite B1, A1, app_assoc; reflexivity|].
  split; [rewrite seq_app, A2, B2, A3; reflexivity|].
  split; [lia|].
  split; [rewrite A4, B4; reflexivity|].
  apply Forall_app; split; assumption.
Qed.

(** The checks at the end of [_buildDomTree]. *)
Lemma evaluate_grows (e : Element) (parentIframe : option Element)
      (children : list NodeData) (hasShadow : bool) (st : State) :
  String.eqb (id e) HIGHLIGHT_CONTAINER_ID = false ->
  _isElementAccepted e = true ->
  isDocumentBody p e || _isElementVisible e = true ->
  exists ix,
    postorderIndices (fst (evaluate p opts e parentIframe children hasShadow st))
    = flat_map postorderIndices children ++ ix
    /\ grows [e] st (snd (evaluate p opts e parentIframe children hasShadow st)) ix.
Proof.
  intros Hid Hacc Hvis. unfold evaluate.
  destruct (_isInExpandedViewport (window p) (rect e) (viewportExpansion opts)) eqn:Hview;
    [|exists []; simpl; split; [reflexivity | apply grows_refl]].
  destruct (_isTopElement (window p) e) eqn:Htop;
    [|exists []; simpl; split; [reflexivity | apply grows_refl]].
  destruct (_isInteractiveElement e) eqn:Hint;
    [|exists []; simpl; split; [reflexivity | apply grows_refl]].
  exists [highlightIndex st]. simpl. split; [reflexivity|].
  exists [(highlightIndex st, e)]. simpl.
  repeat split; try reflexivity; try lia.
  constructor; [|constructor]. simpl. split; [left; reflexivity|].
  unfold passesChecks. rewrite Hid, Hacc, Hvis, Hview, Htop, Hint. reflexivity.
Qed.

(** The loops over child nodes. *)
Lemma walk_grows (visit : Node -> State -> option NodeData * State) (l : list Node) :
  Forall (visitGrows visit) l ->
  forall acc st, exists ix,
    flat_map postorderIndices (fst (walk visit l acc st))
    = flat_map postorderIndices acc ++ ix
    /\ grows (flat_map elementsOf l) st (snd (walk visit l acc st)) ix.
Proof.
  induction 1 as [|c l Hc _ IH]; intros acc st; simpl.
  - exists []. rewrite app_nil_r. split; [reflexivity | apply grows_refl].
  - specialize (Hc st). destruct (visit c st) as [r st1]. simpl in Hc.
    destruct (IH (pushTree r acc) st1) as (ix & Hix & Hg).
    exists (treeIndices postorderIndices r ++ ix). split.
    + rewrite Hix. destruct r as [t|]; simpl.
      * rewrite flat_map_app. simpl. rewrite app_nil_r, app_assoc. reflexivity.
      * reflexivity.
    + eapply grows_trans.
      * eapply grows_weaken; [|exact Hc]. apply incl_appl, incl_refl.
      * eapply grows_weaken; [|exact Hg]. apply incl_appr, incl_refl.
Qed.

(** One call of [_buildDomTree], whatever the node. *)
Lemma buildDomTree_grows (n : Node) :
  forall parentIframe,
    visitGrows (fun node st => _buildDomTree p opts node parentIframe st) n.
Proof.
  induction n as [t r parent | | e childNodes shadow frame IHkids IHshadow IHframe]
    using Node_nested_ind; intros parentIframe st.
  - simpl. destruct (_ || _); simpl; apply grows_refl.
  - simpl. apply grows_refl.
  - cbn [_buildDomTree].
    destruct (String.eqb (id e) HIGHLIGHT_CONTAINER_ID) eqn:Hid;
      [simpl; apply grows_refl|].
    destruct (_isElementAccepted e) eqn:Hacc; [|simpl; apply grows_refl].
    destruct (isDocumentBody p e || _isElementVisible e) eqn:Hvis.
    2:{ apply orb_false_iff in Hvis. destruct Hvis as [-> ->]. simpl. apply grows_refl. }
    assert (Hguard : negb (isDocumentBody p e) && negb (_isElementVisible e) = false).
    { destruct (isDocumentBody p e), (_isElementVisible e); simpl in *; congruence. }
    cbn [negb]. rewrite Hguard.
    set (visit := fun child st0 => _buildDomTree p opts child parentIframe st0).
    assert (Hkids : Forall (visitGrows visit) childNodes).
    { eapply Forall_impl; [|exact IHkids]. intros c Hc. apply Hc. }
    destruct (walk_grows Hkids [] st) as (ix1 & Hix1 & Hg1).
    destruct (walk visit childNodes [] st) as [children1 st1]. simpl in Hix1, Hg1.
    (* the shadow tree *)
    assert (Hsh : exists ix2 children2 st2,
               match shadow with
               | Some shadowChildren => walk visit shadowChildren children1 st1
               | None => (children1, st1)
               end = (children2, st2)
               /\ flat_map postorderIndices children2
                  = flat_map postorderIndices children1 ++ ix2
               /\ grows (match shadow with
                         | Some shadowChildren => flat_map elementsOf shadowChildren
                         | None => []
                         end) st1 st2 ix2).
    { destruct shadow as [shadowChildren|].
      - assert (Hs : Forall (visitGrows visit) shadowChildren).
        { eapply Forall_impl; [|exact IHshadow]. intros c Hc. apply Hc. }
        destruct (walk_grows Hs children1 st1) as (ix2 & Hix2 & Hg2).
        destruct (walk visit shadowChildren children1 st1) as [children2 st2].
        exists ix2, children2, st2. auto.
      - exists [], children1, st1. rewrite app_nil_r.
        split; [reflexivity|]. split; [reflexivity | apply grows_refl]. }
    destruct Hsh as (ix2 & children2 & st2 & -> & Hix2 & Hg2).
    (* the framed document *)
    assert (Hfr : exists ix3 children3 st3,
               (if String.eqb (JS.toUpperCase (tagName e)) "IFRAME" then
                  match frame with
                  | FrameBody (Some iframeBody) =>
                      let (r, st') := _buildDomTree p opts iframeBody (Some e) st2 in
                      (pushTree r children2, st')
                  | _ => (children2, st2)
                  end
                else (children2, st2)) = (children3, st3)
               /\ flat_map postorderIndices children3
                  = flat_map postorderIndices children2 ++ ix3
               /\ grows (match frame with
                         | FrameBody (Some iframeBody) => elementsOf iframeBody
                         | _ => []
                         end) st2 st3 ix3).
    { assert (Hnone : exists ix3 children3 st3,
                 (children2, st2) = (children3, st3)
                 /\ flat_map postorderIndices children3
                    = flat_map postorderIndices children2 ++ ix3
                 /\ grows [] st2 st3 ix3).
      { exists [], children2, st2. rewrite app_nil_r.
        split; [reflexivity|]. split; [reflexivity | apply grows_refl]. }
      destruct (String.eqb (JS.toUpperCase (tagName e)) "IFRAME").
      - destruct frame as [| | [iframeBody|]].
        + exact Hnone.
        + exact Hnone.
        + specialize (IHframe (Some e) st2).
          destruct (_buildDomTree p opts iframeBody (Some e) st2) as [r st'].
          simpl in IHframe.
          exists (treeIndices postorderIndices r), (pushTree r children2), st'.
          split; [reflexivity|]. split; [|exact IHframe].
          destruct r as [t|]; simpl.
          * rewrite flat_map_app. simpl. rewrite app_nil_r. reflexivity.
          * rewrite app_nil_r. reflexivity.
        + exact Hnone.
      - destruct Hnone as (ix3 & children3 & st3 & H1 & H2 & H3).
        exists ix3, children3, st3. split; [exact H1|]. split; [exact H2|].
        eapply grows_weaken; [|exact H3]. intros x []. }
    destruct Hfr as (ix3 & children3 & st3 & Hfr & Hix3 & Hg3).
    match goal with
    | |- context [let (c, s) := ?X in _] =>
        replace X with (children3, st3) by (symmetry; exact Hfr)
    end.
    destruct (evaluate_grows e parentIframe children3 (JS.defined shadow) st3
                             Hid Hacc Hvis) as (ix4 & Hix4 & Hg4).
    destruct (evaluate p opts e parentIframe children3 (JS.defined shadow) st3)
      as [data st4].
    simpl in Hix4, Hg4. simpl.
    rewrite Hix4, Hix3, Hix2, Hix1. simpl.
    rewrite <- !app_assoc.
    eapply grows_trans; [|eapply grows_trans; [|eapply grows_trans]].
    + eapply grows_weaken; [|exact Hg1].
      intros x Hx. right. apply in_or_app. left. exact Hx.
    + eapply grows_weaken; [|exact Hg2].
      intros x Hx. right. apply in_or_app. right. apply in_or_app. left. exact Hx.
    + eapply grows_weaken; [|exact Hg3].
      intros x Hx. right. apply in_or_app. right. apply in_or_app. right. exact Hx.
    + eapply grows_weaken; [|exact Hg4].
      intros x [<- | []]. left. reflexivity.
Qed.

(** A whole [build()]. *)
Lemma build_grows :
  grows (elementsOf (body p)) (mkState 0 [] []) (snd (build p opts))
        (treeIndices postorderIndices (elementTree (build p opts))).
Proof. apply (buildDomTree_grows (body p) None). Qed.

End BuilderFacts.

Section SnapshotOrder.

Import DomBuilder.

Lemma sorted_app_inv (l1 l2 : list nat) :
  StronglySorted lt (l1 ++ l2) ->
  StronglySorted lt l1 /\ StronglySorted lt l2
  /\ Forall (fun a => Forall (fun b => a < b) l2) l1.
Proof.
  induction l1 as [|a l1 IH]; simpl; intros H.
  - repeat split; [constructor | assumption | constructor].
  - inversion H as [|? ? Hs Hall]; subst.
    destruct (IH Hs) as (H1 & H2 & H3). apply Forall_app in Hall.
    destruct Hall as [Ha1 Ha2].
    repeat split; [constructor; assumption | assumption | constructor; assumption].
Qed.

Lemma sorted_seq (a n : nat) : StronglySorted lt (seq a n).
Proof.
  revert a. induction n as [|n IH]; intros a; simpl; constructor.
  - apply IH.
  - apply Forall_forall. intros x Hx. apply in_seq in Hx. lia.
Qed.

(** A tree whose post-order listing of indices increases has every index
    inside an element below the element's own. *)
Fixpoint sorted_ancestorsLast (t : NodeData) :
  StronglySorted lt (postorderIndices t) -> ancestorsLast t.
Proof.
  destruct t as [text | tag attrs children inter topEl inView idx hasShadow];
    simpl; intros H; [exact I|].
  apply sorted_app_inv in H. destruct H as (Hc & _ & Hcross). split.
  - destruct idx as [i|]; [|exact I].
    eapply Forall_impl; [|exact Hcross].
    intros a Ha. inversion Ha; assumption.
  - clear Hcross. induction children as [|c children IH]; simpl; [exact I|].
    simpl in Hc. apply sorted_app_inv in Hc. destruct Hc as (H1 & H2 & _).
    split; [apply sorted_ancestorsLast, H1 | apply IH, H2].
Qed.

End SnapshotOrder.

(** C2, as the code has it.  Every element that [build()] gives an index is
    an element of the document that is accepted, is in the viewport expanded
    by the configured margin, is the topmost element at the centre of its
    box, matches the interactivity signature, and passed the visibility
    test -- unless it is the document body, which the builder exempts from
    that one test. *)
Theorem C2_indexed_elements_pass_checks_body_exempt_from_visibility :
  forall (p : DomBuilder.Page) (opts : DomBuilder.Options),
    Forall (fun ie : nat * DomBuilder.Element =>
              In (snd ie) (DomBuilder.elementsOf (DomBuilder.body p))
              /\ DomBuilder._isElementAccepted (snd ie) = true
              /\ (DomBuilder.isDocumentBody p (snd ie) = true
                  \/ DomBuilder._isElementVisible (snd ie) = true)
              /\ DomBuilder._isInExpandedViewport
                   (DomBuilder.window p) (DomBuilder.rect (snd ie))
                   (DomBuilder.viewportExpansion opts) = true
              /\ DomBuilder._isTopElement (DomBuilder.window p) (snd ie) = true
              /\ DomBuilder._isInteractiveElement (snd ie) = true)
           (DomBuilder.resultMap (DomBuilder.build p opts)).
Proof.
  intros p opts.
  destruct (build_grows p opts) as (new & Hmap & _ & _ & _ & Hall).
  unfold DomBuilder.resultMap. rewrite Hmap. simpl.
  eapply Forall_impl; [|exact Hall].
  intros ie [Hin Hok]. unfold DomBuilder.passesChecks in Hok.
  repeat (apply andb_prop in Hok; destruct Hok as [Hok ?]).
  repeat split; try assumption.
  apply orb_prop. assumption.
Qed.

(** C2 as stated fails: a body that is fully transparent, and so fails the
    visibility test, is given index 0. *)
Lemma C2_invisible_body_is_indexed :
  DomBuilder.resultMap (DomBuilder.build DomBuilder.transparentPage DomBuilder.defaultOptions)
    = [(0, DomBuilder.transparentBody)]
  /\ DomBuilder._isElementVisible DomBuilder.transparentBody = false.
Proof. split; vm_compute; reflexivity. Qed.

(** C4, as the code has it.  On every [build()] the counter starts at 0 and
    ends at the number of indexed elements; the keys of the map are
    0, 1, ..., n-1; and the indices are given in post-order: listing the
    returned tree with the inside of each element before the element itself
    gives 0, 1, ..., n-1, so every index inside an element is below the
    element's own. *)
Theorem C4_indices_contiguous_in_postorder :
  forall (p : DomBuilder.Page) (opts : DomBuilder.Options),
    map fst (DomBuilder.resultMap (DomBuilder.build p opts))
      = seq 0 (List.length (DomBuilder.resultMap (DomBuilder.build p opts)))
    /\ DomBuilder.highlightIndex (snd (DomBuilder.build p opts))
       = List.length (DomBuilder.resultMap (DomBuilder.build p opts))
    /\ DomBuilder.treeIndices DomBuilder.postorderIndices
         (DomBuilder.elementTree (DomBuilder.build p opts))
       = seq 0 (List.length (DomBuilder.resultMap (DomBuilder.build p opts)))
    /\ match DomBuilder.elementTree (DomBuilder.build p opts) with
       | Some t => DomBuilder.ancestorsLast t
       | None => True
       end.
Proof.
  intros p opts.
  destruct (build_grows p opts) as (new & Hmap & Hseq & Hcount & Hix & _).
  unfold DomBuilder.resultMap. rewrite Hmap. simpl in *.
  assert (Hpost : DomBuilder.treeIndices DomBuilder.postorderIndices
                    (DomBuilder.elementTree (DomBuilder.build p opts))
                  = seq 0 (List.length new)) by (rewrite Hix; exact Hseq).
  repeat split; try assumption.
  destruct (DomBuilder.elementTree (DomBuilder.build p opts)) as [t|]; [|exact I].
  apply sorted_ancestorsLast. simpl in Hpost. rewrite Hpost. apply sorted_seq.
Qed.

(** C4 as stated fails: a [div] with a click handler that holds a [button]
    gets index 1 and the button inside it index 0, so listing the tree with
    each element before its inside gives 1, 0. *)
Lemma C4_ancestor_indexed_after_descendant :
  DomBuilder.resultMap (DomBuilder.build DomBuilder.nestedPage DomBuilder.defaultOptions)
    = [(0, DomBuilder.nestedButton); (1, DomBuilder.nestedDiv)]
  /\ DomBuilder.treeIndices DomBuilder.preorderIndices
       (DomBuilder.elementTree
          (DomBuilder.build DomBuilder.nestedPage DomBuilder.defaultOptions))
     = [1; 0].
Proof. split; vm_compute; reflexivity. Qed.

(** C5 fails on the code.  With [viewportExpansion] at -1 the viewport check
    passes, yet a visible, uncovered button 2000 pixels down an unscrolled
    page is left out: the centre of its box lies outside the viewport, where
    [elementFromPoint] answers [null], so [_isTopElement] fails. *)
Theorem C5_element_below_the_fold_left_out :
  DomBuilder.viewportExpansion DomBuilder.wholeDocument = (-1)%Z
  /\ In DomBuilder.farButton (DomBuilder.elementsOf (DomBuilder.body DomBuilder.tallPage))
  /\ DomBuilder._isElementVisible DomBuilder.farButton = true
  /\ DomBuilder._isInteractiveElement DomBuilder.farButton = true
  /\ DomBuilder._isInExpandedViewport
       (DomBuilder.window DomBuilder.tallPage) (DomBuilder.rect DomBuilder.farButton)
       (DomBuilder.viewportExpansion DomBuilder.wholeDocument) = true
  /\ DomBuilder.hitTest (DomBuilder.window DomBuilder.tallPage) 60 2020 = [2; 1; 0]
  /\ DomBuilder._isTopElement (DomBuilder.window DomBuilder.tallPage) DomBuilder.farButton
     = false
  /\ DomBuilder.resultMap (DomBuilder.build DomBuilder.tallPage DomBuilder.wholeDocument)
     = [].
Proof.
  repeat split; try (vm_compute; reflexivity).
  simpl. right. left. reflexivity.
Qed.

(** ** The action executor *)
Section ExecutorFacts.

Import ActionController.

Lemma addLogs_addLogs (pg : Page) (l1 l2 : list Event) :
  addLogs (addLogs pg l1) l2 = addLogs pg (l1 ++ l2).
Proof. unfold addLogs. simpl. rewrite app_assoc. reflexivity. Qed.

(** A method call on a live node. *)
Lemma call_run (pg : Page) (node : nat) (el : Element) (m : Method)
      (client : option (Q * Q)) :
  nth_error (nodes pg) node = Some el ->
  call node m client pg
  = (match raises el m with Some e => inr e | None => inl tt end,
     addLogs pg [Call node m client (returns el m)]).
Proof.
  intros H. unfold call, bind, getNode, returns. rewrite H.
  destruct (raises el m); reflexivity.
Qed.

Lemma clickMethods_run (pg : Page) (node : nat) (el : Element) :
  nth_error (nodes pg) node = Some el ->
  clickMethods node pg
  = (match clickRaises el with Some e => inr e | None => inl tt end,
     addLogs pg (clickLog node el)).
Proof.
  intros H.
  unfold clickMethods, tryCatch, clickRaises, clickLog, pressReleaseRaises,
    pressReleaseLog, centre, bind.
  rewrite (@call_run pg _ _ _ _ H). unfold returns.
  destruct (raises el MClick) as [e1|]; [|reflexivity].
  rewrite (@call_run (addLogs pg _) _ _ _ _ H). unfold returns.
  destruct (raises el (MDispatchEvent "click")) as [e2|];
    [|rewrite addLogs_addLogs; reflexivity].
  rewrite (@call_run (addLogs (addLogs pg _) _) _ _ _ _ H). unfold returns.
  destruct (raises el MGetBoundingClientRect) as [e3|];
    [rewrite !addLogs_addLogs; reflexivity|].
  unfold getNode. cbn [nodes addLogs]. rewrite H.
  rewrite (@call_run (addLogs (addLogs (addLogs pg _) _) _) _ _ _ _ H).
  unfold returns.
  destruct (raises el (MDispatchEvent "mousedown")) as [e4|];
    [rewrite !addLogs_addLogs; reflexivity|].
  rewrite (@call_run (addLogs (addLogs (addLogs (addLogs pg _) _) _) _) _ _ _ _ H).
  unfold returns.
  destruct (raises el (MDispatchEvent "mouseup")) as [e5|];
    rewrite !addLogs_addLogs; reflexivity.
Qed.

(** A click on a node that resolves and scrolls into view. *)
Lemma click_run (c : Controller) (pg : Page) (a : Action) (node : nat) (el : Element) :
  atype a = "click_element"%string ->
  resolve c pg a = Some node ->
  nth_error (nodes pg) node = Some el ->
  raises el MScrollIntoView = None ->
  r_success (fst (executeAction c a pg))
  = match clickRaises el with Some _ => false | None => true end
  /\ log (snd (executeAction c a pg))
     = log pg ++ Call node MScrollIntoView None true :: clickLog node el.
Proof.
  intros Ht Hres Hnode Hscroll. unfold executeAction, resolve in *. rewrite Ht. simpl.
  destruct (JS.truthyOpt (xpath a)).
  - unfold clickElementByXPath, bind, _findElementByXPath.
    destruct (document_evaluate pg (JS.showOpt (xpath a))) as [result|];
      [|discriminate]. subst result.
    rewrite (@call_run _ _ _ _ _ Hnode), Hscroll. unfold sleep.
    rewrite (@clickMethods_run (addClock (addLogs pg _) 500) _ _ Hnode).
    unfold returns. rewrite Hscroll.
    destruct (clickRaises el); simpl; split; try reflexivity;
      rewrite <- app_assoc; reflexivity.
  - destruct (index a) as [i|]; [|discriminate].
    unfold clickElement. rewrite Hres. unfold bind.
    rewrite (@call_run _ _ _ _ _ Hnode), Hscroll. unfold sleep.
    rewrite (@clickMethods_run (addClock (addLogs pg _) 500) _ _ Hnode).
    unfold returns. rewrite Hscroll.
    destruct (clickRaises el); simpl; split; try reflexivity;
      rewrite <- app_assoc; reflexivity.
Qed.

End ExecutorFacts.

(** C7. For every click action that resolves to a node (by locator or by
    index) and scrolls it into view, what the executor does next to the node
    is: the direct [click()]; only if that raised, a synthetic click event;
    only if that raised too, the box is read and a press and a release are
    sent at its centre; and nothing after that.  The result reports success
    exactly when one of the three ways completed without raising. *)
Theorem C7_click_tries_three_ways_in_order :
  forall (c : ActionController.Controller) (pg : ActionController.Page)
         (a : ActionController.Action) (node : nat) (el : ActionController.Element),
    ActionController.atype a = "click_element"%string ->
    ActionController.resolve c pg a = Some node ->
    nth_error (ActionController.nodes pg) node = Some el ->
    ActionController.raises el ActionController.MScrollIntoView = None ->
    exists ways : list ActionController.Event,
      ActionController.log (snd (ActionController.executeAction c a pg))
      = ActionController.log pg
        ++ ActionController.Call node ActionController.MScrollIntoView None true :: ways
      /\ match ActionController.raises el ActionController.MClick,
               ActionController.raises el (ActionController.MDispatchEvent "click") with
         | None, _ =>
             ways = [ActionController.Call node ActionController.MClick None true]
             /\ ActionController.r_success
                  (fst (ActionController.executeAction c a pg)) = true
         | Some _, None =>
             ways = [ActionController.Call node ActionController.MClick None false;
                     ActionController.Call
                       node (ActionController.MDispatchEvent "click") None true]
             /\ ActionController.r_success
                  (fst (ActionController.executeAction c a pg)) = true
         | Some _, Some _ =>
             ways = [ActionController.Call node ActionController.MClick None false;
                     ActionController.Call
                       node (ActionController.MDispatchEvent "click") None false]
                    ++ ActionController.pressReleaseLog node el
             /\ ActionController.r_success
                  (fst (ActionController.executeAction c a pg))
                = ActionController.pressReleaseReturns el
         end.
Proof.
  intros c pg a node el Ht Hres Hnode Hscroll.
  destruct (@click_run c pg a node el Ht Hres Hnode Hscroll) as [Hok Hlog].
  exists (ActionController.clickLog node el). split; [exact Hlog|].
  rewrite Hok.
  unfold ActionController.clickLog, ActionController.clickRaises,
    ActionController.returns.
  destruct (ActionController.raises el ActionController.MClick) as [e1|];
    [|split; reflexivity].
  destruct (ActionController.raises el (ActionController.MDispatchEvent "click"))
    as [e2|]; [|split; reflexivity].
  split; [reflexivity|].
  unfold ActionController.pressReleaseRaises, ActionController.pressReleaseReturns,
    ActionController.returns.
  destruct (ActionController.raises el ActionController.MGetBoundingClientRect);
    [reflexivity|].
  destruct (ActionController.raises el (ActionController.MDispatchEvent "mousedown"));
    [reflexivity|].
  destruct (ActionController.raises el (ActionController.MDispatchEvent "mouseup"));
    reflexivity.
Qed.

(** C7 at a node that has no [click] method: the direct click raises, the
    synthetic click event is sent and nothing more, and the click succeeds. *)
Lemma C7_click_on_node_without_click_method :
  ActionController.atype (ActionController.clickAction "html/body/svg/a")
    = "click_element"%string
  /\ ActionController.resolve ActionController.emptyController ActionController.svgPage
       (ActionController.clickAction "html/body/svg/a") = Some 0
  /\ nth_error (ActionController.nodes ActionController.svgPage) 0
     = Some ActionController.svgLink
  /\ ActionController.raises ActionController.svgLink ActionController.MScrollIntoView
     = None
  /\ exists ways : list ActionController.Event,
      ActionController.log
        (snd (ActionController.executeAction ActionController.emptyController
                (ActionController.clickAction "html/body/svg/a")
                ActionController.svgPage))
      = ActionController.log ActionController.svgPage
        ++ ActionController.Call 0 ActionController.MScrollIntoView None true :: ways
      /\ ways = [ActionController.Call 0 ActionController.MClick None false;
                 ActionController.Call
                   0 (ActionController.MDispatchEvent "click") None true]
      /\ ActionController.r_success
           (fst (ActionController.executeAction ActionController.emptyController
                   (ActionController.clickAction "html/body/svg/a")
                   ActionController.svgPage)) = true.
Proof.
  split; [reflexivity|]. split; [reflexivity|]. split; [reflexivity|].
  split; [reflexivity|].
  destruct (@C7_click_tries_three_ways_in_order
              ActionController.emptyController ActionController.svgPage
              (ActionController.clickAction "html/body/svg/a")
              0 ActionController.svgLink
              eq_refl eq_refl eq_refl eq_refl) as (ways & Hlog & Hways).
  exists ways. split; [exact Hlog | exact Hways].
Defined.

Section WaitFacts.

Import ActionController.

(** The nested [Math.max] and [Math.min] of [wait] clamp. *)
Lemma max_min_is_clamp (x : Q) :
  (Qmax 100 (Qmin 30000 x) == clamp x 100 30000)%Q.
Proof.
  unfold clamp.
  destruct (Qle_bool 100 x) eqn:Hlo.
  - apply Qle_bool_iff in Hlo.
    destruct (Qle_bool x 30000) eqn:Hhi.
    + apply Qle_bool_iff in Hhi.
      rewrite (Q.min_r _ _ Hhi). apply Q.max_r. exact Hlo.
    + assert (Hlt : (30000 < x)%Q).
      { apply Qnot_le_lt. intros H. apply Qle_bool_iff in H. congruence. }
      rewrite (Q.min_l 30000 x) by (apply Qlt_le_weak; exact Hlt).
      apply Q.max_r. discriminate.
  - assert (Hlt : (x < 100)%Q).
    { apply Qnot_le_lt. intros H. apply Qle_bool_iff in H. congruence. }
    assert (Hmin : (Qmin 30000 x == x)%Q).
    { apply Q.min_r. apply Qlt_le_weak. eapply Qlt_trans; [exact Hlt | reflexivity]. }
    rewrite Hmin. apply Q.max_l. apply Qlt_le_weak. exact Hlt.
Qed.

Lemma max_min_bounds (x : Q) :
  (100 <= Qmax 100 (Qmin 30000 x))%Q /\ (Qmax 100 (Qmin 30000 x) <= 30000)%Q.
Proof.
  split.
  - apply Q.le_max_l.
  - apply Q.max_lub; [discriminate | apply Q.le_min_l].
Qed.

Lemma wait_run (c : Controller) (pg : Page) (s : option Q) :
  executeAction c (waitAction s) pg
  = (okResult [Lit "Waited for "; Num (secondsOrDefault s); Lit " seconds"],
     addClock pg (Qmax 100 (Qmin 30000 (secondsOrDefault s * 1000)))).
Proof. reflexivity. Qed.

End WaitFacts.

(** C6 fails on the code.  An input-text action whose locator resolves to a
    text field holding "abc" and which carries no text is answered with a
    failed result, but only after the field was given the focus and its
    value was cleared. *)
Theorem C6_input_without_text_clears_the_field_first :
  ActionController.text ActionController.inputWithoutText = None
  /\ ActionController.resolve ActionController.emptyController ActionController.formPage
       ActionController.inputWithoutText = Some 0
  /\ map ActionController.value (ActionController.nodes ActionController.formPage)
     = ["abc"%string]
  /\ ActionController.r_success
       (fst (ActionController.executeAction ActionController.emptyController
               ActionController.inputWithoutText ActionController.formPage)) = false
  /\ map ActionController.value
       (ActionController.nodes
          (snd (ActionController.executeAction ActionController.emptyController
                  ActionController.inputWithoutText ActionController.formPage)))
     = [""%string]
  /\ ActionController.focused
       (snd (ActionController.executeAction ActionController.emptyController
               ActionController.inputWithoutText ActionController.formPage))
     = Some 0
  /\ ActionController.log
       (snd (ActionController.executeAction ActionController.emptyController
               ActionController.inputWithoutText ActionController.formPage))
     = [ActionController.Call 0 ActionController.MFocus None true].
Proof. repeat split; vm_compute; reflexivity. Qed.

(** C9, as the code has it.  A wait action returns a success result after a
    pause of [s * 1000] milliseconds clamped to the range from 100 to 30000,
    where a duration [s] of zero, like an absent one, is replaced by the
    default of one second (a pause of 1000 milliseconds); in every case the
    pause is at least 100 and at most 30000 milliseconds. *)
Theorem C9_wait_pause_is_clamped_and_zero_means_one_second :
  forall (c : ActionController.Controller) (pg : ActionController.Page) (s : option Q),
    ActionController.r_success
      (fst (ActionController.executeAction c (ActionController.waitAction s) pg)) = true
    /\ (exists ms : Q,
          ActionController.clock
            (snd (ActionController.executeAction c (ActionController.waitAction s) pg))
          = (ActionController.clock pg + ms)%Q
          /\ (100 <= ms)%Q /\ (ms <= 30000)%Q
          /\ (ms == match s with
                    | Some q => if Qeq_bool q 0 then 1000
                                else ActionController.clampedPause q
                    | None => 1000
                    end)%Q).
Proof.
  intros c pg s. rewrite wait_run. simpl.
  split; [reflexivity|].
  exists (Qmax 100 (Qmin 30000 (ActionController.secondsOrDefault s * 1000))).
  split; [reflexivity|].
  destruct (max_min_bounds (ActionController.secondsOrDefault s * 1000)) as [Hlo Hhi].
  split; [exact Hlo|]. split; [exact Hhi|].
  unfold ActionController.secondsOrDefault.
  destruct s as [q|]; [destruct (Qeq_bool q 0)|].
  - vm_compute. reflexivity.
  - apply max_min_is_clamp.
  - vm_compute. reflexivity.
Qed.

(** C9 as stated fails: for a duration of 0 seconds the clamp of 0 * 1000 is
    100 milliseconds, but the executor pauses for 1000. *)
Lemma C9_wait_of_zero_seconds_pauses_one_second :
  (ActionController.clock ActionController.formPage == 0)%Q
  /\ (ActionController.clock
        (snd (ActionController.executeAction ActionController.emptyController
                (ActionController.waitAction (Some 0%Q)) ActionController.formPage))
      == 1000)%Q
  /\ (ActionController.clampedPause 0 == 100)%Q.
Proof. repeat split; vm_compute; reflexivity. Qed.

(** ** The in-page action queue *)
Section QueueFacts.

Import ContentScript.

Lemma running_sent (c : Collected) (older : list Entry) :
  running (sent c :: older) = running older.
Proof. destruct c; reflexivity. Qed.

Lemma orderly_sent (c : Collected) (older : list Entry) :
  orderly older -> orderly (sent c :: older).
Proof. intros H. destruct c; simpl; split; [exact H | exact I | exact H | exact I]. Qed.

Lemma collectAndSendDOM_inv (c : Collected) (st : State) :
  queueInv st -> queueInv (collectAndSendDOM c st).
Proof.
  intros Hinv. unfold collectAndSendDOM.
  destruct (isProcessing st) eqn:Hp; [exact Hinv|].
  destruct Hinv as (H1 & H2 & H3 & H4 & H5).
  unfold queueInv. cbn [inFlight timers isProcessing log]. rewrite rev_unit.
  rewrite running_sent.
  split; [assumption|]. split; [assumption|].
  split; [intros Hne; destruct (H3 Hne); congruence|].
  split; [intros Hne; destruct (H4 Hne) as (Hp' & _); congruence|].
  apply orderly_sent, H5.
Qed.

Lemma handleAction_direct_inv (a : ActionController.Action) (st : State) :
  queueInv st -> queueInv (handleAction a false st).
Proof.
  intros (H1 & H2 & H3 & H4 & H5). unfold handleAction.
  destruct (isProcessing st) eqn:Hp.
  - unfold queueInv. cbn [inFlight timers isProcessing log].
    exact (conj H1 (conj H2 (conj H3 (conj H4 H5)))).
  - assert (Hidle : inFlight st = []).
    { destruct (inFlight st) eqn:E; [reflexivity|].
      destruct H3 as [H3 _]; [discriminate | congruence]. }
    assert (Ht : timers st = 0).
    { destruct (timers st) eqn:E; [reflexivity|].
      destruct H4 as [H4 _]; [discriminate | congruence]. }
    unfold queueInv. cbn [inFlight timers isProcessing log].
    rewrite rev_unit, Hidle in *. simpl in *.
    split; [lia|]. split; [lia|].
    split; [intros _; split; [reflexivity | assumption]|].
    split; [intros Hne; contradiction|].
    split; [assumption|]. split; [assumption | intros Hq; discriminate].
Qed.

Lemma afterAwait_inv (o : Outcome) (st : State) :
  queueInv st -> queueInv (afterAwait o st).
Proof.
  intros Hinv. unfold afterAwait.
  destruct (inFlight st) as [|a others] eqn:Hfl; [exact Hinv|].
  destruct Hinv as (H1 & H2 & H3 & H4 & H5).
  rewrite Hfl in *. simpl in H1.
  assert (others = []) by (destruct others; [reflexivity | simpl in H1; lia]).
  subst others.
  destruct H3 as [Hp Ht]; [discriminate|].
  assert (Hlog : forall success,
             rev (log st ++ [Settled a; SentActionResult success])
             = SentActionResult success :: Settled a :: rev (log st)).
  { intros success.
    replace (log st ++ [Settled a; SentActionResult success])
      with ((log st ++ [Settled a]) ++ [SentActionResult success])
      by (rewrite <- app_assoc; reflexivity).
    rewrite !rev_unit. reflexivity. }
  destruct o as [r|c].
  - unfold queueInv. cbn [inFlight timers isProcessing log]. rewrite Ht, Hlog.
    simpl. rewrite H2. simpl.
    split; [lia|]. split; [reflexivity|].
    split; [intros Hne; contradiction|].
    split; [intros _; split; [exact Hp|]; split; [reflexivity|];
            eexists _, _, _; reflexivity|].
    repeat split; assumption.
  - apply collectAndSendDOM_inv.
    unfold queueInv. cbn [inFlight timers isProcessing log]. rewrite Ht, Hlog.
    simpl. rewrite H2. simpl.
    split; [lia|]. split; [reflexivity|].
    split; [intros Hne; contradiction|].
    split; [intros Hne; contradiction|].
    repeat split; assumption.
Qed.

Lemma settleCallback_inv (c : Collected) (st : State) :
  queueInv st -> queueInv (settleCallback c st).
Proof.
  intros Hinv. unfold settleCallback.
  destruct (timers st) as [|n] eqn:Ht; [exact Hinv|].
  destruct Hinv as (H1 & H2 & H3 & H4 & H5).
  destruct H4 as (Hp & Hone & success & before & older & Hlog);
    [rewrite Ht; discriminate|].
  assert (n = 0) by lia. subst n.
  assert (Hidle : inFlight st = []).
  { destruct (inFlight st) eqn:E; [reflexivity|].
    destruct H3 as [_ H3]; [discriminate | congruence]. }
  unfold collectAndSendDOM.
  cbn [isProcessing pendingActionQueue inFlight timers log settings].
  destruct (pendingActionQueue st) as [|nextAction rest].
  - unfold queueInv. cbn [inFlight timers isProcessing log].
    rewrite rev_unit, running_sent, Hidle in *.
    split; [simpl; lia|]. split; [assumption|].
    split; [intros Hne; contradiction|].
    split; [intros Hne; contradiction|].
    apply orderly_sent, H5.
  - unfold handleAction.
    cbn [isProcessing pendingActionQueue inFlight timers log settings].
    unfold queueInv. cbn [inFlight timers isProcessing log].
    rewrite !rev_unit, Hidle in *.
    change (running (Started nextAction true :: sent c :: rev (log st)))
      with (S (running (sent c :: rev (log st)))).
    change (orderly (Started nextAction true :: sent c :: rev (log st)))
      with (orderly (sent c :: rev (log st))
            /\ running (sent c :: rev (log st)) = 0
            /\ (true = true ->
                exists c' success' before' older',
                  sent c :: rev (log st)
                  = sent c' :: SentActionResult success' :: Settled before'
                    :: older')).
    rewrite running_sent. simpl in H2. rewrite H2.
    split; [simpl; lia|]. split; [reflexivity|].
    split; [intros _; split; reflexivity|].
    split; [intros Hne; contradiction|].
    split; [apply orderly_sent, H5|].
    split; [reflexivity|]. intros _.
    exists c, success, before, older. rewrite Hlog. reflexivity.
Qed.

Lemma updateConfig_inv (newConfig : Parsing.Value) (c : Collected) (st : State) :
  queueInv st -> queueInv (updateConfig newConfig c st).
Proof.
  intros Hinv. unfold updateConfig.
  destruct (negb (Parsing.truthyValue newConfig)); [exact Hinv|].
  cbn [isProcessing].
  destruct (negb (isProcessing st)); [apply collectAndSendDOM_inv|]; exact Hinv.
Qed.

Lemma step_inv (st : State) (ev : Event) : queueInv st -> queueInv (step st ev).
Proof.
  intros H. destruct ev as [a | c | newConfig c | o | c]; simpl.
  - apply handleAction_direct_inv, H.
  - apply collectAndSendDOM_inv, H.
  - apply updateConfig_inv, H.
  - apply afterAwait_inv, H.
  - apply settleCallback_inv, H.
Qed.

Lemma run_inv_queue (evs : list Event) : queueInv (run evs).
Proof.
  unfold run.
  assert (H0 : queueInv initial).
  { unfold queueInv, initial. simpl.
    split; [lia|]. split; [reflexivity|].
    split; [intros H; contradiction|].
    split; [intros H; contradiction | exact I]. }
  revert H0. generalize initial.
  induction evs as [|ev evs IH]; intros st H; simpl; [exact H|].
  apply IH, step_inv, H.
Qed.

(** An action message that arrives while the flag is set goes to the end of
    the queue and starts nothing. *)
Lemma handleAction_while_processing (a : ActionController.Action) (st : State) :
  isProcessing st = true ->
  pendingActionQueue (handleAction a false st) = pendingActionQueue st ++ [a]
  /\ inFlight (handleAction a false st) = inFlight st
  /\ log (handleAction a false st) = log st.
Proof. intros H. unfold handleAction. rewrite H. repeat split. Qed.

End QueueFacts.

(** C8, as the code has it.  Whatever the script receives -- action
    messages, calls for the document, configuration updates, settlings of
    [executeAction] (with a result, failed or not, or by raising) and
    firings of the 300 ms callback:
    - at most one call of [executeAction] is unsettled;
    - an action message that arrives while the flag is clear is started at
      once; one that arrives while a call is unsettled or its callback is
      pending finds the flag set, is appended to the queue and starts
      nothing;
    - when the running call settles with a result and its callback fires,
      the action at the head of the queue is taken off and started, after
      the result was sent and [collectAndSendDOM] has sent a snapshot -- or,
      when building the snapshot raised, an error message in its place;
    - the log is orderly: every call started while none was running, and
      every call taken from the queue started right after the call before it
      had settled, its result had been sent, and a snapshot or an error
      message had been sent. *)
Theorem C8_one_action_in_flight_and_queue_waits_for_snapshot_or_error :
  forall (evs : list ContentScript.Event) (a : ActionController.Action),
    List.length (ContentScript.inFlight (ContentScript.run evs)) <= 1
    /\ ContentScript.running (rev (ContentScript.log (ContentScript.run evs)))
       = List.length (ContentScript.inFlight (ContentScript.run evs))
    /\ (ContentScript.isProcessing (ContentScript.run evs) = false ->
        ContentScript.inFlight
          (ContentScript.step (ContentScript.run evs) (ContentScript.ActionMessage a))
        = [a]
        /\ ContentScript.log
             (ContentScript.step (ContentScript.run evs) (ContentScript.ActionMessage a))
           = ContentScript.log (ContentScript.run evs)
             ++ [ContentScript.Started a false])
    /\ ((ContentScript.inFlight (ContentScript.run evs) <> []
         \/ ContentScript.timers (ContentScript.run evs) <> 0) ->
        ContentScript.isProcessing (ContentScript.run evs) = true
        /\ ContentScript.pendingActionQueue
             (ContentScript.step (ContentScript.run evs) (ContentScript.ActionMessage a))
           = ContentScript.pendingActionQueue (ContentScript.run evs) ++ [a]
        /\ ContentScript.inFlight
             (ContentScript.step (ContentScript.run evs) (ContentScript.ActionMessage a))
           = ContentScript.inFlight (ContentScript.run evs)
        /\ ContentScript.log
             (ContentScript.step (ContentScript.run evs) (ContentScript.ActionMessage a))
           = ContentScript.log (ContentScript.run evs))
    /\ (forall (current next : ActionController.Action)
               (others rest : list ActionController.Action)
               (r : ActionController.ActionResult) (c : ContentScript.Collected),
          ContentScript.inFlight (ContentScript.run evs) = current :: others ->
          ContentScript.pendingActionQueue (ContentScript.run evs) = next :: rest ->
          ContentScript.inFlight
            (ContentScript.step
               (ContentScript.step (ContentScript.run evs)
                  (ContentScript.ExecuteSettles (ContentScript.Returned r)))
               (ContentScript.TimerFires c))
          = [next]
          /\ ContentScript.pendingActionQueue
               (ContentScript.step
                  (ContentScript.step (ContentScript.run evs)
                     (ContentScript.ExecuteSettles (ContentScript.Returned r)))
                  (ContentScript.TimerFires c))
             = rest
          /\ ContentScript.log
               (ContentScript.step
                  (ContentScript.step (ContentScript.run evs)
                     (ContentScript.ExecuteSettles (ContentScript.Returned r)))
                  (ContentScript.TimerFires c))
             = ContentScript.log (ContentScript.run evs)
               ++ [ContentScript.Settled current;
                   ContentScript.SentActionResult (ActionController.r_success r);
                   ContentScript.sent c;
                   ContentScript.Started next true])
    /\ ContentScript.orderly (rev (ContentScript.log (ContentScript.run evs))).
Proof.
  intros evs a.
  destruct (run_inv_queue evs) as (H1 & H2 & H3 & H4 & H5).
  split; [exact H1|]. split; [exact H2|].
  split; [|split; [|split; [|exact H5]]].
  - intros Hidle.
    assert (Hnone : ContentScript.inFlight (ContentScript.run evs) = []).
    { destruct (ContentScript.inFlight (ContentScript.run evs)) eqn:E; [reflexivity|].
      destruct H3 as [Hp _]; [discriminate | congruence]. }
    simpl. unfold ContentScript.handleAction. rewrite Hidle.
    cbn [ContentScript.inFlight ContentScript.log]. rewrite Hnone.
    split; reflexivity.
  - intros Hbusy.
    assert (Hp : ContentScript.isProcessing (ContentScript.run evs) = true).
    { destruct Hbusy as [Hf | Ht]; [apply H3, Hf | apply H4, Ht]. }
    split; [exact Hp|].
    apply (@handleAction_while_processing a (ContentScript.run evs) Hp).
  - intros current next others rest r c Hfl Hq.
    assert (others = []).
    { rewrite Hfl in H1. destruct others; [reflexivity | simpl in H1; lia]. }
    subst others.
    destruct H3 as [Hp Ht]; [rewrite Hfl; discriminate|].
    simpl. unfold ContentScript.afterAwait. rewrite Hfl.
    unfold ContentScript.settleCallback.
    cbn [ContentScript.timers ContentScript.isProcessing
           ContentScript.pendingActionQueue ContentScript.inFlight
           ContentScript.log ContentScript.settings].
    unfold ContentScript.collectAndSendDOM.
    cbn [ContentScript.timers ContentScript.isProcessing
           ContentScript.pendingActionQueue ContentScript.inFlight
           ContentScript.log ContentScript.settings].
    rewrite Hq. unfold ContentScript.handleAction.
    cbn [ContentScript.timers ContentScript.isProcessing
           ContentScript.pendingActionQueue ContentScript.inFlight
           ContentScript.log ContentScript.settings].
    split; [reflexivity|]. split; [reflexivity|].
    rewrite <- !app_assoc. reflexivity.
Qed.

(** C8 as stated fails: two action messages arrive, the second while the
    first is executed; the first settles, and when its callback fires,
    building the snapshot raises.  The second action is taken from the
    queue and started although no snapshot was sent -- an error message was
    sent in its place. *)
Lemma C8_queued_action_starts_without_snapshot :
  ContentScript.log
    (ContentScript.run
       (ContentScript.snapshotFails (ActionController.waitAction None)
                                    (ActionController.doneAction None None)))
  = [ContentScript.Started (ActionController.waitAction None) false;
     ContentScript.Settled (ActionController.waitAction None);
     ContentScript.SentActionResult true;
     ContentScript.SentError;
     ContentScript.Started (ActionController.doneAction None None) true]
  /\ ContentScript.inFlight
       (ContentScript.run
          (ContentScript.snapshotFails (ActionController.waitAction None)
                                       (ActionController.doneAction None None)))
     = [ActionController.doneAction None None]
  /\ ~ In ContentScript.SentDomState
          (ContentScript.log
             (ContentScript.run
                (ContentScript.snapshotFails (ActionController.waitAction None)
                                             (ActionController.doneAction None None)))).
Proof.
  split; [reflexivity|]. split; [reflexivity|].
  intros H. simpl in H.
  repeat (destruct H as [H | H]; [discriminate H|]). exact H.
Qed.

(** C8 on two action messages, the second of which arrives while the first
    is executed: the second waits in the queue, and it is started when the
    first has settled and its callback has fired, after the result and a
    snapshot were sent. *)
Lemma C8_second_action_waits_for_the_first :
  ContentScript.inFlight
    (ContentScript.run
       [ContentScript.ActionMessage (ActionController.waitAction None);
        ContentScript.ActionMessage (ActionController.doneAction None None)])
  = [ActionController.waitAction None]
  /\ ContentScript.pendingActionQueue
       (ContentScript.run
          [ContentScript.ActionMessage (ActionController.waitAction None);
           ContentScript.ActionMessage (ActionController.doneAction None None)])
     = [ActionController.doneAction None None]
  /\ ContentScript.inFlight
       (ContentScript.step
          (ContentScript.step
             (ContentScript.run
                [ContentScript.ActionMessage (ActionController.waitAction None);
                 ContentScript.ActionMessage (ActionController.doneAction None None)])
             (ContentScript.ExecuteSettles
                (ContentScript.Returned (ActionController.done None None))))
          (ContentScript.TimerFires ContentScript.Snapshot))
     = [ActionController.doneAction None None]
  /\ ContentScript.log
       (ContentScript.step
          (ContentScript.step
             (ContentScript.run
                [ContentScript.ActionMessage (ActionController.waitAction None);
                 ContentScript.ActionMessage (ActionController.doneAction None None)])
             (ContentScript.ExecuteSettles
                (ContentScript.Returned (ActionController.done None None))))
          (ContentScript.TimerFires ContentScript.Snapshot))
     = [ContentScript.Started (ActionController.waitAction None) false;
        ContentScript.Settled (ActionController.waitAction None);
        ContentScript.SentActionResult true;
        ContentScript.SentDomState;
        ContentScript.Started (ActionController.doneAction None None) true].
Proof.
  split; [reflexivity|]. split; [reflexivity|].
  destruct (@C8_one_action_in_flight_and_queue_waits_for_snapshot_or_error
              [ContentScript.ActionMessage (ActionController.waitAction None);
               ContentScript.ActionMessage (ActionController.doneAction None None)]
              (ActionController.waitAction None))
    as (_ & _ & _ & _ & Hnext & _).
  destruct (Hnext (ActionController.waitAction None)
                  (ActionController.doneAction None None) [] []
                  (ActionController.done None None) ContentScript.Snapshot
                  eq_refl eq_refl) as (H1 & _ & H3).
  split; [exact H1 | exact H3].
Defined.

(** ** Decision parsing *)
Section ParserFacts.

Import Parsing.

Variable h : Host.

(** Only an object has a [type] that counts as true. *)
Lemma truthy_type_is_object (v : Value) (t : Value) :
  getProp h v "type" = inl t -> truthyValue t = true ->
  isObject v = true /\ typeOf v = t.
Proof.
  destruct v; simpl; intros H Ht; try discriminate;
    injection H as <-; try discriminate Ht.
  split; reflexivity.
Qed.

Lemma inferAction_typed (s : string) (a : Value) :
  inferAction s = inl a -> isObject a = true /\ truthyValue (typeOf a) = true.
Proof.
  unfold inferAction. intros H.
  destruct (JS.includes "click" s || JS.includes "select" s);
    [injection H as <-; split; reflexivity|].
  destruct (JS.includes "type" s || JS.includes "input" s);
    [injection H as <-; split; reflexivity|].
  destruct (JS.includes "scroll" s);
    [injection H as <-; split; reflexivity|].
  destruct (JS.includes "done" s || JS.includes "complete" s);
    [injection H as <-; split; reflexivity | discriminate].
Qed.

(** What [parseAction] returns from its [try] block is an object with a
    [type] that counts as true. *)
Lemma parseActionBody_typed (s : string) (a : Value) :
  parseActionBody h s = inl a -> isObject a = true /\ truthyValue (typeOf a) = true.
Proof.
  unfold parseActionBody.
  destruct (orElse (exec reJsonFence s) (orElse (exec reFence s) (exec reBraces s)))
    as [m|].
  - destruct (JSON_parse h _) as [actionJson|e]; [|discriminate].
    destruct (getProp h actionJson "type") as [t|e] eqn:Hget; [|discriminate].
    destruct (truthyValue t) eqn:Ht; [|discriminate].
    intros H. injection H as <-.
    destruct (truthy_type_is_object actionJson Hget Ht) as [Hobj Htype].
    split; [exact Hobj | rewrite Htype; exact Ht].
  - destruct (JSON_parse h s) as [action|e].
    + destruct (getProp h action "type") as [t|e] eqn:Hget.
      * destruct (truthyValue t) eqn:Ht.
        -- intros H. injection H as <-.
           destruct (truthy_type_is_object action Hget Ht) as [Hobj Htype].
           split; [exact Hobj | rewrite Htype; exact Ht].
        -- apply inferAction_typed.
      * apply inferAction_typed.
    + apply inferAction_typed.
Qed.

Lemma parseActionFromLLMBody_object (s : string) (a : Value) :
  parseActionFromLLMBody h s = inl a -> isObject a = true.
Proof.
  unfold parseActionFromLLMBody.
  destruct (JSON_parse h _) as [parsed|e]; [|discriminate].
  destruct (getProp h parsed "action") as [action|e]; [|discriminate].
  destruct (negb _); [discriminate|].
  destruct (getProp h action "type") as [t|e]; [|discriminate].
  destruct (_ && _); [discriminate|].
  intros H. injection H as <-. reflexivity.
Qed.

End ParserFacts.

(** C3, as the code has it.  Both parsers answer every text with an action
    object and let no error out, whatever [JSON.parse] does.
    [AgentGraph.parseAction] returns either an object whose [type] counts as
    true or, when its [try] block raises, the synthetic failed [done] action.
    [AgentService.parseActionFromLLM] returns either the action object it
    built or, when its [try] block raises, a synthetic action of type 'error'
    that carries the message -- not a [done] action. *)
Theorem C3_parsers_total_with_done_or_error_fallback :
  forall (h : Parsing.Host) (text : string),
    match Parsing.parseActionBody h text with
    | inl action =>
        Parsing.parseAction h text = action
        /\ Parsing.isObject action = true
        /\ Parsing.truthyValue (Parsing.typeOf action) = true
    | inr error =>
        Parsing.parseAction h text
        = Parsing.VObject
            [("type"%string, Parsing.VString "done");
             ("success"%string, Parsing.VBool false);
             ("error"%string,
              Parsing.VString ("Failed to determine next action: "
                               ++ Parsing.message error))]
    end
    /\ match Parsing.parseActionFromLLMBody h text with
       | inl actionModel =>
           Parsing.parseActionFromLLM h text = actionModel
           /\ Parsing.isObject actionModel = true
       | inr error =>
           Parsing.parseActionFromLLM h text
           = Parsing.VObject
               [("type"%string, Parsing.VString "error");
                ("message"%string,
                 Parsing.VString ("Failed to parse response: "
                                  ++ Parsing.message error))]
       end.
Proof.
  intros h text. split.
  - unfold Parsing.parseAction.
    destruct (Parsing.parseActionBody h text) as [action|error] eqn:Hbody.
    + destruct (@parseActionBody_typed h text action Hbody) as [Hobj Htype].
      split; [reflexivity|]. split; [exact Hobj | exact Htype].
    + reflexivity.
  - unfold Parsing.parseActionFromLLM.
    destruct (Parsing.parseActionFromLLMBody h text) as [actionModel|error] eqn:Hbody.
    + split; [reflexivity|]. eapply parseActionFromLLMBody_object; exact Hbody.
    + reflexivity.
Qed.

(** C3 as stated fails for [parseActionFromLLM]: the empty text is answered
    with an action of type 'error' that has no [success] field, not with a
    failed [done] action. *)
Lemma C3_service_parser_answers_error_action :
  Parsing.parseActionFromLLM Parsing.referenceHost ""
  = Parsing.VObject
      [("type"%string, Parsing.VString "error");
       ("message"%string,
        Parsing.VString "Failed to parse response: Unexpected end of JSON input")]
  /\ Parsing.typeOf (Parsing.parseActionFromLLM Parsing.referenceHost "")
     <> Parsing.VString "done"
  /\ Parsing.parseActionFromLLM Parsing.referenceHost Parsing.proseText
     = Parsing.VObject
         [("type"%string, Parsing.VString "error");
          ("message"%string,
           Parsing.VString "Failed to parse response: Unexpected token in JSON")].
Proof.
  split; [vm_compute; reflexivity|]. split; [|vm_compute; reflexivity].
  vm_compute. intros H. discriminate H.
Qed.

(** [parseAction] on the five kinds of text: empty, prose, JSON, JSON in a
    fenced block, and broken JSON. *)
Example parseAction_on_empty_text :
  Parsing.parseAction Parsing.referenceHost ""
  = Parsing.failedDone (Parsing.Thrown "Could not parse action from LLM response").
Proof. vm_compute. reflexivity. Qed.

Example parseAction_on_prose :
  Parsing.parseAction Parsing.referenceHost Parsing.proseText
  = Parsing.failedDone (Parsing.Thrown "Could not parse action from LLM response").
Proof. vm_compute. reflexivity. Qed.

Example parseAction_on_json :
  Parsing.parseAction Parsing.referenceHost Parsing.clickJson
  = Parsing.VObject [("type"%string, Parsing.VString "click");
                     ("index"%string, Parsing.VNumber 2)].
Proof. vm_compute. reflexivity. Qed.

Example parseAction_on_fenced_json :
  Parsing.parseAction Parsing.referenceHost Parsing.fencedClick
  = Parsing.VObject [("type"%string, Parsing.VString "click");
                     ("index"%string, Parsing.VNumber 2)].
Proof. vm_compute. reflexivity. Qed.

Example parseAction_on_broken_json :
  Parsing.parseAction Parsing.referenceHost Parsing.brokenJson
  = Parsing.failedDone (Parsing.Thrown "Unexpected token in JSON").
Proof. vm_compute. reflexivity. Qed.

(** ** Further properties of the executor, the builder and the history *)

(** A done action always reports executor-level success: the result has the
    completion flag set, carries the final message and the task's success
    flag (true when the action has none), and the page is left as it was. *)
Theorem done_reports_success_and_completion :
  forall (c : ActionController.Controller) (pg : ActionController.Page)
         (text : option string) (success : option bool),
    ActionController.executeAction c (ActionController.doneAction text success) pg
    = (ActionController.mkResult true None None None true text
         (Some (match success with Some b => b | None => true end)),
       pg).
Proof. intros c pg text success. reflexivity. Qed.

(** A click or an input-text action that has neither a locator nor an index
    is rejected before any interaction: the result is a failure and the page
    is left as it was. *)
Theorem action_without_locator_is_rejected_unchanged :
  forall (c : ActionController.Controller) (pg : ActionController.Page)
         (text : option string) (goal direction : Parsing.Value)
         (amount seconds : option Q)
         (success : option bool),
    ActionController.executeAction c
      (ActionController.mkAction "click_element" None None text goal direction
                                 amount seconds success) pg
    = (ActionController.mkResult false None
         (Some (ActionController.Error
                  [ActionController.Lit
                     "click_element requires either xpath or index parameter"]))
         None false None None,
       pg)
    /\ ActionController.executeAction c
         (ActionController.mkAction "input_text" None None text goal direction
                                    amount seconds success) pg
       = (ActionController.mkResult false None
            (Some (ActionController.Error
                     [ActionController.Lit
                        "input_text requires either xpath or index parameter"]))
            None false None None,
          pg).
Proof. intros. split; reflexivity. Qed.

(** A click whose locator resolves to no node (or whose evaluation raises)
    is reported as a failed result, with no retry and no change to the page. *)
Theorem click_on_missing_element_fails_unchanged :
  forall (c : ActionController.Controller) (pg : ActionController.Page) (xpath : string),
    JS.truthy xpath = true ->
    ActionController.document_evaluate pg xpath = Some None
    \/ ActionController.document_evaluate pg xpath = None ->
    ActionController.r_success
      (fst (ActionController.executeAction c (ActionController.clickAction xpath) pg))
    = false
    /\ snd (ActionController.executeAction c (ActionController.clickAction xpath) pg)
       = pg.
Proof.
  intros c pg xpath Hx Hnone.
  unfold ActionController.executeAction, ActionController.clickAction. simpl.
  rewrite Hx.
  unfold ActionController.clickElementByXPath, ActionController.bind,
    ActionController._findElementByXPath. simpl.
  destruct Hnone as [-> | ->]; split; reflexivity.
Qed.

Lemma click_on_missing_element_example :
  JS.truthy "html/body/missing" = true
  /\ (ActionController.document_evaluate ActionController.formPage "html/body/missing"
      = Some None
      \/ ActionController.document_evaluate ActionController.formPage "html/body/missing"
         = None)
  /\ ActionController.r_success
       (fst (ActionController.executeAction ActionController.emptyController
               (ActionController.clickAction "html/body/missing")
               ActionController.formPage))
     = false
  /\ snd (ActionController.executeAction ActionController.emptyController
            (ActionController.clickAction "html/body/missing")
            ActionController.formPage)
     = ActionController.formPage.
Proof.
  split; [reflexivity|]. split; [left; reflexivity|].
  apply (@click_on_missing_element_fails_unchanged
           ActionController.emptyController ActionController.formPage
           "html/body/missing" eq_refl (or_introl eq_refl)).
Defined.

(** With [viewportExpansion] at -1 the viewport check passes for every box,
    whatever the window. *)
Theorem viewport_check_disabled_by_minus_one :
  forall (w : DomBuilder.Window) (r : DomBuilder.Rect),
    DomBuilder._isInExpandedViewport w r (-1) = true.
Proof. intros w r. reflexivity. Qed.

(** [trimIfNeeded] never removes a message whose role is 'system', and
    removes at most one message. *)
Theorem trimIfNeeded_keeps_system_messages :
  forall (h : Views.MessageHistory) (maxTokens : Z),
    filter Views.isSystem (Views.messages (snd (Views.trimIfNeeded h maxTokens)))
    = filter Views.isSystem (Views.messages h)
    /\ (Views.messages (snd (Views.trimIfNeeded h maxTokens)) = Views.messages h
        \/ Views.messages (snd (Views.trimIfNeeded h maxTokens))
           = Views.evictOldest (Views.messages h)).
Proof.
  intros h maxTokens.
  destruct (trimIfNeeded_cases h maxTokens)
    as [(_ & ->) | [(_ & _ & ->) | (_ & _ & e & _ & _ & _ & ->)]]; simpl.
  - split; [reflexivity | left; reflexivity].
  - split; [reflexivity | left; reflexivity].
  - split; [apply evictOldest_keeps_system | right; reflexivity].
Qed.

(** While the flag is set -- a call of [executeAction] is unsettled or its
    300 ms callback is pending -- a call of [collectAndSendDOM] is ignored:
    nothing is built or sent and the script's state is unchanged.  A
    configuration update in that time sends nothing either and leaves the
    flag, the queue, the call and the callback as they are, but it does
    write the configuration: when the new configuration counts as true, its
    properties are assigned to [config], and the options of the builder
    and the debug flag of the controller are set from [config]. *)
Theorem observation_suppressed_while_action_in_flight :
  forall (evs : list ContentScript.Event) (c : ContentScript.Collected)
         (newConfig : Parsing.Value),
    ContentScript.inFlight (ContentScript.run evs) <> []
    \/ ContentScript.timers (ContentScript.run evs) <> 0 ->
    ContentScript.step (ContentScript.run evs) (ContentScript.DomRequest c)
    = ContentScript.run evs
    /\ ContentScript.log
         (ContentScript.step (ContentScript.run evs)
                             (ContentScript.UpdateConfig newConfig c))
       = ContentScript.log (ContentScript.run evs)
    /\ ContentScript.isProcessing
         (ContentScript.step (ContentScript.run evs)
                             (ContentScript.UpdateConfig newConfig c))
       = true
    /\ ContentScript.pendingActionQueue
         (ContentScript.step (ContentScript.run evs)
                             (ContentScript.UpdateConfig newConfig c))
       = ContentScript.pendingActionQueue (ContentScript.run evs)
    /\ ContentScript.inFlight
         (ContentScript.step (ContentScript.run evs)
                             (ContentScript.UpdateConfig newConfig c))
       = ContentScript.inFlight (ContentScript.run evs)
    /\ ContentScript.timers
         (ContentScript.step (ContentScript.run evs)
                             (ContentScript.UpdateConfig newConfig c))
       = ContentScript.timers (ContentScript.run evs)
    /\ ContentScript.settings
         (ContentScript.step (ContentScript.run evs)
                             (ContentScript.UpdateConfig newConfig c))
       = if Parsing.truthyValue newConfig
         then
           let config :=
             ContentScript.objectAssign
               (ContentScript.config (ContentScript.settings (ContentScript.run evs)))
               newConfig in
           ContentScript.mkSettings
             config
             (Parsing.lookupField config "highlightElements")
             (Parsing.lookupField config "viewportExpansion")
             (Parsing.lookupField config "debug")
             (Parsing.lookupField config "debug")
         else ContentScript.settings (ContentScript.run evs).
Proof.
  intros evs c newConfig Hbusy.
  destruct (run_inv_queue evs) as (_ & _ & H3 & H4 & _).
  assert (Hp : ContentScript.isProcessing (ContentScript.run evs) = true).
  { destruct Hbusy as [Hf | Ht]; [apply H3, Hf | apply H4, Ht]. }
  split.
  - simpl. unfold ContentScript.collectAndSendDOM. rewrite Hp. reflexivity.
  - simpl. unfold ContentScript.updateConfig.
    destruct (Parsing.truthyValue newConfig); cbn [negb].
    + cbn [ContentScript.isProcessing]. rewrite Hp. cbn [negb].
      repeat split; reflexivity.
    + rewrite Hp. repeat split; reflexivity.
Qed.

Lemma observation_suppressed_example :
  (ContentScript.inFlight
     (ContentScript.run [ContentScript.ActionMessage (ActionController.waitAction None)])
   <> []
   \/ ContentScript.timers
        (ContentScript.run [ContentScript.ActionMessage (ActionController.waitAction None)])
      <> 0)
  /\ ContentScript.step
       (ContentScript.run [ContentScript.ActionMessage (ActionController.waitAction None)])
       (ContentScript.DomRequest ContentScript.Snapshot)
     = ContentScript.run [ContentScript.ActionMessage (ActionController.waitAction None)]
  /\ ContentScript.log
       (ContentScript.step
          (ContentScript.run
             [ContentScript.ActionMessage (ActionController.waitAction None)])
          (ContentScript.UpdateConfig
             (Parsing.VObject [("viewportExpansion"%string, Parsing.VNumber 0)])
             ContentScript.Snapshot))
     = [ContentScript.Started (ActionController.waitAction None) false]
  /\ ContentScript.options_viewportExpansion
       (ContentScript.settings
          (ContentScript.step
             (ContentScript.run
                [ContentScript.ActionMessage (ActionController.waitAction None)])
             (ContentScript.UpdateConfig
                (Parsing.VObject [("viewportExpansion"%string, Parsing.VNumber 0)])
                ContentScript.Snapshot)))
     = Parsing.VNumber 0.
Proof.
  assert (Hbusy :
            ContentScript.inFlight
              (ContentScript.run
                 [ContentScript.ActionMessage (ActionController.waitAction None)])
            <> []
            \/ ContentScript.timers
                 (ContentScript.run
                    [ContentScript.ActionMessage (ActionController.waitAction None)])
               <> 0)
    by (left; discriminate).
  split; [exact Hbusy|].
  destruct (@observation_suppressed_while_action_in_flight
              [ContentScript.ActionMessage (ActionController.waitAction None)]
              ContentScript.Snapshot
              (Parsing.VObject [("viewportExpansion"%string, Parsing.VNumber 0)])
              Hbusy) as (H1 & H2 & _ & _ & _ & _ & H7).
  split; [exact H1|]. split; [exact H2|].
  rewrite H7. reflexivity.
Defined.

(** When a text holds no fenced block and no braces, is not JSON with a
    type, and holds none of the keywords, [parseAction] answers with the
    failed [done] action that says so. *)
Theorem parseAction_complete_failure :
  forall (h : Parsing.Host) (text : string),
    Parsing.exec Parsing.reJsonFence text = None ->
    Parsing.exec Parsing.reFence text = None ->
    Parsing.exec Parsing.reBraces text = None ->
    (exists e, Parsing.JSON_parse h text = inr e) ->
    forallb (fun keyword => negb (JS.includes keyword text))
            ["click"; "select"; "type"; "input"; "scroll"; "done"; "complete"]%string
    = true ->
    Parsing.parseAction h text
    = Parsing.VObject
        [("type"%string, Parsing.VString "done");
         ("success"%string, Parsing.VBool false);
         ("error"%string,
          Parsing.VString
            "Failed to determine next action: Could not parse action from LLM response")].
Proof.
  intros h text H1 H2 H3 [e He] Hkw.
  unfold Parsing.parseAction, Parsing.parseActionBody.
  rewrite H1, H2, H3, He. simpl.
  unfold Parsing.inferAction. simpl in Hkw.
  repeat (apply andb_prop in Hkw; destruct Hkw as [?Hk Hkw]).
  repeat match goal with
         | H : negb ?b = true |- _ => apply negb_true_iff in H; rewrite H
         end.
  reflexivity.
Qed.

Lemma parseAction_complete_failure_on_prose :
  Parsing.exec Parsing.reJsonFence Parsing.proseText = None
  /\ Parsing.exec Parsing.reFence Parsing.proseText = None
  /\ Parsing.exec Parsing.reBraces Parsing.proseText = None
  /\ (exists e, Parsing.JSON_parse Parsing.referenceHost Parsing.proseText = inr e)
  /\ forallb (fun keyword => negb (JS.includes keyword Parsing.proseText))
             ["click"; "select"; "type"; "input"; "scroll"; "done"; "complete"]%string
     = true
  /\ Parsing.parseAction Parsing.referenceHost Parsing.proseText
     = Parsing.VObject
         [("type"%string, Parsing.VString "done");
          ("success"%string, Parsing.VBool false);
          ("error"%string,
           Parsing.VString
             "Failed to determine next action: Could not parse action from LLM response")].
Proof.
  assert (H1 : Parsing.exec Parsing.reJsonFence Parsing.proseText = None)
    by (vm_compute; reflexivity).
  assert (H2 : Parsing.exec Parsing.reFence Parsing.proseText = None)
    by (vm_compute; reflexivity).
  assert (H3 : Parsing.exec Parsing.reBraces Parsing.proseText = None)
    by (vm_compute; reflexivity).
  assert (H4 : exists e, Parsing.JSON_parse Parsing.referenceHost Parsing.proseText
                         = inr e)
    by (eexists; vm_compute; reflexivity).
  assert (H5 : forallb (fun keyword => negb (JS.includes keyword Parsing.proseText))
                 ["click"; "select"; "type"; "input"; "scroll"; "done"; "complete"]%string
               = true)
    by (vm_compute; reflexivity).
  split; [exact H1|]. split; [exact H2|]. split; [exact H3|].
  split; [exact H4|]. split; [exact H5|].
  exact (@parseAction_complete_failure Parsing.referenceHost Parsing.proseText
           H1 H2 H3 H4 H5).
Defined.

Section TypingFacts.

Import ActionController.


Lemma replaceNth_twice (l : list Element) :
  forall (n : nat) (a b : Element),
    replaceNth (replaceNth l n a) n b = replaceNth l n b.
Proof.
  induction l as [|x l IH]; intros [|n] a b; simpl; try reflexivity.
  rewrite IH. reflexivity.
Qed.






End TypingFacts.


(** ** More on the executor *)
Section DispatchFacts.

Import ActionController.

(** A type that is none of the cases of the [switch] falls to its default. *)
Lemma default_case (c : Controller) (a : Action) (pg : Page) :
  existsb (String.eqb (atype a)) actionTypes = false ->
  executeAction c a pg
  = (failed (Error [Lit ("Unknown action type: " ++ atype a)]), pg).
Proof.
  intros H. unfold actionTypes in H. simpl in H.
  repeat (apply orb_false_elim in H; destruct H as [?H H]).
  unfold executeAction. rewrite H0, H1, H2, H3, H4, H5. reflexivity.
Qed.


End DispatchFacts.

(** An action whose type is none of the six that [executeAction] knows is
    answered with a failed result that names the type, and the page is left
    as it was. *)
Theorem unknown_action_type_fails_unchanged :
  forall (c : ActionController.Controller) (a : ActionController.Action)
         (pg : ActionController.Page),
    existsb (String.eqb (ActionController.atype a)) ActionController.actionTypes
    = false ->
    ActionController.executeAction c a pg
    = (ActionController.mkResult false None
         (Some (ActionController.Error
                  [ActionController.Lit
                     ("Unknown action type: " ++ ActionController.atype a)]))
         None false None None,
       pg).
Proof. intros c a pg H. apply default_case, H. Qed.

Lemma unknown_action_type_example :
  existsb (String.eqb
             (ActionController.atype
                (ActionController.mkAction "click" None (Some 2%Z) None
                   Parsing.VUndefined Parsing.VUndefined None None None)))
          ActionController.actionTypes = false
  /\ ActionController.executeAction ActionController.emptyController
       (ActionController.mkAction "click" None (Some 2%Z) None
          Parsing.VUndefined Parsing.VUndefined None None None)
       ActionController.formPage
     = (ActionController.mkResult false None
          (Some (ActionController.Error
                   [ActionController.Lit "Unknown action type: click"]))
          None false None None,
        ActionController.formPage).
Proof.
  split; [reflexivity|].
  exact (@unknown_action_type_fails_unchanged ActionController.emptyController
           (ActionController.mkAction "click" None (Some 2%Z) None
              Parsing.VUndefined Parsing.VUndefined None None None)
           ActionController.formPage eq_refl).
Defined.

(** A locator that counts as true takes precedence: the index of the action
    and the controller's map of indices are not looked at.  An empty
    locator counts as absent. *)
Theorem locator_takes_precedence_over_index :
  forall (c c' : ActionController.Controller) (a : ActionController.Action)
         (i : option Z) (pg : ActionController.Page),
    (JS.truthyOpt (ActionController.xpath a) = true ->
     ActionController.executeAction c a pg
     = ActionController.executeAction c' (ActionController.withIndex a i) pg)
    /\ (ActionController.xpath a = Some ""%string ->
        ActionController.executeAction c a pg
        = ActionController.executeAction c
            (ActionController.mkAction
               (ActionController.atype a) None (ActionController.index a)
               (ActionController.text a) (ActionController.goal a)
               (ActionController.direction a) (ActionController.amount a)
               (ActionController.seconds a) (ActionController.success a)) pg).
Proof.
  intros c c' a i pg. split.
  - intros Hx. unfold ActionController.executeAction, ActionController.withIndex.
    cbn [ActionController.atype ActionController.xpath ActionController.index
           ActionController.text ActionController.goal ActionController.direction
           ActionController.amount ActionController.seconds ActionController.success].
    rewrite Hx. reflexivity.
  - intros Hx. unfold ActionController.executeAction.
    cbn [ActionController.atype ActionController.xpath ActionController.index
           ActionController.text ActionController.goal ActionController.direction
           ActionController.amount ActionController.seconds ActionController.success].
    rewrite Hx. reflexivity.
Qed.




(** A scroll action whose direction is absent or a string succeeds after a
    wait of 500 ms and changes no node.  It moves the window down by the
    requested distance when the direction, whatever its case, is down or
    absent, and up by that distance for every other string; a distance that
    is absent or zero is replaced by half the height of the viewport.  A
    scroll action whose direction is any other value -- null, a boolean, a
    number, an array or an object -- fails before anything is scrolled, and
    the page is left as it was. *)
Theorem scroll_goes_down_or_else_up :
  forall (c : ActionController.Controller) (pg : ActionController.Page)
         (direction : Parsing.Value) (amount : option Q),
    match direction with
    | Parsing.VUndefined | Parsing.VString _ =>
        ActionController.r_success
          (fst (ActionController.executeAction c
                  (ActionController.scrollAction direction amount) pg)) = true
        /\ ActionController.nodes
             (snd (ActionController.executeAction c
                     (ActionController.scrollAction direction amount) pg))
           = ActionController.nodes pg
        /\ ActionController.clock
             (snd (ActionController.executeAction c
                     (ActionController.scrollAction direction amount) pg))
           = (ActionController.clock pg + 500)%Q
        /\ ActionController.log
             (snd (ActionController.executeAction c
                     (ActionController.scrollAction direction amount) pg))
           = ActionController.log pg
             ++ [ActionController.ScrollBy
                   (match direction with
                    | Parsing.VString d =>
                        if String.eqb (JS.toLowerCase d) "down"
                        then ActionController.scrollAmount pg amount
                        else (- ActionController.scrollAmount pg amount)%Q
                    | _ => ActionController.scrollAmount pg amount
                    end)]
    | _ =>
        ActionController.r_success
          (fst (ActionController.executeAction c
                  (ActionController.scrollAction direction amount) pg)) = false
        /\ snd (ActionController.executeAction c
                  (ActionController.scrollAction direction amount) pg) = pg
    end.
Proof.
  intros c pg direction amount.
  unfold ActionController.executeAction, ActionController.scrollAction,
    ActionController.scroll, ActionController.scrollAmount,
    ActionController.bind, ActionController.sleep, ActionController.ret,
    ActionController.throw.
  cbn [ActionController.atype ActionController.direction ActionController.amount
         String.eqb Ascii.eqb Bool.eqb].
  destruct direction as [| |b|q|d|items|fields], amount as [a|]; cbn; repeat split.
Qed.
(** ** More on the decision parsers *)

(** Whatever [parseActionFromLLM] returns, if its type is click_element or
    input_text then it carries a locator that counts as true or an index:
    the check that [executeAction] makes of such an action ("requires either
    xpath or index parameter") has been made by the parser already. *)
Theorem parsed_element_action_has_locator :
  forall (h : Parsing.Host) (response : string) (fields : list (string * Parsing.Value)),
    Parsing.parseActionFromLLM h response = Parsing.VObject fields ->
    Parsing.isString (Parsing.lookupField fields "type") "click_element"
    || Parsing.isString (Parsing.lookupField fields "type") "input_text" = true ->
    Parsing.truthyValue (Parsing.lookupField fields "xpath") = true
    \/ Parsing.isUndefined (Parsing.lookupField fields "index") = false.
Proof.
  intros h response fields. unfold Parsing.parseActionFromLLM.
  destruct (Parsing.parseActionFromLLMBody h response) as [actionModel|e] eqn:Hbody.
  - intros -> Htype. revert Hbody. unfold Parsing.parseActionFromLLMBody.
    destruct (Parsing.JSON_parse h _) as [parsed|e]; [|discriminate].
    destruct (Parsing.getProp h parsed "action") as [action|e]; [|discriminate].
    destruct (negb _); [discriminate|].
    destruct (Parsing.getProp h action "type") as [t|e]; [|discriminate].
    match goal with
    | |- (if ?c then _ else _) = _ -> _ => destruct c eqn:Hcheck
    end; [discriminate|].
    intros Heq. injection Heq as <-.
    rewrite Htype in Hcheck. simpl in Hcheck.
    destruct (Parsing.truthyValue (Parsing.lookupField _ "xpath")); [left; reflexivity|].
    right. simpl in Hcheck. exact Hcheck.
  - intros Heq. unfold Parsing.errorAction in Heq. injection Heq as <-.
    simpl. discriminate.
Qed.

Lemma parsed_element_action_example :
  Parsing.parseActionFromLLM Parsing.referenceHost Parsing.structuredClick
  = Parsing.VObject [("type"%string, Parsing.VString "click_element");
                     ("xpath"%string, Parsing.VString "html/body/a")]
  /\ (Parsing.truthyValue
        (Parsing.lookupField [("type"%string, Parsing.VString "click_element");
                              ("xpath"%string, Parsing.VString "html/body/a")] "xpath")
      = true
      \/ Parsing.isUndefined
           (Parsing.lookupField [("type"%string, Parsing.VString "click_element");
                                 ("xpath"%string, Parsing.VString "html/body/a")] "index")
         = false).
Proof.
  assert (H : Parsing.parseActionFromLLM Parsing.referenceHost Parsing.structuredClick
              = Parsing.VObject [("type"%string, Parsing.VString "click_element");
                                 ("xpath"%string, Parsing.VString "html/body/a")])
    by (vm_compute; reflexivity).
  split; [exact H|].
  exact (@parsed_element_action_has_locator Parsing.referenceHost
           Parsing.structuredClick _ H eq_refl).
Defined.

(** When [parseAction] finds no JSON and falls back on the keywords click,
    select, type or input, the action it returns has the type click or
    input.  [executeAction] knows neither: it answers every action of that
    type with a failed result and leaves the page as it was. *)
Theorem keyword_fallback_types_unknown_to_executor :
  forall (h : Parsing.Host) (text : string),
    Parsing.exec Parsing.reJsonFence text = None ->
    Parsing.exec Parsing.reFence text = None ->
    Parsing.exec Parsing.reBraces text = None ->
    (exists e, Parsing.JSON_parse h text = inr e) ->
    existsb (fun keyword => JS.includes keyword text)
            ["click"; "select"; "type"; "input"]%string = true ->
    exists t : string,
      Parsing.typeOf (Parsing.parseAction h text) = Parsing.VString t
      /\ (t = "click"%string \/ t = "input"%string)
      /\ forall (c : ActionController.Controller) (a : ActionController.Action)
                (pg : ActionController.Page),
           ActionController.atype a = t ->
           ActionController.executeAction c a pg
           = (ActionController.mkResult false None
                (Some (ActionController.Error
                         [ActionController.Lit ("Unknown action type: " ++ t)]))
                None false None None,
              pg).
Proof.
  intros h text H1 H2 H3 [e He] Hkw.
  unfold Parsing.parseAction, Parsing.parseActionBody.
  rewrite H1, H2, H3, He. simpl. unfold Parsing.inferAction.
  simpl in Hkw. rewrite orb_false_r in Hkw.
  destruct (JS.includes "click" text || JS.includes "select" text) eqn:Hclick.
  - exists "click"%string. split; [reflexivity|]. split; [left; reflexivity|].
    intros c a pg Ha. rewrite <- Ha. apply default_case. rewrite Ha. reflexivity.
  - assert (Hinput : JS.includes "type" text || JS.includes "input" text = true).
    { rewrite orb_assoc, Hclick in Hkw. exact Hkw. }
    rewrite Hinput.
    exists "input"%string. split; [reflexivity|]. split; [right; reflexivity|].
    intros c a pg Ha. rewrite <- Ha. apply default_case. rewrite Ha. reflexivity.
Qed.

Lemma keyword_fallback_on_click_prose :
  Parsing.exec Parsing.reJsonFence Parsing.clickProse = None
  /\ Parsing.exec Parsing.reFence Parsing.clickProse = None
  /\ Parsing.exec Parsing.reBraces Parsing.clickProse = None
  /\ (exists e, Parsing.JSON_parse Parsing.referenceHost Parsing.clickProse = inr e)
  /\ existsb (fun keyword => JS.includes keyword Parsing.clickProse)
             ["click"; "select"; "type"; "input"]%string = true
  /\ exists t : string,
       Parsing.typeOf (Parsing.parseAction Parsing.referenceHost Parsing.clickProse)
       = Parsing.VString t
       /\ (t = "click"%string \/ t = "input"%string)
       /\ forall (c : ActionController.Controller) (a : ActionController.Action)
                 (pg : ActionController.Page),
            ActionController.atype a = t ->
            ActionController.executeAction c a pg
            = (ActionController.mkResult false None
                 (Some (ActionController.Error
                          [ActionController.Lit ("Unknown action type: " ++ t)]))
                 None false None None,
               pg).
Proof.
  assert (H1 : Parsing.exec Parsing.reJsonFence Parsing.clickProse = None)
    by (vm_compute; reflexivity).
  assert (H2 : Parsing.exec Parsing.reFence Parsing.clickProse = None)
    by (vm_compute; reflexivity).
  assert (H3 : Parsing.exec Parsing.reBraces Parsing.clickProse = None)
    by (vm_compute; reflexivity).
  assert (H4 : exists e, Parsing.JSON_parse Parsing.referenceHost Parsing.clickProse
                         = inr e)
    by (eexists; vm_compute; reflexivity).
  assert (H5 : existsb (fun keyword => JS.includes keyword Parsing.clickProse)
                       ["click"; "select"; "type"; "input"]%string = true)
    by (vm_compute; reflexivity).
  split; [exact H1|]. split; [exact H2|]. split; [exact H3|].
  split; [exact H4|]. split; [exact H5|].
  exact (@keyword_fallback_types_unknown_to_executor Parsing.referenceHost
           Parsing.clickProse H1 H2 H3 H4 H5).
Defined.
(** ** More on the in-page action queue *)
Section ArrivalOrder.

Import ContentScript.

Lemma started_app (l1 l2 : list Entry) : started (l1 ++ l2) = started l1 ++ started l2.
Proof.
  induction l1 as [|e l1 IH]; simpl; [reflexivity|].
  destruct e; simpl; rewrite IH; reflexivity.
Qed.

Lemma started_sent (c : Collected) : started [sent c] = [].
Proof. destruct c; reflexivity. Qed.

Lemma collect_arrival (c : Collected) (st : State)
      (arrived : list ActionController.Action) :
  arrivalInv st arrived -> arrivalInv (collectAndSendDOM c st) arrived.
Proof.
  intros [Hsum Hidle]. unfold arrivalInv, collectAndSendDOM.
  destruct (isProcessing st) eqn:Hp.
  - split; [exact Hsum | rewrite Hp; exact Hidle].
  - cbn [log pendingActionQueue isProcessing]. rewrite started_app, started_sent.
    rewrite app_nil_r. split; [exact Hsum | exact Hidle].
Qed.

Lemma step_arrival (st : State) (ev : Event) (arrived : list ActionController.Action) :
  noRaise ev = true ->
  arrivalInv st arrived ->
  arrivalInv (step st ev) (arrived ++ received [ev]).
Proof.
  intros Hev [Hsum Hidle]. unfold arrivalInv.
  destruct ev as [a | c | newConfig c | [r|c] | c]; simpl in *;
    try discriminate; rewrite ?app_nil_r.
  - unfold handleAction. destruct (isProcessing st) eqn:Hp.
    + split; [|cbn [isProcessing]; intros H; discriminate H].
      cbn [log pendingActionQueue]. rewrite app_assoc, Hsum. reflexivity.
    + split; [|cbn [isProcessing]; intros H; discriminate H].
      cbn [log pendingActionQueue]. rewrite started_app. simpl. rewrite <- Hsum, (Hidle eq_refl), !app_nil_r.
      reflexivity.
  - apply collect_arrival. split; assumption.
  - unfold updateConfig. destruct (negb (Parsing.truthyValue newConfig));
      [split; assumption|].
    cbn [isProcessing].
    destruct (negb (isProcessing st)); [apply collect_arrival|]; split; assumption.
  - unfold afterAwait. destruct (inFlight st) as [|a others]; [split; assumption|].
    cbn [log pendingActionQueue isProcessing]. rewrite started_app. simpl.
    rewrite app_nil_r. split; [exact Hsum | exact Hidle].
  - unfold settleCallback. destruct (timers st) as [|n]; [split; assumption|].
    unfold collectAndSendDOM.
    cbn [isProcessing pendingActionQueue inFlight timers log settings].
    destruct (pendingActionQueue st) as [|nextAction rest] eqn:Hq.
    + cbn [log pendingActionQueue isProcessing]. rewrite started_app, started_sent.
      rewrite !app_nil_r in *. split; [exact Hsum | reflexivity].
    + unfold handleAction.
      cbn [isProcessing pendingActionQueue inFlight timers log settings].
      split; [|cbn [isProcessing]; intros H; discriminate H].
      cbn [log pendingActionQueue]. rewrite !started_app, started_sent. simpl.
      rewrite app_nil_r, <- app_assoc. exact Hsum.
Qed.

Lemma received_app (l1 l2 : list Event) : received (l1 ++ l2) = received l1 ++ received l2.
Proof.
  induction l1 as [|e l1 IH]; simpl; [reflexivity|].
  destruct e; simpl; rewrite IH; reflexivity.
Qed.

Lemma run_arrival (evs : list Event) :
  forallb noRaise evs = true ->
  forall (st : State) (arrived : list ActionController.Action),
    arrivalInv st arrived ->
    arrivalInv (fold_left step evs st) (arrived ++ received evs).
Proof.
  induction evs as [|ev evs IH]; intros Hall st arrived Hinv; simpl in Hall.
  - simpl. rewrite app_nil_r. exact Hinv.
  - apply andb_prop in Hall. destruct Hall as [Hev Hall].
    change (ev :: evs) with ([ev] ++ evs). rewrite received_app, app_assoc.
    simpl fold_left. apply (IH Hall). apply step_arrival; assumption.
Qed.

End ArrivalOrder.

(** As long as no call of [executeAction] settles by raising, no action is
    lost, repeated or overtaken: the actions started so far, followed by
    those that wait in the queue, are the actions received, in the order of
    their arrival; and nothing waits in the queue while the script is idle. *)
Theorem actions_start_in_arrival_order :
  forall evs : list ContentScript.Event,
    forallb ContentScript.noRaise evs = true ->
    ContentScript.started (ContentScript.log (ContentScript.run evs))
    ++ ContentScript.pendingActionQueue (ContentScript.run evs)
    = ContentScript.received evs
    /\ (ContentScript.isProcessing (ContentScript.run evs) = false ->
        ContentScript.pendingActionQueue (ContentScript.run evs) = []).
Proof.
  intros evs Hall.
  apply (@run_arrival evs Hall ContentScript.initial []).
  split; [reflexivity | intros _; reflexivity].
Qed.

Lemma two_actions_start_in_arrival_order :
  forallb ContentScript.noRaise
          (ContentScript.twoActions (ActionController.waitAction None)
                                    (ActionController.doneAction None None)) = true
  /\ ContentScript.started
       (ContentScript.log
          (ContentScript.run
             (ContentScript.twoActions (ActionController.waitAction None)
                                       (ActionController.doneAction None None))))
     = [ActionController.waitAction None; ActionController.doneAction None None]
  /\ ContentScript.pendingActionQueue
       (ContentScript.run
          (ContentScript.twoActions (ActionController.waitAction None)
                                    (ActionController.doneAction None None)))
     = [].
Proof.
  split; [reflexivity|].
  destruct (@actions_start_in_arrival_order
              (ContentScript.twoActions (ActionController.waitAction None)
                                        (ActionController.doneAction None None))
              eq_refl) as [Hsum Hidle].
  specialize (Hidle eq_refl).
  rewrite Hidle, app_nil_r in Hsum. split; [exact Hsum | exact Hidle].
Defined.
(** ** More on the conversation manager *)
Section ObservationFacts.

Import Views Service.
Local Open Scope Z_scope.

Lemma estimateTokens_nonneg (s : string) : 0 <= estimateTokens s.
Proof. unfold estimateTokens. lia. Qed.

Lemma evictOldest_nonneg (l : list Entry) :
  estimatesNonNegative l -> estimatesNonNegative (evictOldest l).
Proof.
  unfold estimatesNonNegative.
  induction l as [|a l IH]; simpl; intros H; [constructor|].
  inversion H as [|? ? Ha Hl]; subst.
  destruct (isSystem a); [constructor; [exact Ha | apply IH, Hl] | exact Hl].
Qed.

Lemma iter_evictOldest_nonneg (k : nat) (l : list Entry) :
  estimatesNonNegative l -> estimatesNonNegative (Nat.iter k evictOldest l).
Proof.
  intros H. induction k as [|k IH]; simpl; [exact H | apply evictOldest_nonneg, IH].
Qed.

Lemma sumTokens_nonneg (l : list Entry) : estimatesNonNegative l -> 0 <= sumTokens l.
Proof.
  unfold estimatesNonNegative.
  induction 1 as [|a l Ha _ IH]; simpl; [lia|]. lia.
Qed.

(** Eviction from a history that ends with an entry of another role than
    'system': that entry is the last to go. *)
Lemma evictOldest_last (l : list Entry) (e : Entry) :
  isSystem e = false ->
  evictOldest (l ++ [e])
  = if forallb isSystem l then l else evictOldest l ++ [e].
Proof.
  intros He. induction l as [|a l IH]; simpl; [rewrite He; reflexivity|].
  destruct (isSystem a) eqn:Ha; simpl; [|reflexivity].
  rewrite IH. destruct (forallb isSystem l); reflexivity.
Qed.

Lemma evictOldest_all_system (l : list Entry) :
  forallb isSystem l = true -> evictOldest l = l.
Proof.
  induction l as [|a l IH]; simpl; [reflexivity|].
  intros H. apply andb_prop in H. destruct H as [Ha Hl].
  rewrite Ha, (IH Hl). reflexivity.
Qed.

Lemma iter_evictOldest_all_system (k : nat) (l : list Entry) :
  forallb isSystem l = true -> Nat.iter k evictOldest l = l.
Proof.
  intros H. induction k as [|k IH]; simpl; [reflexivity|].
  rewrite IH. apply evictOldest_all_system, H.
Qed.

Lemma iter_evictOldest_last (k : nat) (l : list Entry) (e : Entry) :
  isSystem e = false ->
  forallb isSystem (Nat.iter k evictOldest (l ++ [e])) = true
  \/ Nat.iter k evictOldest (l ++ [e]) = Nat.iter k evictOldest l ++ [e].
Proof.
  intros He. revert l. induction k as [|k IH]; intros l; [right; reflexivity|].
  rewrite !Nat.iter_succ_r, evictOldest_last by exact He.
  destruct (forallb isSystem l) eqn:Hall.
  - left. rewrite iter_evictOldest_all_system; assumption.
  - apply IH.
Qed.

Lemma addMessage_nonneg (mm : MessageManager) (m : Message) :
  currentTokens (history mm) = sumTokens (messages (history mm)) ->
  estimatesNonNegative (messages (history mm)) ->
  estimatesNonNegative (messages (history (Service.addMessage mm m))).
Proof.
  intros Hc Hpos.
  destruct (addMessage_spec mm m Hc) as (k & -> & _).
  apply iter_evictOldest_nonneg, Forall_app. split; [exact Hpos|].
  constructor; [apply estimateTokens_nonneg | constructor].
Qed.

Lemma applyOp_nonneg (mm : MessageManager) (o : Service.Op) :
  managerInv mm ->
  estimatesNonNegative (messages (history mm)) ->
  estimatesNonNegative (messages (history (Service.applyOp mm o))).
Proof.
  intros Hinv Hpos. pose proof (proj1 Hinv) as Hc.
  destruct o as [| s | r | u]; unfold Service.applyOp.
  - unfold addTaskMessage. apply addMessage_nonneg; assumption.
  - unfold addStateMessage. destruct (JS.truthy (generateActionSummary mm)).
    + apply addMessage_nonneg; [apply addMessage_inv, Hinv|].
      apply addMessage_nonneg; assumption.
    + apply addMessage_nonneg; assumption.
  - unfold addActionResultMessage.
    destruct (action r); [unfold addActionToHistory; cbn [history]|];
      apply addMessage_nonneg; assumption.
  - unfold addNavigationMessage. apply addMessage_nonneg; assumption.
Qed.

Lemma run_nonneg (task : string) (opt : option Z) (ops : list Service.Op) :
  estimatesNonNegative (messages (history (Service.run task opt ops))).
Proof.
  unfold Service.run.
  assert (H0 : managerInv (constructor task opt)
               /\ estimatesNonNegative (messages (history (constructor task opt)))).
  { assert (H1 : managerInv (addSystemMessage
                               (mkManager task Views.empty (maxTokensOption opt) [])))
      by (apply addSystemMessage_first; reflexivity).
    split.
    - unfold constructor, addTaskMessage. apply addMessage_inv, H1.
    - unfold constructor, addTaskMessage. apply addMessage_nonneg; [apply H1|].
      unfold addSystemMessage. apply addMessage_nonneg; [reflexivity | constructor]. }
  revert H0. generalize (constructor task opt).
  induction ops as [|o ops IH]; intros mm [Hinv Hpos]; simpl; [exact Hpos|].
  apply IH. split; [apply applyOp_inv, Hinv | apply applyOp_nonneg; assumption].
Qed.

(** An entry of another role than 'system' that does not fit beside the
    system instruction is evicted as soon as it is added. *)
Lemma addMessage_too_large (mm : MessageManager) (m : Message) :
  managerInv mm ->
  estimatesNonNegative (messages (history mm)) ->
  isSystem (entryOf m) = false ->
  maxTokens mm < estimateTokens systemContent + estimateTokens (content m) ->
  forallb isSystem (messages (history (Service.addMessage mm m))) = true.
Proof.
  intros (Hc & (rest & Hhd) & Hb) Hpos Hrole Hbig.
  destruct (addMessage_spec mm m Hc) as (k & Hm & _ & [Hle | Hall] & _);
    [|exact Hall].
  destruct (@iter_evictOldest_last k (messages (history mm)) (entryOf m) Hrole)
    as [Hall | Hlast];
    [rewrite Hm; exact Hall|].
  exfalso.
  assert (Hc' : currentTokens (history (Service.addMessage mm m))
                = sumTokens (messages (history (Service.addMessage mm m)))).
  { destruct (addMessage_spec mm m Hc) as (k' & _ & H & _). exact H. }
  unfold getTotalTokens in Hle. rewrite Hc', Hm, Hlast, sumTokens_app in Hle.
  rewrite Hhd, iter_evictOldest_head in Hle by reflexivity.
  assert (Hrest : 0 <= sumTokens (Nat.iter k evictOldest rest)).
  { apply sumTokens_nonneg, iter_evictOldest_nonneg.
    rewrite Hhd in Hpos. inversion Hpos; assumption. }
  change (sumTokens (entryOf systemMessage :: Nat.iter k evictOldest rest))
    with (estimateTokens systemContent + sumTokens (Nat.iter k evictOldest rest))
    in Hle.
  change (sumTokens [entryOf m]) with (estimateTokens (content m) + 0) in Hle.
  lia.
Qed.

End ObservationFacts.

(** An observation whose estimate does not fit into the budget beside the
    system instruction is dropped by the very call that adds it: after
    [addStateMessage] the history holds entries of role 'system' only -- no
    observation and no task statement. *)
Theorem oversized_observation_is_dropped :
  forall (task : string) (opt : option Z) (ops : list Service.Op)
         (state : Service.DomState),
    (Service.maxTokens (Service.run task opt ops)
     < Service.estimateTokens Service.systemContent
       + Service.estimateTokens
           (Service.formatStateMessage (Service.run task opt ops) state))%Z ->
    forallb Views.isSystem
            (Views.messages
               (Service.history
                  (Service.addStateMessage (Service.run task opt ops) state)))
    = true.
Proof.
  intros task opt ops state Hbig.
  pose proof (run_inv task opt ops) as Hinv.
  pose proof (run_nonneg task opt ops) as Hpos.
  unfold Service.addStateMessage.
  destruct (JS.truthy (Service.generateActionSummary (Service.run task opt ops))).
  - apply addMessage_too_large.
    + apply addMessage_inv, Hinv.
    + apply addMessage_nonneg; [apply Hinv | assumption].
    + reflexivity.
    + exact Hbig.
  - apply addMessage_too_large; [assumption | assumption | reflexivity | exact Hbig].
Qed.

Lemma oversized_observation_example :
  (Service.maxTokens (Service.run "t" (Some 400%Z) [])
   < Service.estimateTokens Service.systemContent
     + Service.estimateTokens
         (Service.formatStateMessage (Service.run "t" (Some 400%Z) [])
                                     Service.exampleState))%Z
  /\ forallb Views.isSystem
             (Views.messages
                (Service.history
                   (Service.addStateMessage (Service.run "t" (Some 400%Z) [])
                                            Service.exampleState)))
     = true.
Proof.
  assert (H : (Service.maxTokens (Service.run "t" (Some 400%Z) [])
               < Service.estimateTokens Service.systemContent
                 + Service.estimateTokens
                     (Service.formatStateMessage (Service.run "t" (Some 400%Z) [])
                                                 Service.exampleState))%Z)
    by (vm_compute; reflexivity).
  split; [exact H|].
  exact (@oversized_observation_is_dropped "t" (Some 400%Z) [] Service.exampleState H).
Defined.
(** ** More on the document model builder *)
Section TrimFacts.

Import JS.

Lemma trimEnd_idempotent (s : string) : trimEnd (trimEnd s) = trimEnd s.
Proof.
  induction s as [|c s IH]; simpl; [reflexivity|].
  destruct (trimEnd s) as [|d r] eqn:Hs.
  - destruct (isWhiteSpace c) eqn:Hc; simpl; [reflexivity|].
    rewrite Hc. reflexivity.
  - simpl in IH. simpl. destruct (trimEnd r) as [|d' r'] eqn:Hr.
    + destruct (isWhiteSpace d) eqn:Hd; [discriminate IH|].
      rewrite <- IH. reflexivity.
    + rewrite <- IH. reflexivity.
Qed.

(** What [trimStart] returns is empty or starts with a character that is
    not white space; [trimEnd] keeps that character. *)
Lemma trimStart_trimEnd (s : string) : trimStart (trimEnd (trimStart s)) = trimEnd (trimStart s).
Proof.
  induction s as [|c s IH]; simpl; [reflexivity|].
  destruct (isWhiteSpace c) eqn:Hc; [exact IH|].
  simpl. destruct (trimEnd s) as [|d r]; rewrite ?Hc; simpl; rewrite Hc; reflexivity.
Qed.

Lemma trim_idempotent (s : string) : trim (trim s) = trim s.
Proof.
  unfold trim. rewrite trimStart_trimEnd. apply trimEnd_idempotent.
Qed.

End TrimFacts.

Section VisitFacts.

Import DomBuilder.

Variable p : Page.
Variable opts : Options.

Let visitSpec := DomBuilder.visitSpec p opts.

Lemma highlightedIndices_app (l1 l2 : list nat) :
  highlightedIndices opts (l1 ++ l2)
  = highlightedIndices opts l1 ++ highlightedIndices opts l2.
Proof.
  unfold highlightedIndices.
  destruct (highlightElements opts); [|reflexivity].
  destruct (0 <=? focusHighlightIndex opts)%Z; [apply filter_app | reflexivity].
Qed.

(** The checks at the end of [_buildDomTree]. *)
Lemma evaluate_spec (e : Element) (parentIframe : option Element)
      (children : list NodeData) (hasShadow : bool) (st : State) :
  forallb flagsConsistent children = true ->
  flagsConsistent (fst (evaluate p opts e parentIframe children hasShadow st)) = true
  /\ map snd (selectorMap (snd (evaluate p opts e parentIframe children hasShadow st)))
     = map snd (selectorMap st) ++ filter (qualifies p opts) [e]
  /\ (overlaysMatch opts st ->
      overlaysMatch opts (snd (evaluate p opts e parentIframe children hasShadow st))).
Proof.
  intros Hkids. unfold evaluate, qualifies. simpl filter.
  destruct (_isInExpandedViewport (window p) (rect e) (viewportExpansion opts));
    [|simpl; rewrite app_nil_r; auto].
  destruct (_isTopElement (window p) e); [|simpl; rewrite app_nil_r; auto].
  destruct (_isInteractiveElement e); [|simpl; rewrite app_nil_r; auto].
  cbn [fst snd selectorMap overlays flagsConsistent implb Bool.eqb JS.defined andb].
  split; [exact Hkids|]. split; [rewrite map_app; reflexivity|].
  intros [Hix Hcol]. unfold overlaysMatch. cbn [selectorMap overlays].
  match goal with
  | |- context [(overlays st ++ ?d)%list] => set (drawn := d)
  end.
  assert (Hdrawn : map ov_index drawn = highlightedIndices opts [highlightIndex st]
                   /\ Forall (fun o => ov_colorIndex o = ov_index o mod 10) drawn).
  { unfold drawn, highlightedIndices.
    assert (Hone : forall o, o = _highlightElement e (highlightIndex st) parentIframe ->
                     map ov_index [o] = [highlightIndex st]
                     /\ Forall (fun o => ov_colorIndex o = ov_index o mod 10) [o]).
    { intros o ->. unfold _highlightElement.
      destruct parentIframe; simpl; split; try reflexivity;
        constructor; try reflexivity; constructor. }
    destruct (highlightElements opts); [|split; [reflexivity | constructor]].
    destruct (0 <=? focusHighlightIndex opts)%Z; [|apply Hone; reflexivity].
    simpl filter.
    destruct (focusHighlightIndex opts =? Z.of_nat (highlightIndex st))%Z;
      [apply Hone; reflexivity | split; [reflexivity | constructor]]. }
  destruct Hdrawn as [Hd1 Hd2].
  rewrite !map_app, highlightedIndices_app, Hix, Hd1. cbn [map fst].
  split; [reflexivity|]. apply Forall_app. split; assumption.
Qed.

(** The loops over child nodes. *)
Lemma walk_spec (visit : Node -> State -> option NodeData * State) (l : list Node) :
  Forall (visitSpec visit) l ->
  forall acc st,
    forallb flagsConsistent acc = true ->
    forallb flagsConsistent (fst (walk visit l acc st)) = true
    /\ map snd (selectorMap (snd (walk visit l acc st)))
       = map snd (selectorMap st)
         ++ filter (qualifies p opts) (flat_map (visitedElements p) l)
    /\ (overlaysMatch opts st -> overlaysMatch opts (snd (walk visit l acc st))).
Proof.
  induction 1 as [|c l Hc _ IH]; intros acc st Hacc; simpl.
  - rewrite app_nil_r. auto.
  - destruct (Hc st) as (Ht & Hmap & Hov).
    destruct (visit c st) as [r st1]. simpl in Ht, Hmap, Hov.
    assert (Hacc' : forallb flagsConsistent (pushTree r acc) = true).
    { destruct r as [t|]; simpl; [|exact Hacc].
      rewrite forallb_app, Hacc. simpl. rewrite Ht. reflexivity. }
    destruct (IH (pushTree r acc) st1 Hacc') as (H1 & H2 & H3).
    split; [exact H1|]. split; [|intros H0; apply H3, Hov, H0].
    rewrite H2, Hmap, filter_app, app_assoc. reflexivity.
Qed.

(** One call of [_buildDomTree], whatever the node. *)
Lemma buildDomTree_spec (n : Node) :
  forall parentIframe,
    visitSpec (fun node st => _buildDomTree p opts node parentIframe st) n.
Proof.
  induction n as [t r parent | | e childNodes shadow frame IHkids IHshadow IHframe]
    using Node_nested_ind; intros parentIframe st.
  - simpl. destruct (negb (JS.truthy (JS.trim t))) eqn:Ht; simpl.
    + rewrite app_nil_r. auto.
    + destruct (negb (_isTextNodeVisible (window p) opts r parent)); simpl;
        rewrite app_nil_r; [auto|].
      apply negb_false_iff in Ht. rewrite Ht, trim_idempotent, String.eqb_refl. auto.
  - simpl. rewrite app_nil_r. auto.
  - cbn [_buildDomTree visitedElements].
    destruct (String.eqb (id e) HIGHLIGHT_CONTAINER_ID);
      [simpl; rewrite app_nil_r; auto|].
    destruct (negb (_isElementAccepted e)); [simpl; rewrite app_nil_r; auto|].
    destruct (negb (isDocumentBody p e) && negb (_isElementVisible e));
      [simpl; rewrite app_nil_r; auto|].
    set (visit := fun child st0 => _buildDomTree p opts child parentIframe st0).
    assert (Hkids : Forall (visitSpec visit) childNodes).
    { eapply Forall_impl; [|exact IHkids]. intros c Hc. apply Hc. }
    destruct (walk_spec Hkids [] st eq_refl) as (Ht1 & Hmap1 & Hov1).
    destruct (walk visit childNodes [] st) as [children1 st1].
    cbn [fst snd] in Ht1, Hmap1, Hov1.
    (* the shadow tree *)
    assert (Hsh : exists children2 st2,
               match shadow with
               | Some shadowChildren => walk visit shadowChildren children1 st1
               | None => (children1, st1)
               end = (children2, st2)
               /\ forallb flagsConsistent children2 = true
               /\ map snd (selectorMap st2)
                  = map snd (selectorMap st1)
                    ++ filter (qualifies p opts)
                         (match shadow with
                          | Some shadowChildren =>
                              flat_map (visitedElements p) shadowChildren
                          | None => []
                          end)
               /\ (overlaysMatch opts st1 -> overlaysMatch opts st2)).
    { destruct shadow as [shadowChildren|].
      - assert (Hs : Forall (visitSpec visit) shadowChildren).
        { eapply Forall_impl; [|exact IHshadow]. intros c Hc. apply Hc. }
        destruct (walk_spec Hs children1 st1 Ht1) as (Ht2 & Hmap2 & Hov2).
        destruct (walk visit shadowChildren children1 st1) as [children2 st2].
        exists children2, st2. auto.
      - exists children1, st1. simpl. rewrite app_nil_r. auto. }
    destruct Hsh as (children2 & st2 & -> & Ht2 & Hmap2 & Hov2).
    (* the framed document *)
    assert (Hfr : exists children3 st3,
               (if String.eqb (JS.toUpperCase (tagName e)) "IFRAME" then
                  match frame with
                  | FrameBody (Some iframeBody) =>
                      let (r, st') := _buildDomTree p opts iframeBody (Some e) st2 in
                      (pushTree r children2, st')
                  | _ => (children2, st2)
                  end
                else (children2, st2)) = (children3, st3)
               /\ forallb flagsConsistent children3 = true
               /\ map snd (selectorMap st3)
                  = map snd (selectorMap st2)
                    ++ filter (qualifies p opts)
                         (if String.eqb (JS.toUpperCase (tagName e)) "IFRAME" then
                            match frame with
                            | FrameBody (Some iframeBody) =>
                                visitedElements p iframeBody
                            | _ => []
                            end
                          else [])
               /\ (overlaysMatch opts st2 -> overlaysMatch opts st3)).
    { assert (Hnone : exists children3 st3,
                 (children2, st2) = (children3, st3)
                 /\ forallb flagsConsistent children3 = true
                 /\ map snd (selectorMap st3)
                    = map snd (selectorMap st2) ++ filter (qualifies p opts) []
                 /\ (overlaysMatch opts st2 -> overlaysMatch opts st3)).
      { exists children2, st2. simpl. rewrite app_nil_r. auto. }
      destruct (String.eqb (JS.toUpperCase (tagName e)) "IFRAME"); [|exact Hnone].
      destruct frame as [| | [iframeBody|]]; try exact Hnone.
      destruct (IHframe (Some e) st2) as (Ht3 & Hmap3 & Hov3).
      destruct (_buildDomTree p opts iframeBody (Some e) st2) as [r st'].
      cbn [fst snd] in Ht3, Hmap3, Hov3.
      exists (pushTree r children2), st'.
      split; [reflexivity|]. split; [|split; assumption].
      destruct r as [t|]; simpl; [|exact Ht2].
      rewrite forallb_app, Ht2. simpl. rewrite Ht3. reflexivity. }
    destruct Hfr as (children3 & st3 & Hfr & Ht3 & Hmap3 & Hov3).
    match goal with
    | |- context [let (c, s) := ?X in _] =>
        replace X with (children3, st3) by (symmetry; exact Hfr)
    end.
    destruct (@evaluate_spec e parentIframe children3 (JS.defined shadow) st3 Ht3)
      as (Ht4 & Hmap4 & Hov4).
    destruct (evaluate p opts e parentIframe children3 (JS.defined shadow) st3)
      as [data st4].
    cbn [fst snd] in Ht4, Hmap4, Hov4. cbn [fst snd].
    split; [exact Ht4|]. split; [|intros H0; apply Hov4, Hov3, Hov2, Hov1, H0].
    rewrite Hmap4, Hmap3, Hmap2, Hmap1, !filter_app, <- !app_assoc. reflexivity.
Qed.

(** A whole [build()]. *)
Lemma build_spec :
  match elementTree (build p opts) with
  | Some t => flagsConsistent t = true
  | None => True
  end
  /\ map snd (resultMap (build p opts))
     = filter (qualifies p opts) (visitedElements p (body p))
  /\ overlaysMatch opts (snd (build p opts)).
Proof.
  destruct (buildDomTree_spec (body p) None (mkState 0 [] [])) as (H1 & H2 & H3).
  split; [exact H1|]. split; [exact H2|].
  apply H3. split; [|constructor].
  unfold highlightedIndices. simpl.
  destruct (highlightElements opts); [|reflexivity].
  destruct (0 <=? focusHighlightIndex opts)%Z; reflexivity.
Qed.

End VisitFacts.

(** The selector map is exactly this: the elements that the traversal comes
    to evaluate -- those that are not inside, and are not themselves, an
    element that is rejected as the overlay container, as not accepted or
    as not visible -- and that pass the viewport, topmost and interactivity
    checks, in the order of the traversal, numbered from 0. *)
Theorem selector_map_is_the_visited_elements_that_qualify :
  forall (p : DomBuilder.Page) (opts : DomBuilder.Options),
    DomBuilder.resultMap (DomBuilder.build p opts)
    = combine
        (seq 0 (List.length
                  (filter (DomBuilder.qualifies p opts)
                          (DomBuilder.visitedElements p (DomBuilder.body p)))))
        (filter (DomBuilder.qualifies p opts)
                (DomBuilder.visitedElements p (DomBuilder.body p))).
Proof.
  intros p opts.
  destruct (build_spec p opts) as (_ & Hsnd & _).
  destruct (build_grows p opts) as (new & Hmap & Hseq & _).
  unfold DomBuilder.resultMap in *. rewrite Hmap in *. simpl in *.
  rewrite <- Hsnd, length_map, <- Hseq.
  clear. induction new as [|[i e] new IH]; simpl; [reflexivity|].
  rewrite <- IH. reflexivity.
Qed.

(** An element inside a rejected element is never given an index, whatever
    it looks like itself: a button that overflows a wrapper of no height is
    visible, on top and interactive, and is left out with its wrapper. *)
Example button_in_flat_wrapper_left_out :
  DomBuilder._isElementVisible DomBuilder.overflowingButton = true
  /\ DomBuilder.qualifies DomBuilder.wrapperPage DomBuilder.defaultOptions
       DomBuilder.overflowingButton = true
  /\ DomBuilder._isElementVisible DomBuilder.flatWrapper = false
  /\ DomBuilder.visitedElements DomBuilder.wrapperPage
       (DomBuilder.body DomBuilder.wrapperPage) = [DomBuilder.nestedBody]
  /\ DomBuilder.resultMap (DomBuilder.build DomBuilder.wrapperPage DomBuilder.defaultOptions)
     = [].
Proof. repeat split; vm_compute; reflexivity. Qed.

(** The tree that [build()] returns has consistent flags: an element marked
    interactive is marked a top element, a top element is marked in the
    viewport, an element carries an index exactly when it is marked
    interactive, and every text is trimmed and not empty. *)
Theorem returned_tree_has_consistent_flags :
  forall (p : DomBuilder.Page) (opts : DomBuilder.Options),
    match DomBuilder.elementTree (DomBuilder.build p opts) with
    | Some t => DomBuilder.flagsConsistent t = true
    | None => True
    end.
Proof. intros p opts. apply (build_spec p opts). Qed.

(** The overlays that [build()] draws are those of the indices it gave out:
    one for each index, in order, when highlighting is on and no index is in
    focus; one for the index in focus, if that index was given out, when
    one is in focus; none when highlighting is off.  Each overlay has the
    colour of its index in the palette of ten. *)
Theorem overlays_match_the_indices :
  forall (p : DomBuilder.Page) (opts : DomBuilder.Options),
    map DomBuilder.ov_index (DomBuilder.overlays (snd (DomBuilder.build p opts)))
    = DomBuilder.highlightedIndices opts
        (seq 0 (List.length (DomBuilder.resultMap (DomBuilder.build p opts))))
    /\ Forall (fun o => DomBuilder.ov_colorIndex o = DomBuilder.ov_index o mod 10)
              (DomBuilder.overlays (snd (DomBuilder.build p opts))).
Proof.
  intros p opts.
  destruct (build_spec p opts) as (_ & _ & Hix & Hcol).
  destruct (build_grows p opts) as (new & Hmap & Hseq & _).
  split; [|exact Hcol].
  rewrite Hix. unfold DomBuilder.resultMap. rewrite Hmap. simpl.
  rewrite Hseq. reflexivity.
Qed.

(** The viewport check with a margin: a margin of -1 lets every box pass,
    and with any other margin a box that passes also passes with every
    larger margin. *)
Lemma viewport_margin_monotone :
  forall (w : DomBuilder.Window) (r : DomBuilder.Rect),
    DomBuilder._isInExpandedViewport w r (-1) = true
    /\ forall m m' : Z,
         m <> (-1)%Z -> (m <= m')%Z ->
         DomBuilder._isInExpandedViewport w r m = true ->
         DomBuilder._isInExpandedViewport w r m' = true.
Proof.
  intros w r. split; [reflexivity|].
  intros m m' Hm Hle. unfold DomBuilder._isInExpandedViewport.
  destruct (m =? -1)%Z eqn:E; [apply Z.eqb_eq in E; contradiction|].
  destruct (m' =? -1)%Z; [reflexivity|].
  assert (Hq : (inject_Z m <= inject_Z m')%Q) by (rewrite <- Zle_Qle; exact Hle).
  assert (Hlt : forall a b a' b' : Q,
             DomBuilder.Qltb a b = false ->
             (a <= a')%Q -> (b' <= b)%Q -> DomBuilder.Qltb a' b' = false).
  { unfold DomBuilder.Qltb. intros a b a' b' H Ha Hb.
    apply negb_false_iff in H. apply negb_false_iff.
    apply Qle_bool_iff in H. apply Qle_bool_iff. lra. }
  intros H. apply negb_true_iff in H. apply negb_true_iff.
  repeat (apply orb_false_elim in H; destruct H as [H ?H]).
  rewrite (Hlt _ _ (DomBuilder.bottom r) (- inject_Z m')%Q H) by lra.
  rewrite (Hlt _ _ (DomBuilder.innerHeight w + inject_Z m')%Q (DomBuilder.top r) H2)
    by lra.
  rewrite (Hlt _ _ (DomBuilder.right r) (- inject_Z m')%Q H1) by lra.
  rewrite (Hlt _ _ (DomBuilder.innerWidth w + inject_Z m')%Q (DomBuilder.left r) H0)
    by lra.
  reflexivity.
Qed.

(** Widening the margin of the viewport never drops an element from the
    selector map: with a margin other than -1, every element that
    [build()] gives an index is also given one -- not always the same --
    when the margin is larger and everything else is unchanged. *)
Theorem larger_viewport_margin_keeps_elements :
  forall (p : DomBuilder.Page) (opts : DomBuilder.Options) (margin : Z),
    DomBuilder.viewportExpansion opts <> (-1)%Z ->
    (DomBuilder.viewportExpansion opts <= margin)%Z ->
    incl (map snd (DomBuilder.resultMap (DomBuilder.build p opts)))
         (map snd (DomBuilder.resultMap
                     (DomBuilder.build p
                        (DomBuilder.mkOptions
                           (DomBuilder.highlightElements opts)
                           (DomBuilder.focusHighlightIndex opts)
                           margin
                           (DomBuilder.debugMode opts))))).
Proof.
  intros p opts margin Hm Hle.
  destruct (build_spec p opts) as (_ & -> & _).
  destruct (build_spec p (DomBuilder.mkOptions
                            (DomBuilder.highlightElements opts)
                            (DomBuilder.focusHighlightIndex opts)
                            margin
                            (DomBuilder.debugMode opts))) as (_ & -> & _).
  intros e He. apply filter_In in He. destruct He as [Hin Hq].
  apply filter_In. split; [exact Hin|].
  unfold DomBuilder.qualifies in *. cbn [DomBuilder.viewportExpansion].
  apply andb_prop in Hq. destruct Hq as [Hq Hi].
  apply andb_prop in Hq. destruct Hq as [Hv Ht].
  rewrite Ht, Hi.
  rewrite (proj2 (viewport_margin_monotone (DomBuilder.window p) (DomBuilder.rect e))
             _ margin Hm Hle Hv).
  reflexivity.
Qed.

Lemma larger_viewport_margin_on_nested_page :
  DomBuilder.viewportExpansion DomBuilder.defaultOptions <> (-1)%Z
  /\ (DomBuilder.viewportExpansion DomBuilder.defaultOptions <= 500)%Z
  /\ incl (map snd (DomBuilder.resultMap
                      (DomBuilder.build DomBuilder.nestedPage DomBuilder.defaultOptions)))
          (map snd (DomBuilder.resultMap
                      (DomBuilder.build DomBuilder.nestedPage
                         (DomBuilder.mkOptions
                            (DomBuilder.highlightElements DomBuilder.defaultOptions)
                            (DomBuilder.focusHighlightIndex DomBuilder.defaultOptions)
                            500
                            (DomBuilder.debugMode DomBuilder.defaultOptions))))).
Proof.
  assert (H1 : DomBuilder.viewportExpansion DomBuilder.defaultOptions <> (-1)%Z)
    by (cbn; lia).
  assert (H2 : (DomBuilder.viewportExpansion DomBuilder.defaultOptions <= 500)%Z)
    by (cbn; lia).
  split; [exact H1|]. split; [exact H2|].
  exact (@larger_viewport_margin_keeps_elements DomBuilder.nestedPage
           DomBuilder.defaultOptions 500%Z H1 H2).
Defined.
(** ** The message formats of the model clients *)
Section GeminiFacts.

Import Llm.

Variable systemMessage : string.

Let hasUser (result : list GeminiMessage) : bool :=
  existsb (fun m => String.eqb (g_role m) "user") result.

Lemma plain_assistant (m : Views.Message) :
  isAssistant m = true -> plain m = mkGemini "model" [Views.content m].
Proof. intros H. unfold plain. rewrite H. reflexivity. Qed.

(** Once a message of the user's is in the result, the rest is carried over
    as it is. *)
Lemma convert_after_user (messages : list Views.Message) :
  forall result,
    hasUser result = true ->
    fold_left (convertStep systemMessage) messages result
    = result ++ map plain (conversation messages).
Proof.
  unfold hasUser, conversation.
  induction messages as [|m messages IH]; intros result Hu; simpl.
  - rewrite app_nil_r. reflexivity.
  - unfold convertStep at 2. destruct (isSystem m); simpl; [apply IH, Hu|].
    rewrite Hu, andb_false_r. rewrite IH.
    + rewrite <- app_assoc. reflexivity.
    + rewrite existsb_app, Hu. reflexivity.
Qed.

(** Before that, the assistant's messages are carried over as they are and
    the first message of the user's gets the system text. *)
Lemma convert_before_user (messages : list Views.Message) :
  forall result,
    hasUser result = false ->
    (forallb isAssistant (conversation messages) = true ->
     fold_left (convertStep systemMessage) messages result
     = result ++ map plain (conversation messages))
    /\ (forall before m after,
          conversation messages = before ++ m :: after ->
          forallb isAssistant before = true ->
          isAssistant m = false ->
          fold_left (convertStep systemMessage) messages result
          = result ++ map plain before
                   ++ withSystemText systemMessage m :: map plain after).
Proof.
  unfold hasUser, conversation.
  induction messages as [|x messages IH]; intros result Hu; simpl.
  - split; [intros _; rewrite app_nil_r; reflexivity|].
    intros [|b before] m after H; discriminate H.
  - unfold convertStep at 2 4. destruct (isSystem x) eqn:Hsys; simpl; [apply IH, Hu|].
    destruct (isAssistant x) eqn:Hx; simpl.
    + assert (Hu' : existsb (fun m => String.eqb (g_role m) "user")
                            (result ++ [mkGemini "model" [Views.content x]]) = false).
      { rewrite existsb_app, Hu. reflexivity. }
      destruct (IH _ Hu') as [IH1 IH2]. split.
      * intros Hall. rewrite IH1 by exact Hall. rewrite <- app_assoc.
        simpl. rewrite (plain_assistant _ Hx). reflexivity.
      * intros [|b before] m after Heq Hall Hm; simpl in Heq; injection Heq as ? ?; subst.
        -- congruence.
        -- simpl in Hall. apply andb_prop in Hall. destruct Hall as [_ Hall].
           rewrite (IH2 before m after) by assumption.
           rewrite <- app_assoc. simpl. rewrite (plain_assistant _ Hx). reflexivity.
    + rewrite Hu. simpl. rewrite andb_true_r. split; [discriminate|].
      intros [|b before] m after Heq Hall Hm; simpl in Heq; injection Heq as ? ?; subst.
      * rewrite convert_after_user
          by (unfold hasUser; rewrite existsb_app; simpl; apply orb_true_r).
        rewrite <- app_assoc. reflexivity.
      * simpl in Hall. rewrite Hx in Hall. discriminate Hall.
Qed.

(** The server's helper: only the very first message can get the system text. *)
Lemma format_after_first (messages : list Views.Message) :
  forall result,
    result <> [] ->
    fold_left (formatStep systemMessage) messages result
    = result ++ map plain (conversation messages).
Proof.
  unfold conversation.
  induction messages as [|m messages IH]; intros result Hne; simpl.
  - rewrite app_nil_r. reflexivity.
  - unfold formatStep at 2. destruct (isSystem m); simpl; [apply IH, Hne|].
    assert (Hlen : Nat.eqb (List.length result) 0 = false)
      by (destruct result; [contradiction | reflexivity]).
    rewrite Hlen, andb_false_r. rewrite IH.
    + rewrite <- app_assoc. reflexivity.
    + destruct result; discriminate.
Qed.

Lemma format_from_empty (messages : list Views.Message) :
  fold_left (formatStep systemMessage) messages []
  = match conversation messages with
    | [] => []
    | m :: after =>
        (if isAssistant m then plain m else withSystemText systemMessage m)
        :: map plain after
    end.
Proof.
  unfold conversation.
  induction messages as [|m messages IH]; simpl; [reflexivity|].
  unfold formatStep at 2. destruct (isSystem m); simpl; [exact IH|].
  rewrite format_after_first by discriminate.
  destruct (isAssistant m) eqn:Hm; simpl.
  - rewrite (plain_assistant _ Hm). reflexivity.
  - rewrite andb_true_r. reflexivity.
Qed.

End GeminiFacts.

(** [convertToGeminiFormat] drops the system messages, carries every other
    message over in order, the assistant's with the role model and all
    others with the role user, and puts the joined system text before the
    content of the first message that is not the assistant's.  When there is
    no such message -- in particular when every message is a system message
    -- the system text is in no message of the result. *)
Theorem gemini_system_text_goes_to_first_user_message :
  forall messages : list Views.Message,
    (forallb Llm.isAssistant (Llm.conversation messages) = true ->
     Llm.convertToGeminiFormat messages = map Llm.plain (Llm.conversation messages))
    /\ (forall (before : list Views.Message) (m : Views.Message)
               (after : list Views.Message),
          Llm.conversation messages = before ++ m :: after ->
          forallb Llm.isAssistant before = true ->
          Llm.isAssistant m = false ->
          Llm.convertToGeminiFormat messages
          = map Llm.plain before
            ++ Llm.withSystemText (Llm.systemText messages) m :: map Llm.plain after).
Proof.
  intros messages. unfold Llm.convertToGeminiFormat.
  destruct (@convert_before_user (Llm.systemText messages) messages [] eq_refl)
    as [H1 H2].
  split; [exact H1 | exact H2].
Qed.

(** The server's [formatMessagesForGemini] puts the system text before the
    first message of the conversation only if that message is not the
    assistant's; when the assistant speaks first, the system text is in no
    message of the result, where [convertToGeminiFormat] gives it to the
    first message of the user's. *)
Theorem server_helper_drops_system_text_after_assistant :
  forall messages : list Views.Message,
    Llm.formatMessagesForGemini messages
    = match Llm.conversation messages with
      | [] => []
      | m :: after =>
          (if Llm.isAssistant m then Llm.plain m
           else Llm.withSystemText (Llm.systemText messages) m)
          :: map Llm.plain after
      end.
Proof. intros messages. apply format_from_empty. Qed.

(** The two conversions on a conversation that the assistant opens. *)
Example conversions_of_assistant_first :
  Llm.formatMessagesForGemini Llm.assistantFirst
  = [Llm.mkGemini "model" ["Hello."%string];
     Llm.mkGemini "user" ["Open the page."%string]]
  /\ Llm.convertToGeminiFormat Llm.assistantFirst
     = [Llm.mkGemini "model" ["Hello."%string];
        Llm.mkGemini "user" [("Be brief." ++ JS.nl ++ JS.nl ++ "Open the page.")%string]].
Proof. split; vm_compute; reflexivity. Qed.
(** ** The first conversation manager and the agent graph *)
Section LegacyFacts.

Import Legacy.

Variable systemPrompt : string.
Variable task : string.

Let pinned := Legacy.pinned systemPrompt task.

Lemma lastN_length (n : nat) (l : list Message) :
  List.length (lastN n l) <= n.
Proof. unfold lastN. rewrite length_skipn. lia. Qed.

(** The newest message is among the recent ones. *)
Lemma lastN_snoc (n : nat) (l : list Message) (m : Message) :
  exists front, lastN (S n) (l ++ [m]) = front ++ [m].
Proof.
  unfold lastN. rewrite length_app. simpl.
  replace (List.length l + 1 - S n) with (List.length l - n) by lia.
  exists (skipn (List.length l - n) l).
  rewrite skipn_app.
  replace (List.length l - n - List.length l) with 0 by lia. reflexivity.
Qed.

Lemma prune_length (mm : MessageManager) :
  List.length (messages (_pruneMessagesIfNeeded mm)) <= MAX_MESSAGES.
Proof.
  unfold _pruneMessagesIfNeeded.
  destruct (MAX_MESSAGES <? List.length (messages mm)) eqn:E.
  - cbn [messages]. rewrite !length_app.
    pose proof (lastN_length 10 (messages mm)).
    destruct (hd_error (messages mm)), (find isTaskMessage (messages mm));
      unfold MAX_MESSAGES; simpl; lia.
  - apply Nat.ltb_ge in E. exact E.
Qed.

Lemma prune_pinned (mm : MessageManager) :
  pinned mm -> pinned (_pruneMessagesIfNeeded mm).
Proof.
  intros [rest Hm]. unfold _pruneMessagesIfNeeded.
  destruct (MAX_MESSAGES <? List.length (messages mm)); [|exists rest; exact Hm].
  cbn [messages]. rewrite Hm. simpl. eexists. reflexivity.
Qed.

Lemma prune_keeps_newest (mm : MessageManager) (front : list Message) (m : Message) :
  messages mm = front ++ [m] ->
  exists front', messages (_pruneMessagesIfNeeded mm) = front' ++ [m].
Proof.
  intros Hm. unfold _pruneMessagesIfNeeded.
  destruct (MAX_MESSAGES <? List.length (messages mm)); [|exists front; exact Hm].
  cbn [messages]. rewrite Hm.
  destruct (lastN_snoc 9 front m) as [recent ->].
  eexists. rewrite !app_assoc. reflexivity.
Qed.

Lemma applyOp_pinned (mm : MessageManager) (o : Op) :
  pinned mm -> pinned (applyOp mm o).
Proof.
  intros [rest Hm]. destruct o as [domState screenshot | result]; simpl.
  - apply prune_pinned. cbn [messages]. rewrite Hm. eexists. reflexivity.
  - unfold addActionResult. cbn [messages]. rewrite Hm. eexists. reflexivity.
Qed.

Lemma session_pinned (ops : list Op) : pinned (session systemPrompt task ops).
Proof.
  unfold session.
  assert (H0 : pinned (setTask (reset (constructor systemPrompt)) task))
    by (exists []; reflexivity).
  revert H0. generalize (setTask (reset (constructor systemPrompt)) task).
  induction ops as [|o ops IH]; intros mm H; simpl; [exact H|].
  apply IH, applyOp_pinned, H.
Qed.

End LegacyFacts.

(** In the first manager the two oldest messages are pinned: in a session --
    the manager reset and given its task, then fed any observations and
    action results -- the system prompt is always the first message and the
    task statement the second.  After every observation the history holds at
    most 20 messages, and the observation just added is the last of them. *)
Theorem first_manager_pins_prompt_and_task :
  forall (systemPrompt task : string) (ops : list Legacy.Op)
         (domState : Legacy.DomState) (screenshot : option string),
    (exists rest : list Legacy.Message,
       Legacy.messages (Legacy.session systemPrompt task ops)
       = Legacy.systemMessage systemPrompt :: Legacy.taskMessage task :: rest)
    /\ List.length
         (Legacy.messages
            (Legacy.addDOMState (Legacy.session systemPrompt task ops)
                                domState screenshot)) <= 20
    /\ exists front : list Legacy.Message,
         Legacy.messages
           (Legacy.addDOMState (Legacy.session systemPrompt task ops)
                               domState screenshot)
         = front ++ [Legacy.observation domState screenshot].
Proof.
  intros systemPrompt task ops domState screenshot.
  split; [apply session_pinned|]. split.
  - unfold Legacy.addDOMState. apply prune_length.
  - unfold Legacy.addDOMState.
    eapply prune_keeps_newest. cbn [Legacy.messages]. reflexivity.
Qed.

(** The node that decides: the run is marked complete exactly when the
    action parsed from the thinking output has the type done -- which it
    has whenever the output cannot be parsed, or is missing, since
    [parseAction] then answers with its failed done action. *)
Theorem unreadable_decision_ends_the_run :
  forall (h : Parsing.Host) (state : Legacy.GraphState),
    match Legacy.s_thinking state with
    | Some thinkingOutput =>
        match Parsing.parseActionBody h thinkingOutput with
        | inl action =>
            Legacy.s_nextAction (Legacy.decide h state) = Some action
            /\ Legacy.s_isComplete (Legacy.decide h state)
               = Parsing.isString (Parsing.typeOf action) "done"
        | inr error =>
            Legacy.s_nextAction (Legacy.decide h state)
            = Some (Parsing.failedDone error)
            /\ Legacy.s_isComplete (Legacy.decide h state) = true
        end
    | None => Legacy.s_isComplete (Legacy.decide h state) = true
    end.
Proof.
  intros h state. unfold Legacy.decide, Legacy.parseThinking, Parsing.parseAction.
  destruct (Legacy.s_thinking state) as [thinkingOutput|]; [|reflexivity].
  destruct (Parsing.parseActionBody h thinkingOutput); split; reflexivity.
Qed.

(** A run of 25 observations: the history stays within 20 messages and
    still starts with the system prompt and the task statement. *)
Example first_manager_after_25_observations :
  List.length
    (Legacy.messages
       (Legacy.session "prompt" "t"
          (repeat (Legacy.AddDOMState Legacy.blankState None) 25))) = 19
  /\ firstn 2 (map Legacy.role
                 (Legacy.messages
                    (Legacy.session "prompt" "t"
                       (repeat (Legacy.AddDOMState Legacy.blankState None) 25))))
     = ["system"; "user"]%string.
Proof. split; vm_compute; reflexivity. Qed.
(** ** The agent service *)
Section ServiceRuns.

Import Agent.

Variable view : Parsing.Value -> Service.Action.

Lemma find_app {A : Type} (f : A -> bool) (l1 l2 : list A) :
  find f (l1 ++ l2)
  = match find f l1 with Some x => Some x | None => find f l2 end.
Proof.
  induction l1 as [|a l1 IH]; simpl; [reflexivity|].
  destruct (f a); [reflexivity | exact IH].
Qed.

Lemma lastCompleting_app (l1 l2 : list ActionResultMessage) :
  lastCompleting (l1 ++ l2)
  = match lastCompleting l2 with Some x => Some x | None => lastCompleting l1 end.
Proof. unfold lastCompleting. rewrite rev_app_distr. apply find_app. Qed.

(** What one call does to the counter, the flag and the final result. *)
Lemma applyOp_state (agent : AgentService) (o : Op) :
  steps (state (applyOp view agent o))
  = steps (state agent) + List.length (results [o])
  /\ isComplete (state (applyOp view agent o))
     = isComplete (state agent) || existsb completes (results [o])
  /\ finalResult (state (applyOp view agent o))
     = match lastCompleting (results [o]) with
       | Some r => Some (finalOf r)
       | None => finalResult (state agent)
       end.
Proof.
  destruct o as [domState | h settled | result | url]; simpl;
    rewrite ?Nat.add_0_r, ?orb_false_r; try (repeat split; reflexivity).
  - unfold getNextAction. destruct (callLLM settled); simpl;
      rewrite ?Nat.add_0_r, ?orb_false_r; repeat split; reflexivity.
  - destruct result as [ok [data|] err];
      unfold processActionResult, lastCompleting, completes, finalOf; simpl.
    + destruct (d_isComplete data); simpl;
        rewrite ?orb_true_r, ?orb_false_r; (split; [lia|]); split; reflexivity.
    + rewrite orb_false_r. split; [lia|]. split; reflexivity.
Qed.

Lemma results_app (l1 l2 : list Op) : results (l1 ++ l2) = results l1 ++ results l2.
Proof.
  induction l1 as [|o l1 IH]; simpl; [reflexivity|].
  destruct o; simpl; rewrite IH; reflexivity.
Qed.

Lemma fold_state (ops : list Op) :
  forall agent : AgentService,
    steps (state (fold_left (applyOp view) ops agent))
    = steps (state agent) + List.length (results ops)
    /\ isComplete (state (fold_left (applyOp view) ops agent))
       = isComplete (state agent) || existsb completes (results ops)
    /\ finalResult (state (fold_left (applyOp view) ops agent))
       = match lastCompleting (results ops) with
         | Some r => Some (finalOf r)
         | None => finalResult (state agent)
         end.
Proof.
  induction ops as [|o ops IH]; intros agent.
  - simpl. rewrite Nat.add_0_r, orb_false_r. repeat split.
  - cbn [fold_left]. destruct (IH (applyOp view agent o)) as (H1 & H2 & H3).
    destruct (applyOp_state agent o) as (A1 & A2 & A3).
    change (o :: ops) with ([o] ++ ops). rewrite results_app.
    rewrite H1, H2, H3, A1, A2, A3, length_app, existsb_app.
    split; [lia|]. split; [rewrite orb_assoc; reflexivity|].
    rewrite lastCompleting_app.
    destruct (lastCompleting (results ops)); reflexivity.
Qed.

(** The manager of the service is one that its own interface has made. *)
Lemma run_manager (task : string) (ops : list Op) :
  Service.managerInv (messageManager (run view task ops)).
Proof.
  unfold run.
  assert (H0 : Service.managerInv
                 (messageManager (constructor (Service.constructor task None))))
    by apply (run_inv task None []).
  revert H0. generalize (constructor (Service.constructor task None)).
  induction ops as [|o ops IH]; intros agent H; simpl; [exact H|].
  apply IH. destruct o as [domState | h settled | result | url]; simpl.
  - apply (applyOp_inv (Service.AddState domState) H).
  - unfold getNextAction. destruct (callLLM settled); exact H.
  - apply (applyOp_inv (Service.AddActionResult _) H).
  - apply (applyOp_inv (Service.AddNavigation url) H).
Qed.

(** A system entry that is added stays the newest entry. *)
Lemma evictOldest_system_last (l : list Views.Entry) (e : Views.Entry) :
  Views.isSystem e = true ->
  Views.evictOldest (l ++ [e]) = Views.evictOldest l ++ [e].
Proof.
  intros He. induction l as [|a l IH]; simpl; [rewrite He; reflexivity|].
  destruct (Views.isSystem a); [rewrite IH; reflexivity | reflexivity].
Qed.

Lemma iter_evictOldest_system_last (k : nat) (l : list Views.Entry) (e : Views.Entry) :
  Views.isSystem e = true ->
  Nat.iter k Views.evictOldest (l ++ [e]) = Nat.iter k Views.evictOldest l ++ [e].
Proof.
  intros He. induction k as [|k IH]; simpl; [reflexivity|].
  rewrite IH. apply evictOldest_system_last, He.
Qed.

Lemma addActionResultMessage_last (mm : Service.MessageManager) (r : Service.Result) :
  Service.managerInv mm ->
  exists front,
    Views.getMessages (Service.history (Service.addActionResultMessage mm r))
    = front
      ++ [Views.mkMessage "system"
            (if Service.success r then
               "Action completed: "
               ++ (if JS.truthyOpt (Service.data_message r)
                   then JS.showOpt (Service.data_message r) else "Success")
             else
               "Action failed: "
               ++ (if JS.truthyOpt (Service.error r)
                   then JS.showOpt (Service.error r) else "Unknown error"))].
Proof.
  intros (Hc & _). unfold Service.addActionResultMessage.
  match goal with
  | |- context [Service.addMessage mm ?M] => set (m := M)
  end.
  destruct (addMessage_spec mm m Hc) as (k & Hm & _).
  rewrite iter_evictOldest_system_last in Hm by reflexivity.
  exists (map Views.message (Nat.iter k Views.evictOldest (Views.messages (Service.history mm)))).
  unfold Views.getMessages.
  destruct (Service.action r); cbn [Service.addActionToHistory Service.history];
    rewrite Hm, map_app; reflexivity.
Qed.

End ServiceRuns.

(** The service counts one step for every action result it processes; the
    task is complete as soon as one result carries the completion flag and
    stays so whatever follows; and the final result is that of the last
    result that carried the flag -- its final message, or 'Task completed'
    when it has none, and success unless its task flag is false.  Until
    then the final result says 'Task not complete'. *)
Theorem completion_is_sticky_and_steps_count_results :
  forall (view : Parsing.Value -> Service.Action) (task : string)
         (ops : list Agent.Op),
    Agent.steps (Agent.state (Agent.run view task ops))
    = List.length (Agent.results ops)
    /\ Agent.isTaskComplete (Agent.run view task ops)
       = existsb Agent.completes (Agent.results ops)
    /\ Agent.getFinalResult (Agent.run view task ops)
       = match Agent.lastCompleting (Agent.results ops) with
         | Some r => Some (Agent.finalOf r)
         | None => Some (Agent.mkFinal "Task not complete" false)
         end.
Proof.
  intros view task ops.
  destruct (@fold_state view ops
              (Agent.constructor (Service.constructor task None)))
    as (H1 & H2 & H3).
  fold (Agent.run view task ops) in H1, H2, H3.
  split; [exact H1|]. split; [exact H2|].
  unfold Agent.getFinalResult, Agent.isTaskComplete. rewrite H2, H3. simpl.
  unfold Agent.lastCompleting.
  destruct (find Agent.completes (rev (Agent.results ops))) as [r|] eqn:Hf.
  - assert (Hex : existsb Agent.completes (Agent.results ops) = true).
    { apply existsb_exists. exists r. apply find_some in Hf.
      destruct Hf as [Hin Hr]. split; [apply in_rev, Hin | exact Hr]. }
    rewrite Hex. reflexivity.
  - assert (Hex : existsb Agent.completes (Agent.results ops) = false).
    { destruct (existsb Agent.completes (Agent.results ops)) eqn:E; [|reflexivity].
      apply existsb_exists in E. destruct E as (r & Hin & Hr).
      apply in_rev in Hin. pose proof (find_none _ _ Hf r Hin). congruence. }
    rewrite Hex. reflexivity.
Qed.

(** A done action ends the task, end to end: when the result that
    [executeAction] gives for it reaches the server, the server sends the
    task-complete message with the action's text -- 'Task completed' when
    the text is absent or empty -- and the action's success flag -- true
    when it is absent -- and stops executing. *)
Theorem done_action_completes_the_task :
  forall (view : Parsing.Value -> Service.Action) (host : Parsing.Host)
         (showNumber : Q -> string)
         (c : ActionController.Controller) (pg : ActionController.Page)
         (text : option string) (success : option bool)
         (agent : Agent.AgentService) (task : option string) (waiting generating : bool),
    snd (Agent.handleActionResult view host
           (Agent.mkClient (Some agent) task true waiting generating)
           (Agent.actionResultMessage showNumber
              (fst (ActionController.executeAction c
                      (ActionController.doneAction text success) pg))))
    = [Agent.TaskComplete task
         (if JS.truthyOpt text then JS.showOpt text else "Task completed")
         (match success with Some b => b | None => true end)]
    /\ Agent.isExecuting
         (fst (Agent.handleActionResult view host
                 (Agent.mkClient (Some agent) task true waiting generating)
                 (Agent.actionResultMessage showNumber
                    (fst (ActionController.executeAction c
                            (ActionController.doneAction text success) pg)))))
       = false.
Proof.
  intros. unfold Agent.handleActionResult. simpl.
  destruct text as [[|ch t]|], success as [[|]|]; split; reflexivity.
Qed.

(** What the executor reports beyond a message does not reach the
    conversation.  Whatever the action, once its result has been processed
    the newest entry of the conversation is a system message that reads
    'Action failed: Unknown error' if the action failed -- whatever error
    the executor named -- and 'Action completed: ' followed by the result's
    message, or by 'Success' when it has none, as the results of an
    extraction and of a done action have. *)
Theorem executor_error_text_is_not_recorded :
  forall (view : Parsing.Value -> Service.Action) (showNumber : Q -> string)
         (task : string) (ops : list Agent.Op)
         (c : ActionController.Controller) (a : ActionController.Action)
         (pg : ActionController.Page),
    exists front : list Views.Message,
      Views.getMessages
        (Service.history
           (Agent.messageManager
              (Agent.processActionResult view (Agent.run view task ops)
                 (Agent.actionResultMessage showNumber
                    (fst (ActionController.executeAction c a pg))))))
      = front
        ++ [Views.mkMessage "system"
              (if ActionController.r_success
                    (fst (ActionController.executeAction c a pg))
               then
                 "Action completed: "
                 ++ match ActionController.r_message
                            (fst (ActionController.executeAction c a pg)) with
                    | Some message =>
                        if JS.truthy (Agent.render showNumber message)
                        then Agent.render showNumber message else "Success"
                    | None => "Success"
                    end
               else "Action failed: Unknown error")].
Proof.
  intros view showNumber task ops c a pg.
  destruct (@addActionResultMessage_last
              (Agent.messageManager (Agent.run view task ops))
              (Agent.resultView view
                 (Agent.actionResultMessage showNumber
                    (fst (ActionController.executeAction c a pg)))
                 (Agent.lastAction (Agent.state (Agent.run view task ops))))
              (run_manager view task ops)) as [front Hfront].
  exists front. unfold Agent.processActionResult. cbn [Agent.messageManager].
  rewrite Hfront. f_equal. f_equal. f_equal.
  unfold Agent.resultView, Agent.actionResultMessage, Agent.dataOf. simpl.
  destruct (ActionController.r_success (fst (ActionController.executeAction c a pg)));
    [|reflexivity].
  destruct (ActionController.r_message (fst (ActionController.executeAction c a pg)));
    reflexivity.
Qed.

(** A failed click, an extraction and their entries in the conversation. *)
Example entries_for_failed_click_and_extraction :
  Views.content
    (last (Views.getMessages
             (Service.history
                (Agent.messageManager
                   (Agent.processActionResult Agent.exampleView
                      (Agent.run Agent.exampleView "t" [])
                      (Agent.actionResultMessage Agent.exampleShowNumber
                         (fst (ActionController.executeAction
                                 ActionController.emptyController
                                 (ActionController.clickAction "html/body/missing")
                                 ActionController.formPage)))))))
          (Views.mkMessage ""%string ""%string))
  = "Action failed: Unknown error"%string
  /\ Agent.d_error
       (Agent.dataOf Agent.exampleShowNumber
          (fst (ActionController.executeAction
                  ActionController.emptyController
                  (ActionController.clickAction "html/body/missing")
                  ActionController.formPage)))
     = Some ("Element with XPath " ++ JS.dquote ++ "html/body/missing" ++ JS.dquote
             ++ " not found")%string
  /\ Views.content
       (last (Views.getMessages
                (Service.history
                   (Agent.messageManager
                      (Agent.processActionResult Agent.exampleView
                         (Agent.run Agent.exampleView "t" [])
                         (Agent.actionResultMessage Agent.exampleShowNumber
                            (fst (ActionController.executeAction
                                    ActionController.emptyController
                                    (ActionController.extractAction (Parsing.VString "title"))
                                    ActionController.formPage)))))))
             (Views.mkMessage ""%string ""%string))
     = "Action completed: Success"%string.
Proof. repeat split; vm_compute; reflexivity. Qed.
(** ** The background script's connection and the popup's list of results *)
Section ConnectionFacts.

Import Background.



End ConnectionFacts.


Section ResultListFacts.

Import Popup.

Lemma removeFirst_head (l : list Child) (c : Child) :
  isResultItem c = true -> removeFirst isResultItem (c :: l) = l.
Proof. intros H. simpl. rewrite H. reflexivity. Qed.

(** Taking the last item out of a container of items. *)
Lemma removeLastItem_snoc (l : list Child) (c : Child) :
  isResultItem c = true -> removeLastItem (l ++ [c]) = l.
Proof.
  intros H. unfold removeLastItem. rewrite rev_unit, removeFirst_head by exact H.
  apply rev_involutive.
Qed.

Lemma items_no_empty_state (l : list Child) :
  forallb isResultItem l = true -> existsb isEmptyState l = false.
Proof.
  induction l as [|c l IH]; simpl; [reflexivity|].
  intros H. apply andb_prop in H. destruct H as [Hc Hl].
  destruct c; [discriminate Hc | exact (IH Hl)].
Qed.

Lemma filter_items (l : list Child) :
  forallb isResultItem l = true -> filter isResultItem l = l.
Proof.
  induction l as [|c l IH]; simpl; [reflexivity|].
  intros H. apply andb_prop in H. destruct H as [Hc Hl].
  rewrite Hc, (IH Hl). reflexivity.
Qed.

(** One more result in a settled container: it comes first, and the
    eleventh item falls off the end. *)
Lemma addTaskResult_settled (children : list Child) (r : TaskResult) :
  settled children ->
  addTaskResult children r = firstn 10 (itemOf r :: children)
  /\ settled (addTaskResult children r).
Proof.
  intros [Hitems Hlen].
  assert (Hadd : addTaskResult children r = firstn 10 (itemOf r :: children)).
  { unfold addTaskResult. rewrite (items_no_empty_state _ Hitems).
    assert (Hall : forallb isResultItem (itemOf r :: children) = true)
      by (simpl; exact Hitems).
    rewrite (filter_items _ Hall).
    destruct (10 <? List.length (itemOf r :: children)) eqn:E.
    - apply Nat.ltb_lt in E. simpl in E.
      assert (Hten : List.length children = 10) by lia.
      destruct (exists_last (l := children)) as (front & c & Hc);
        [intros ->; discriminate Hten|].
      rewrite Hc in *. rewrite forallb_app in Hitems.
      apply andb_prop in Hitems. destruct Hitems as [_ Hlast]. simpl in Hlast.
      rewrite andb_true_r in Hlast.
      change (itemOf r :: front ++ [c]) with ((itemOf r :: front) ++ [c]).
      rewrite removeLastItem_snoc by exact Hlast.
      rewrite length_app in Hten. simpl in Hten.
      rewrite firstn_app.
      assert (Heleven : List.length (itemOf r :: front) = 10)
        by (cbn [List.length]; lia).
      rewrite Heleven, Nat.sub_diag, firstn_all2 by lia.
      simpl. rewrite app_nil_r. reflexivity.
    - apply Nat.ltb_ge in E. rewrite firstn_all2 by exact E. reflexivity. }
  split; [exact Hadd|]. rewrite Hadd. split.
  - assert (Hall : forallb isResultItem (itemOf r :: children) = true)
      by (simpl; exact Hitems).
    rewrite <- (firstn_skipn 10 (itemOf r :: children)), forallb_app in Hall.
    apply andb_prop in Hall. apply Hall.
  - rewrite length_firstn. lia.
Qed.

Lemma fold_settled (rs : list TaskResult) :
  forall children,
    settled children ->
    fold_left addTaskResult rs children
    = firstn 10 (rev (map itemOf rs) ++ children).
Proof.
  induction rs as [|r rs IH]; intros children Hs.
  - cbn [fold_left map rev app]. rewrite firstn_all2; [reflexivity | apply Hs].
  - destruct (addTaskResult_settled r Hs) as [Hadd Hs'].
    cbn [fold_left]. rewrite (IH _ Hs'), Hadd. cbn [map rev].
    rewrite <- app_assoc. cbn [app].
    set (newer := rev (map itemOf rs)).
    destruct (Nat.le_gt_cases 10 (List.length newer)) as [Hlong | Hshort].
    + rewrite !firstn_app.
      replace (10 - List.length newer) with 0 by lia. reflexivity.
    + rewrite !firstn_app, !(firstn_all2 newer) by lia.
      f_equal. rewrite firstn_firstn. f_equal. lia.
Qed.

End ResultListFacts.

(** The popup's list of results.  From the container as the popup opens
    it, the results that arrive are listed newest first and only the ten
    newest are kept.  A stored history, though, is listed oldest first, and
    of a history of more than ten results the ten oldest are shown. *)
Theorem popup_lists_ten_results :
  forall (r : Popup.TaskResult) (rs : list Popup.TaskResult),
    fold_left Popup.addTaskResult (r :: rs) Popup.initial
    = firstn 10 (rev (map Popup.itemOf (r :: rs)))
    /\ forall children : list Popup.Child,
         Popup.loadTaskHistory children (Some (r :: rs))
         = firstn 10 (map Popup.itemOf (r :: rs)).
Proof.
  intros r rs. split.
  - cbn [fold_left]. change (Popup.addTaskResult Popup.initial r) with [Popup.itemOf r].
    rewrite fold_settled by (split; [reflexivity | simpl; lia]).
    reflexivity.
  - intros children. unfold Popup.loadTaskHistory.
    rewrite fold_settled by (split; [reflexivity | simpl; lia]).
    rewrite app_nil_r, <- map_rev, rev_involutive. reflexivity.
Qed.
(** ** Locators *)
Section StringFacts.

Import JS.
Local Open Scope string_scope.

Lemma string_append_empty (s : string) : s ++ "" = s.
Proof. induction s as [|c s IH]; simpl; [reflexivity | now rewrite IH]. Qed.

Lemma string_append_assoc (a b c : string) : (a ++ b) ++ c = a ++ b ++ c.
Proof. induction a as [|x a IH]; simpl; [reflexivity | now rewrite IH]. Qed.

Lemma string_length_append (a b : string) :
  String.length (a ++ b) = (String.length a + String.length b)%nat.
Proof. induction a as [|x a IH]; simpl; [reflexivity | now rewrite IH]. Qed.

Lemma string_append_inv_tail (a b c : string) : a ++ c = b ++ c -> a = b.
Proof.
  revert b. induction a as [|x a IH]; intros [|y b] H; simpl in H.
  - reflexivity.
  - apply (f_equal String.length) in H. simpl in H.
    rewrite string_length_append in H. lia.
  - apply (f_equal String.length) in H. simpl in H.
    rewrite string_length_append in H. lia.
  - injection H as -> H. f_equal. apply IH, H.
Qed.

Lemma allChars_append (p : ascii -> bool) (a b : string) :
  DomBuilder.allChars p (a ++ b) = DomBuilder.allChars p a && DomBuilder.allChars p b.
Proof.
  induction a as [|x a IH]; simpl; [reflexivity|].
  rewrite IH. apply andb_assoc.
Qed.

(** Two texts that are free of a character, each followed by nothing or by
    that character and more: if the whole is the same, so are the parts. *)
Lemma split_at (ch : ascii) (a b x y : string) :
  DomBuilder.allChars (fun c => negb (Ascii.eqb c ch)) a = true ->
  DomBuilder.allChars (fun c => negb (Ascii.eqb c ch)) b = true ->
  (x = "" \/ exists x', x = String ch x') ->
  (y = "" \/ exists y', y = String ch y') ->
  a ++ x = b ++ y -> a = b /\ x = y.
Proof.
  revert b. induction a as [|c a IH]; intros [|d b] Ha Hb Hx Hy H; simpl in *.
  - split; [reflexivity | exact H].
  - exfalso. apply andb_prop in Hb. destruct Hb as [Hd _].
    destruct Hx as [-> | [x' ->]]; [discriminate H|].
    injection H as <- _. rewrite Ascii.eqb_refl in Hd. discriminate Hd.
  - exfalso. apply andb_prop in Ha. destruct Ha as [Hc _].
    destruct Hy as [-> | [y' ->]]; [discriminate H|].
    injection H as -> _. rewrite Ascii.eqb_refl in Hc. discriminate Hc.
  - apply andb_prop in Ha. destruct Ha as [_ Ha].
    apply andb_prop in Hb. destruct Hb as [_ Hb].
    injection H as -> H. destruct (IH b Ha Hb Hx Hy H) as [-> ->].
    split; reflexivity.
Qed.

(** Decimal numerals. *)
Lemma to_uint_not_nil (n : nat) : Nat.to_uint n <> Decimal.Nil.
Proof.
  rewrite DecimalNat.Unsigned.to_uint_alt. intros H.
  apply DecimalFacts.rev_nil_inv in H.
  destruct n as [|n]; [discriminate H|].
  rewrite DecimalNat.Unsigned.to_lu_succ in H.
  destruct (DecimalNat.Unsigned.to_lu n) as [|u|u|u|u|u|u|u|u|u|u]; discriminate H.
Qed.

Lemma showNat_inj (n m : nat) : showNat n = showNat m -> n = m.
Proof.
  unfold showNat. intros H.
  apply DecimalNat.Unsigned.to_uint_inj.
  pose proof (NilZero.usu _ (to_uint_not_nil n)) as Hn.
  pose proof (NilZero.usu _ (to_uint_not_nil m)) as Hm.
  rewrite H in Hn. rewrite Hn in Hm. injection Hm as Hm. exact Hm.
Qed.

Lemma digits_free_of (ch : ascii) (d : Decimal.uint) :
  (nat_of_ascii ch < 48 \/ 57 < nat_of_ascii ch)%nat ->
  DomBuilder.allChars (fun c => negb (Ascii.eqb c ch)) (NilZero.string_of_uint d) = true.
Proof.
  intros Hch.
  assert (Hd : forall c, (48 <= nat_of_ascii c <= 57)%nat -> negb (Ascii.eqb c ch) = true).
  { intros c Hc. apply negb_true_iff. apply Ascii.eqb_neq. intros ->. lia. }
  assert (He : forall u, DomBuilder.allChars (fun c => negb (Ascii.eqb c ch))
                           (NilEmpty.string_of_uint u) = true).
  { induction u as [|u IH|u IH|u IH|u IH|u IH|u IH|u IH|u IH|u IH|u IH];
      cbn [NilEmpty.string_of_uint DomBuilder.allChars];
      [reflexivity | | | | | | | | | |];
      rewrite IH, Hd by (vm_compute; lia); reflexivity. }
  destruct d; try apply He.
  cbn [NilZero.string_of_uint DomBuilder.allChars].
  rewrite Hd by (vm_compute; lia). reflexivity.
Qed.

(** Lower case. *)
Lemma lowerChar_code (c : ascii) :
  nat_of_ascii (lowerChar c)
  = if (((65 <=? nat_of_ascii c) && (nat_of_ascii c <=? 90))
        || ((192 <=? nat_of_ascii c) && (nat_of_ascii c <=? 222)
            && negb (nat_of_ascii c =? 215)))%nat
    then (nat_of_ascii c + 32)%nat else nat_of_ascii c.
Proof.
  unfold lowerChar.
  destruct (((65 <=? nat_of_ascii c) && (nat_of_ascii c <=? 90))
            || ((192 <=? nat_of_ascii c) && (nat_of_ascii c <=? 222)
                && negb (nat_of_ascii c =? 215)))%nat eqn:E; [|reflexivity].
  apply nat_ascii_embedding. lia.
Qed.

Lemma lowerChar_inj (c d : ascii) :
  DomBuilder.plainChar c = true -> DomBuilder.plainChar d = true ->
  lowerChar c = lowerChar d -> c = d.
Proof.
  unfold DomBuilder.plainChar. intros Hc Hd H.
  apply (f_equal nat_of_ascii) in H. rewrite !lowerChar_code in H.
  rewrite <- (ascii_nat_embedding c), <- (ascii_nat_embedding d). f_equal.
  destruct (((65 <=? nat_of_ascii c) && (nat_of_ascii c <=? 90))
            || ((192 <=? nat_of_ascii c) && (nat_of_ascii c <=? 222)
                && negb (nat_of_ascii c =? 215)))%nat eqn:Ec;
    destruct (((65 <=? nat_of_ascii d) && (nat_of_ascii d <=? 90))
              || ((192 <=? nat_of_ascii d) && (nat_of_ascii d <=? 222)
                  && negb (nat_of_ascii d =? 215)))%nat eqn:Ed;
    lia.
Qed.

Lemma lowerChar_free_of (ch c : ascii) :
  (nat_of_ascii ch = 47 \/ nat_of_ascii ch = 91)%nat ->
  DomBuilder.plainChar c = true ->
  negb (Ascii.eqb (lowerChar c) ch) = true.
Proof.
  unfold DomBuilder.plainChar. intros Hch Hc.
  apply negb_true_iff, Ascii.eqb_neq. intros H.
  apply (f_equal nat_of_ascii) in H. rewrite lowerChar_code in H.
  destruct (((65 <=? nat_of_ascii c) && (nat_of_ascii c <=? 90))
            || ((192 <=? nat_of_ascii c) && (nat_of_ascii c <=? 222)
                && negb (nat_of_ascii c =? 215)))%nat eqn:Ec;
    lia.
Qed.

Lemma toLowerCase_inj (a b : string) :
  DomBuilder.allChars DomBuilder.plainChar a = true ->
  DomBuilder.allChars DomBuilder.plainChar b = true ->
  toLowerCase a = toLowerCase b -> a = b.
Proof.
  revert b. induction a as [|c a IH]; intros [|d b] Ha Hb H; simpl in *;
    try discriminate H; [reflexivity|].
  apply andb_prop in Ha. destruct Ha as [Hc Ha].
  apply andb_prop in Hb. destruct Hb as [Hd Hb].
  injection H as Hcd H.
  rewrite (@lowerChar_inj c d Hc Hd Hcd), (IH b Ha Hb H). reflexivity.
Qed.

Lemma toLowerCase_free_of (ch : ascii) (a : string) :
  (nat_of_ascii ch = 47 \/ nat_of_ascii ch = 91)%nat ->
  DomBuilder.allChars DomBuilder.plainChar a = true ->
  DomBuilder.allChars (fun c => negb (Ascii.eqb c ch)) (toLowerCase a) = true.
Proof.
  intros Hch. induction a as [|c a IH]; simpl; [reflexivity|].
  intros H. apply andb_prop in H. destruct H as [Hc Ha].
  rewrite (@lowerChar_free_of ch c Hch Hc), (IH Ha). reflexivity.
Qed.

End StringFacts.

Section LocatorFacts.

Import JS DomBuilder.

(** Segments. *)
Lemma segmentOf_inj (n1 n2 : string) (p1 p2 : list Sibling) :
  plainName n1 = true -> plainName n2 = true ->
  segmentOf n1 p1 = segmentOf n2 p2 ->
  n1 = n2 /\ sameNameBefore n1 p1 = sameNameBefore n2 p2.
Proof.
  unfold plainName. intros H1 H2 H.
  apply andb_prop in H1. destruct H1 as [_ H1].
  apply andb_prop in H2. destruct H2 as [_ H2].
  unfold segmentOf in H. cbv zeta in H.
  set (k1 := sameNameBefore n1 p1) in *. set (k2 := sameNameBefore n2 p2) in *.
  apply (@split_at "["%char) in H.
  - destruct H as [Hn Hx]. split; [apply toLowerCase_inj; assumption|].
    destruct (0 <? k1) eqn:E1; destruct (0 <? k2) eqn:E2;
      cbn [append] in Hx; try discriminate Hx.
    + injection Hx as Hx. apply string_append_inv_tail in Hx.
      apply showNat_inj in Hx. lia.
    + apply Nat.ltb_ge in E1. apply Nat.ltb_ge in E2. lia.
  - apply toLowerCase_free_of; [right; reflexivity | exact H1].
  - apply toLowerCase_free_of; [right; reflexivity | exact H2].
  - destruct (0 <? k1); [right; eexists; reflexivity | left; reflexivity].
  - destruct (0 <? k2); [right; eexists; reflexivity | left; reflexivity].
Qed.

Lemma segmentOf_slashFree (name : string) (prev : list Sibling) :
  plainName name = true -> slashFree (segmentOf name prev) = true.
Proof.
  unfold plainName, slashFree. intros H.
  apply andb_prop in H. destruct H as [Hne Hplain].
  apply andb_true_intro. split.
  - destruct name as [|c name]; [discriminate Hne|]. reflexivity.
  - unfold segmentOf. cbv zeta. rewrite allChars_append.
    rewrite toLowerCase_free_of by (try exact Hplain; left; reflexivity).
    destruct (0 <? sameNameBefore name prev); [|reflexivity].
    cbn [append allChars andb]. rewrite allChars_append.
    unfold showNat. rewrite digits_free_of by (left; vm_compute; lia).
    reflexivity.
Qed.

Lemma sameNameBefore_cons_le (name : string) (s : Sibling) (prev : list Sibling) :
  sameNameBefore name prev <= sameNameBefore name (s :: prev).
Proof.
  unfold sameNameBefore. cbn [filter].
  destruct (isElementNode s && String.eqb (nodeName s) name); cbn [List.length]; lia.
Qed.

Lemma sameNameBefore_self (name : string) (prev : list Sibling) :
  sameNameBefore name (mkSibling true name :: prev) = S (sameNameBefore name prev).
Proof.
  unfold sameNameBefore. cbn [filter isElementNode nodeName andb].
  rewrite String.eqb_refl. reflexivity.
Qed.

(** Joining. *)
Lemma join_cons (sep s : string) (l : list string) :
  join sep (s :: l)
  = (s ++ match l with [] => "" | _ :: _ => sep ++ join sep l end)%string.
Proof.
  destruct l as [|t l]; cbn [join]; [|reflexivity].
  symmetry. apply string_append_empty.
Qed.

Lemma join_inj (l1 l2 : list string) :
  forallb slashFree l1 = true -> forallb slashFree l2 = true ->
  join "/" l1 = join "/" l2 -> l1 = l2.
Proof.
  revert l2. induction l1 as [|s1 l1 IH]; intros [|s2 l2] H1 H2 H.
  - reflexivity.
  - exfalso. cbn [forallb] in H2. apply andb_prop in H2. destruct H2 as [H2 _].
    unfold slashFree in H2. apply andb_prop in H2. destruct H2 as [H2 _].
    rewrite join_cons in H. destruct s2; [discriminate H2 | discriminate H].
  - exfalso. cbn [forallb] in H1. apply andb_prop in H1. destruct H1 as [H1 _].
    unfold slashFree in H1. apply andb_prop in H1. destruct H1 as [H1 _].
    rewrite join_cons in H. destruct s1; [discriminate H1 | discriminate H].
  - cbn [forallb] in H1, H2.
    apply andb_prop in H1. destruct H1 as [Hs1 H1].
    apply andb_prop in H2. destruct H2 as [Hs2 H2].
    unfold slashFree in Hs1, Hs2.
    apply andb_prop in Hs1. destruct Hs1 as [_ Hs1].
    apply andb_prop in Hs2. destruct Hs2 as [_ Hs2].
    rewrite !join_cons in H.
    apply (@split_at "/"%char s1 s2 _ _ Hs1 Hs2) in H.
    + destruct H as [-> Ht]. f_equal.
      destruct l1 as [|t1 l1]; destruct l2 as [|t2 l2];
        try reflexivity; try discriminate Ht.
      cbn [append] in Ht. injection Ht as Ht. apply IH; assumption.
    + destruct l1; [left; reflexivity | right; eexists; reflexivity].
    + destruct l2; [left; reflexivity | right; eexists; reflexivity].
Qed.

(** The way up. *)
Lemma xpathSegments_acc (stop : bool) :
  forall (loc : Located) (acc : list string),
    xpathSegments stop loc acc = (xpathSegments stop loc [] ++ acc)%list.
Proof.
  fix IH 1. intros [name prev above] acc. cbn [xpathSegments].
  destruct (stop && atBoundary above); [reflexivity|].
  destruct above as [| | |isIFrame parent]; try reflexivity.
  rewrite (IH parent (segmentOf name prev :: acc)).
  rewrite (IH parent [segmentOf name prev]).
  rewrite <- app_assoc. reflexivity.
Qed.

Lemma xpathSegments_here (name : string) (prev : list Sibling) (above : Above) :
  atBoundary above = false ->
  xpathSegments true (Loc name prev above) []
  = (segmentsAbove above ++ [segmentOf name prev])%list.
Proof.
  intros H. cbn [xpathSegments]. rewrite H. cbn [andb].
  destruct above as [| | |isIFrame parent]; try reflexivity.
  cbn [segmentsAbove]. apply xpathSegments_acc.
Qed.

(** The elements of a tree and their paths, by siblings. *)
Lemma locate_elem (e : Element) (kids : list Node) shadow frame
      (prev : list Sibling) (above : Above) :
  locate (Elem e kids shadow frame) prev above
  = (e, Loc (tagName e) prev above)
    :: locateSiblings kids []
         (ElementAbove (isIFrameElement e) (Loc (tagName e) prev above)).
Proof.
  cbn [locate]. f_equal. generalize (@nil Sibling).
  induction kids as [|c l IH]; intros previous; [reflexivity|].
  cbn [locateSiblings]. rewrite <- IH. reflexivity.
Qed.

Lemma relativePaths_elem (e : Element) (kids : list Node) shadow frame
      (prev : list Sibling) :
  relativePaths (Elem e kids shadow frame) prev
  = [segmentOf (tagName e) prev]
    :: map (cons (segmentOf (tagName e) prev)) (siblingPaths kids []).
Proof.
  reflexivity.
Qed.

Lemma plainTree_elem (e : Element) (kids : list Node) shadow frame :
  plainTree (Elem e kids shadow frame) = true ->
  plainName (tagName e) = true
  /\ (isIFrameElement e = true -> forallb (fun c => negb (isElem c)) kids = true)
  /\ forallb plainTree kids = true.
Proof.
  cbn [plainTree]. intros H.
  apply andb_prop in H. destruct H as [H Hkids].
  apply andb_prop in H. destruct H as [Hname Hframe].
  split; [exact Hname|]. split; [|exact Hkids].
  intros Hif. rewrite Hif in Hframe. exact Hframe.
Qed.

Lemma no_elements_no_paths (l : list Node) (prev : list Sibling) (above : Above) :
  forallb (fun c => negb (isElem c)) l = true ->
  locateSiblings l prev above = [] /\ siblingPaths l prev = [].
Proof.
  revert prev. induction l as [|c l IH]; intros prev H; [split; reflexivity|].
  cbn [forallb] in H. apply andb_prop in H. destruct H as [Hc Hl].
  cbn [locateSiblings siblingPaths].
  destruct (IH (siblingOf c :: prev) Hl) as [-> ->].
  destruct c; [split; reflexivity | discriminate Hc | split; reflexivity].
Qed.

(** The segments of an element of a plain tree are those above the tree
    followed by the element's path in the tree. *)
Lemma siblings_segments (l : list Node) :
  Forall (fun n => forall prev above,
            plainTree n = true -> atBoundary above = false ->
            map (fun el => xpathSegments true (snd el) []) (locate n prev above)
            = map (app (segmentsAbove above)) (relativePaths n prev)) l ->
  forall prev above,
    forallb plainTree l = true -> atBoundary above = false ->
    map (fun el => xpathSegments true (snd el) []) (locateSiblings l prev above)
    = map (app (segmentsAbove above)) (siblingPaths l prev).
Proof.
  induction 1 as [|c l Hc _ IH]; intros prev above Hplain Hab; [reflexivity|].
  cbn [forallb] in Hplain. apply andb_prop in Hplain. destruct Hplain as [Hpc Hpl].
  cbn [locateSiblings siblingPaths]. rewrite !map_app.
  rewrite (Hc prev above Hpc Hab), (IH (siblingOf c :: prev) above Hpl Hab).
  reflexivity.
Qed.

Lemma locate_segments (n : Node) :
  forall prev above,
    plainTree n = true -> atBoundary above = false ->
    map (fun el => xpathSegments true (snd el) []) (locate n prev above)
    = map (app (segmentsAbove above)) (relativePaths n prev).
Proof.
  induction n as [t r parent| |e kids shadow frame IH _ _] using Node_nested_ind;
    intros prev above Hplain Hab; [reflexivity | reflexivity |].
  destruct (plainTree_elem _ _ _ _ Hplain) as [_ [Hframe Hkids]].
  rewrite locate_elem, relativePaths_elem. cbn [map snd].
  rewrite (xpathSegments_here _ _ _ Hab). f_equal.
  rewrite map_map.
  destruct (isIFrameElement e) eqn:Hif.
  - destruct (no_elements_no_paths kids [] 
                (ElementAbove true (Loc (tagName e) prev above)) (Hframe eq_refl))
      as [-> ->].
    reflexivity.
  - rewrite (siblings_segments IH [] (ElementAbove false (Loc (tagName e) prev above))
               Hkids eq_refl).
    cbn [segmentsAbove]. rewrite (xpathSegments_here _ _ _ Hab).
    apply map_ext. intros p. rewrite <- app_assoc. reflexivity.
Qed.

(** Every path starts with the segment of an element of a plain name. *)
Lemma relativePaths_heads (n : Node) (prev : list Sibling) (p : list string) :
  In p (relativePaths n prev) ->
  exists e kids shadow frame rest,
    n = Elem e kids shadow frame /\ p = segmentOf (tagName e) prev :: rest.
Proof.
  destruct n as [t r parent|e kids shadow frame|]; [intros [] | | intros []].
  rewrite relativePaths_elem. intros [<- | H].
  - exists e, kids, shadow, frame, []. split; reflexivity.
  - apply in_map_iff in H. destruct H as [rest [<- _]].
    exists e, kids, shadow, frame, rest. split; reflexivity.
Qed.

Lemma siblingPaths_heads (l : list Node) :
  forall (prev : list Sibling) (p : list string),
    forallb plainTree l = true -> In p (siblingPaths l prev) ->
    exists name prev' rest,
      p = segmentOf name prev' :: rest /\ plainName name = true
      /\ sameNameBefore name prev <= sameNameBefore name prev'.
Proof.
  induction l as [|c l IH]; intros prev p Hplain Hin; [destruct Hin|].
  cbn [forallb] in Hplain. apply andb_prop in Hplain. destruct Hplain as [Hpc Hpl].
  cbn [siblingPaths] in Hin. apply in_app_or in Hin. destruct Hin as [Hin | Hin].
  - apply relativePaths_heads in Hin.
    destruct Hin as [e [kids [shadow [frame [rest [-> ->]]]]]].
    exists (tagName e), prev, rest. split; [reflexivity|].
    split; [apply (plainTree_elem _ _ _ _ Hpc) | apply Nat.le_refl].
  - destruct (IH _ _ Hpl Hin) as [name [prev' [rest [-> [Hname Hle]]]]].
    exists name, prev', rest. split; [reflexivity|]. split; [exact Hname|].
    pose proof (sameNameBefore_cons_le name (siblingOf c) prev). lia.
Qed.

(** No path occurs twice. *)
Lemma siblingPaths_NoDup (l : list Node) :
  Forall (fun n => forall prev, plainTree n = true -> NoDup (relativePaths n prev)) l ->
  forall prev, forallb plainTree l = true -> NoDup (siblingPaths l prev).
Proof.
  induction 1 as [|c l Hc _ IH]; intros prev Hplain; [constructor|].
  cbn [forallb] in Hplain. apply andb_prop in Hplain. destruct Hplain as [Hpc Hpl].
  cbn [siblingPaths]. apply NoDup_app.
  - apply Hc, Hpc.
  - apply IH, Hpl.
  - intros p Hin Hin'.
    apply relativePaths_heads in Hin.
    destruct Hin as [e [kids [shadow [frame [rest [-> ->]]]]]].
    destruct (siblingPaths_heads _ _ _ Hpl Hin') as [name [prev' [rest' [Heq [Hname Hle]]]]].
    injection Heq as Hseg _.
    destruct (segmentOf_inj _ _ _ _ (proj1 (plainTree_elem _ _ _ _ Hpc)) Hname Hseg)
      as [<- Hcount].
    cbn [siblingOf] in Hle. rewrite sameNameBefore_self in Hle. lia.
Qed.

Lemma relativePaths_NoDup (n : Node) :
  forall prev, plainTree n = true -> NoDup (relativePaths n prev).
Proof.
  induction n as [t r parent| |e kids shadow frame IH _ _] using Node_nested_ind;
    intros prev Hplain; [constructor | constructor |].
  destruct (plainTree_elem _ _ _ _ Hplain) as [_ [_ Hkids]].
  rewrite relativePaths_elem. constructor.
  - intros Hin. apply in_map_iff in Hin. destruct Hin as [rest [Heq Hin]].
    injection Heq as ->.
    destruct (siblingPaths_heads _ _ _ Hkids Hin) as [? [? [? [Habs _]]]].
    discriminate Habs.
  - apply NoDup_map_NoDup_ForallPairs; [|apply (siblingPaths_NoDup IH), Hkids].
    intros p q _ _ Heq. injection Heq as ->. reflexivity.
Qed.

(** Every segment of a path is not empty and holds no slash. *)
Lemma siblingPaths_slashFree (l : list Node) :
  Forall (fun n => forall prev p, plainTree n = true -> In p (relativePaths n prev) ->
                                  forallb slashFree p = true) l ->
  forall prev p, forallb plainTree l = true -> In p (siblingPaths l prev) ->
                 forallb slashFree p = true.
Proof.
  induction 1 as [|c l Hc _ IH]; intros prev p Hplain Hin; [destruct Hin|].
  cbn [forallb] in Hplain. apply andb_prop in Hplain. destruct Hplain as [Hpc Hpl].
  cbn [siblingPaths] in Hin. apply in_app_or in Hin. destruct Hin as [Hin | Hin].
  - apply (Hc prev p Hpc Hin).
  - apply (IH _ p Hpl Hin).
Qed.

Lemma relativePaths_slashFree (n : Node) :
  forall prev p, plainTree n = true -> In p (relativePaths n prev) ->
                 forallb slashFree p = true.
Proof.
  induction n as [t r parent| |e kids shadow frame IH _ _] using Node_nested_ind;
    intros prev p Hplain Hin; [destruct Hin | destruct Hin |].
  destruct (plainTree_elem _ _ _ _ Hplain) as [Hname [_ Hkids]].
  rewrite relativePaths_elem in Hin. destruct Hin as [<- | Hin].
  - cbn [forallb]. rewrite (segmentOf_slashFree _ prev Hname). reflexivity.
  - apply in_map_iff in Hin. destruct Hin as [rest [<- Hin]].
    cbn [forallb]. rewrite (segmentOf_slashFree _ prev Hname).
    apply (siblingPaths_slashFree IH _ _ Hkids Hin).
Qed.

End LocatorFacts.

(** In a document without shadow roots whose node names are plain -- not
    empty, and holding no slash, no opening bracket and none of the letters
    that [toLowerCase] gives (a to z and the code units from 224 to 254
    other than 247) -- and whose IFRAME elements hold no child elements, no
    two elements get the same locator from [_getXPathTree]. *)
Theorem locators_are_unique_in_a_plain_document :
  forall root : DomBuilder.Node,
    DomBuilder.plainTree root = true -> NoDup (DomBuilder.locators root).
Proof.
  intros root Hplain. unfold DomBuilder.locators, DomBuilder._getXPathTree.
  rewrite <- (map_map (fun el => DomBuilder.xpathSegments true (snd el) [])
                      (JS.join "/")).
  rewrite (locate_segments root [] DomBuilder.DocumentAbove Hplain eq_refl).
  cbn [DomBuilder.segmentsAbove]. rewrite map_map.
  apply NoDup_map_NoDup_ForallPairs; [|apply relativePaths_NoDup, Hplain].
  intros p q Hp Hq Heq. cbn [app] in Heq.
  apply join_inj; [| |exact Heq].
  - apply (relativePaths_slashFree root [] p Hplain Hp).
  - apply (relativePaths_slashFree root [] q Hplain Hq).
Qed.

Lemma locators_of_the_list_document_are_unique :
  DomBuilder.plainTree DomBuilder.listDocument = true
  /\ NoDup (DomBuilder.locators DomBuilder.listDocument).
Proof.
  split; [reflexivity|].
  apply (locators_are_unique_in_a_plain_document DomBuilder.listDocument).
  reflexivity.
Defined.

(** Without plain names the locators need not differ: two siblings whose
    names differ only in the case of a letter get the same locator, each
    being the first of its name and both names being the same in lower
    case. *)
Example locators_collide_for_names_that_differ_in_case :
  DomBuilder.plainTree DomBuilder.accentedSiblings = false
  /\ DomBuilder.locators DomBuilder.accentedSiblings
     = ["html";
        "html/x-" ++ String (ascii_of_nat 224) EmptyString;
        "html/x-" ++ String (ascii_of_nat 224) EmptyString]%string.
Proof. split; vm_compute; reflexivity. Qed.
